(** * Nabla builder service: a shallow embedding of [builder/src/build.py]

    The builder turns an uploaded source bundle into a container image
    (classify the runtime, merge the runtime scaffold, drive
    [docker build/tag/push]) and recovers the source of a built image
    ([docker create/cp/rm]).  The Python code is embedded as functions in a
    state-and-exception monad over a small model of the file system, of the
    docker daemon and of the logger. *)

From Stdlib Require Import String Ascii List ZArith Bool.
Import ListNotations.

Local Open Scope string_scope.
Local Open Scope list_scope.

Notation "a +++ b" := (String.append a b) (at level 60, right associativity).

(** ** Python exceptions raised by the modelled calls *)

Inductive exn :=
| CalledProcessError (cmd : list string) (returncode : Z)
| FileNotFoundError
| NotADirectoryError
| IsADirectoryError
| FileExistsError
| BadZipFile.

Inductive result (A : Type) :=
| Ok (a : A)
| Raise (e : exn).

Arguments Ok {A} a.
Arguments Raise {A} e.

(** ** Directory trees *)

Set Warnings "-register-all".

Module Fs.

(** A file holds its bytes; a directory holds named entries, in the order
    [os.listdir] reports them. *)
Inductive node :=
| File (data : string)
| Dir (entries : list (string * node)).

Abbreviation dir := (list (string * node)) (only parsing).
Abbreviation path := (list string) (only parsing).

Fixpoint lookup (name : string) (d : dir) : option node :=
  match d with
  | [] => None
  | (n, x) :: rest => if String.eqb n name then Some x else lookup name rest
  end.

(** Create the entry [name], or replace it when it is there. *)
Fixpoint put (name : string) (x : node) (d : dir) : dir :=
  match d with
  | [] => [(name, x)]
  | (n, y) :: rest =>
      if String.eqb n name then (n, x) :: rest else (n, y) :: put name x rest
  end.

Definition remove (name : string) (d : dir) : dir :=
  filter (fun e => negb (String.eqb (fst e) name)) d.

Definition names (d : dir) : list string := map fst d.

(** The node a path leads to, if any. *)
Fixpoint resolve (p : path) (n : node) : option node :=
  match p with
  | [] => Some n
  | c :: q =>
      match n with
      | File _ => None
      | Dir es =>
          match lookup c es with
          | Some m => resolve q m
          | None => None
          end
      end
  end.

Definition resolve_from (p : path) (cur : option node) : option node :=
  match cur with
  | Some n => resolve p n
  | None => None
  end.

(** Install [x] at path [p] below [cur] ([None]: nothing is there yet).
    With [mk] the missing parent directories are created, as
    [os.makedirs] does; without it a missing parent is an error. *)
Fixpoint store (mk : bool) (p : path) (x : node) (cur : option node)
  : result node :=
  match p with
  | [] => Ok x
  | c :: q =>
      match cur with
      | Some (Dir es) =>
          match store mk q x (lookup c es) with
          | Ok y => Ok (Dir (put c y es))
          | Raise e => Raise e
          end
      | Some (File _) => Raise NotADirectoryError
      | None =>
          if mk then
            match store mk q x None with
            | Ok y => Ok (Dir [(c, y)])
            | Raise e => Raise e
            end
          else Raise FileNotFoundError
      end
  end.

(** Remove the entry a non-empty path leads to; other paths are left. *)
Fixpoint delete (p : path) (n : node) : node :=
  match p, n with
  | [c], Dir es => Dir (remove c es)
  | c :: q, Dir es =>
      match lookup c es with
      | Some m => Dir (put c (delete q m) es)
      | None => n
      end
  | _, _ => n
  end.

End Fs.

Definition mem (s : string) (l : list string) : bool :=
  existsb (String.eqb s) l.

Fixpoint join (sep : string) (l : list string) : string :=
  match l with
  | [] => ""
  | [x] => x
  | x :: rest => x +++ sep +++ join sep rest
  end.

(** ** The world the service runs in *)

Inductive level := INFO | WARNING | ERROR.

(** The two parts of the file system the service touches are kept apart:
    the tree below [/app/runtimes] and the tree below the temporary
    directory root. *)
Inductive root := AppRuntimes | TempRoot.

Definition loc := (root * Fs.path)%type.

(** ** Command lines

    An argument of a docker command line: a literal, a path on the local
    file system, or a path inside a container ([<container>:<path>]). *)
Inductive arg :=
| Lit (s : string)
| Local (l : loc)
| Remote (container : string) (inner : string).

Record world := mkWorld {
  runtimes : Fs.dir;               (* content of /app/runtimes *)
  tmp : Fs.dir;                    (* content of the temp root *)
  containers : list string;        (* containers the docker daemon holds *)
  trace : list (list arg);         (* docker commands run so far, oldest first *)
  log : list (level * string)      (* records emitted through [logger] *)
}.

Definition tree (r : root) (w : world) : Fs.node :=
  match r with
  | AppRuntimes => Fs.Dir (runtimes w)
  | TempRoot => Fs.Dir (tmp w)
  end.

Definition entries_of (n : Fs.node) : Fs.dir :=
  match n with
  | Fs.Dir es => es
  | Fs.File _ => []
  end.

Definition set_tree (r : root) (n : Fs.node) (w : world) : world :=
  match r with
  | AppRuntimes =>
      mkWorld (entries_of n) (tmp w) (containers w) (trace w) (log w)
  | TempRoot =>
      mkWorld (runtimes w) (entries_of n) (containers w) (trace w) (log w)
  end.

Definition set_containers (cs : list string) (w : world) : world :=
  mkWorld (runtimes w) (tmp w) cs (trace w) (log w).

Definition add_trace (cmd : list arg) (w : world) : world :=
  mkWorld (runtimes w) (tmp w) (containers w) (trace w ++ [cmd]) (log w).

Definition add_log (l : level) (msg : string) (w : world) : world :=
  mkWorld (runtimes w) (tmp w) (containers w) (trace w) (log w ++ [(l, msg)]).

Definition root_str (r : root) : string :=
  match r with
  | AppRuntimes => "/app/runtimes"
  | TempRoot => "/tmp"
  end.

Definition loc_str (l : loc) : string :=
  join "/" (root_str (fst l) :: snd l).

Definition arg_str (a : arg) : string :=
  match a with
  | Lit s => s
  | Local l => loc_str l
  | Remote container inner => container +++ ":" +++ inner
  end.

(** [os.path.join(dir, item)] *)
Definition os_path_join (l : loc) (item : string) : loc :=
  (fst l, snd l ++ [item]).

(** ** State and exception monad *)

Definition M (A : Type) := world -> result A * world.

Definition ret {A} (a : A) : M A := fun w => (Ok a, w).

Definition raise {A} (e : exn) : M A := fun w => (Raise e, w).

Definition bind {A B} (m : M A) (k : A -> M B) : M B :=
  fun w =>
    match m w with
    | (Ok a, w') => k a w'
    | (Raise e, w') => (Raise e, w')
    end.

Notation "x <- c1 ;; c2" := (bind c1 (fun x => c2))
  (at level 61, c1 at next level, right associativity).
Notation "c1 ;; c2" := (bind c1 (fun _ => c2))
  (at level 61, right associativity).

(** [try: body  except ...: handler] -- the handler re-raises what its
    [except] clauses do not match. *)
Definition try_except {A} (body : M A) (handler : exn -> M A) : M A :=
  fun w =>
    match body w with
    | (Ok a, w') => (Ok a, w')
    | (Raise e, w') => handler e w'
    end.

(** [try: body  finally: fin] -- [fin] always runs; when it raises, its
    exception replaces the outcome of [body], be it a value or an
    exception. *)
Definition try_finally {A} (body : M A) (fin : M unit) : M A :=
  fun w =>
    match body w with
    | (r, w') =>
        match fin w' with
        | (Ok _, w'') => (r, w'')
        | (Raise e, w'') => (Raise e, w'')
        end
    end.

Fixpoint for_each {A} (xs : list A) (body : A -> M unit) : M unit :=
  match xs with
  | [] => ret tt
  | x :: rest => body x ;; for_each rest body
  end.

Definition logger (l : level) (msg : string) : M unit :=
  fun w => (Ok tt, add_log l msg w).

(** ** File-system calls *)

Definition os_path_exists (l : loc) : M bool :=
  fun w =>
    match Fs.resolve (snd l) (tree (fst l) w) with
    | Some _ => (Ok true, w)
    | None => (Ok false, w)
    end.

Definition os_path_isdir (l : loc) : M bool :=
  fun w =>
    match Fs.resolve (snd l) (tree (fst l) w) with
    | Some (Fs.Dir _) => (Ok true, w)
    | _ => (Ok false, w)
    end.

Definition os_listdir (l : loc) : M (list string) :=
  fun w =>
    match Fs.resolve (snd l) (tree (fst l) w) with
    | Some (Fs.Dir es) => (Ok (Fs.names es), w)
    | Some (Fs.File _) => (Raise NotADirectoryError, w)
    | None => (Raise FileNotFoundError, w)
    end.

(** ** Runtime detection *)

(** The dict literal, in insertion order (the order [.items()] yields). *)
Definition RUNTIME_PATTERNS : list (string * list string) :=
  [ ("python-flask", ["requirements.txt"; "app.py"; "wsgi.py"]);
    ("nodejs", ["package.json"; "index.js"; "server.js"]);
    ("go", ["go.mod"; "main.go"]) ].

(** The inner loop: does some pattern of the list occur in [files]? *)
Fixpoint any_pattern (patterns files : list string) : bool :=
  match patterns with
  | [] => false
  | pattern :: rest => if mem pattern files then true else any_pattern rest files
  end.

(** The outer loop: the runtime at which the nested loops return, if any. *)
Fixpoint scan_runtimes (items : list (string * list string))
  (files : list string) : option string :=
  match items with
  | [] => None
  | (runtime, patterns) :: rest =>
      if any_pattern patterns files then Some runtime
      else scan_runtimes rest files
  end.

Definition detect_runtime (source_dir : Fs.path) : M string :=
  files <- os_listdir (TempRoot, source_dir) ;;
  match scan_runtimes RUNTIME_PATTERNS files with
  | Some runtime =>
      logger INFO ("Detected runtime: " +++ runtime) ;;
      ret runtime
  | None =>
      logger WARNING "No runtime detected, defaulting to python-flask" ;;
      ret "python-flask"
  end.

(** ** Copying files and trees *)

(** [shutil.copytree(src, dst)]: [dst] must not exist; it is created, with
    its missing parents, as a copy of the directory [src]. *)
Definition shutil_copytree (src dst : loc) : M unit :=
  fun w =>
    match Fs.resolve (snd src) (tree (fst src) w) with
    | Some (Fs.Dir es) =>
        match Fs.resolve (snd dst) (tree (fst dst) w) with
        | Some _ => (Raise FileExistsError, w)
        | None =>
            match Fs.store true (snd dst) (Fs.Dir es) (Some (tree (fst dst) w)) with
            | Ok t => (Ok tt, set_tree (fst dst) t w)
            | Raise e => (Raise e, w)
            end
        end
    | Some (Fs.File _) => (Raise NotADirectoryError, w)
    | None => (Raise FileNotFoundError, w)
    end.

Definition basename (l : loc) : string := last (snd l) "".

(** [shutil.copy2(src, dst)]: when [dst] is a directory the file goes
    inside it under the name of [src]; an existing file is overwritten; the
    parent of the target must exist. *)
Definition shutil_copy2 (src dst : loc) : M unit :=
  fun w =>
    let dst :=
      match Fs.resolve (snd dst) (tree (fst dst) w) with
      | Some (Fs.Dir _) => os_path_join dst (basename src)
      | _ => dst
      end in
    match Fs.resolve (snd src) (tree (fst src) w) with
    | Some (Fs.File data) =>
        match Fs.resolve (snd dst) (tree (fst dst) w) with
        | Some (Fs.Dir _) => (Raise IsADirectoryError, w)
        | _ =>
            match Fs.store false (snd dst) (Fs.File data) (Some (tree (fst dst) w)) with
            | Ok t => (Ok tt, set_tree (fst dst) t w)
            | Raise e => (Raise e, w)
            end
        end
    | Some (Fs.Dir _) => (Raise IsADirectoryError, w)
    | None => (Raise FileNotFoundError, w)
    end.

(** ** Scaffold injection *)

(** The body of the loop over the scaffold entries. *)
Definition inject_item (scaffold_dir source_dir : loc) (item : string) : M unit :=
  let src := os_path_join scaffold_dir item in
  let dst := os_path_join source_dir item in
  present <- os_path_exists dst ;;
  if present then ret tt
  else
    isdir <- os_path_isdir src ;;
    if isdir then shutil_copytree src dst else shutil_copy2 src dst.

Definition inject_scaffold (source_dir : Fs.path) (runtime : string) : M unit :=
  let scaffold_dir := (AppRuntimes, [runtime]) in
  found <- os_path_exists scaffold_dir ;;
  if negb found then
    logger WARNING ("Scaffold directory for " +++ runtime +++ " not found")
  else
    items <- os_listdir scaffold_dir ;;
    for_each items (inject_item scaffold_dir (TempRoot, source_dir)) ;;
    logger INFO ("Injected scaffold for " +++ runtime).

(** ** The platform the service is deployed on

    What the code reaches through the operating system and the Python
    library is collected in one record: the environment, the docker
    command-line client (the outcome of a command, given the commands run
    before it), the content of containers, [str()] on exceptions, the zip
    codec and the names [tempfile] draws. *)

Inductive proc :=
| Exit (returncode : Z) (stdout : string)
| NoExecutable.

Record platform := mkPlatform {
  env_REGISTRY_URL : option string;
  docker : list (list arg) -> list arg -> proc;
  container_files : string -> string -> Fs.dir;
  str : exn -> string;
  zip_decode : string -> option (list (Fs.path * string));
  zip_encode : list (Fs.path * string) -> string;
  mkdtemp_names : list string
}.

(** [str.strip()] on ASCII text *)
Definition is_space (c : ascii) : bool :=
  let n := nat_of_ascii c in
  (Nat.leb 9 n && Nat.leb n 13) || (Nat.leb 28 n && Nat.leb n 32).

Fixpoint lstrip (s : string) : string :=
  match s with
  | String c rest => if is_space c then lstrip rest else s
  | EmptyString => s
  end.

Fixpoint rev_string (s acc : string) : string :=
  match s with
  | String c rest => rev_string rest (String c acc)
  | EmptyString => acc
  end.

Definition strip (s : string) : string :=
  rev_string (lstrip (rev_string (lstrip s) "")) "".

(** *** The docker daemon

    What a docker command that exits with status 0 has done: [create] has
    added a container named by its output, [rm] has removed the named
    container, [cp] has copied the entries of the container directory into
    the local directory.  [build], [tag] and [push] act on the image store
    and the registry, which are not part of the world. *)

Definition copy_out (entries : Fs.dir) (dst : loc) (w : world) : world :=
  fold_left
    (fun w e =>
       match Fs.store false (snd dst ++ [fst e]) (snd e) (Some (tree (fst dst) w)) with
       | Ok t => set_tree (fst dst) t w
       | Raise _ => w
       end)
    entries w.

Definition daemon (P : platform) (cmd : list arg) (stdout : string) (w : world)
  : world :=
  match cmd with
  | [Lit d; Lit verb; Lit x] =>
      if String.eqb d "docker" && String.eqb verb "create" then
        set_containers (containers w ++ [strip stdout]) w
      else if String.eqb d "docker" && String.eqb verb "rm" then
        set_containers (filter (fun c => negb (String.eqb c x)) (containers w)) w
      else w
  | [Lit d; Lit verb; Remote container inner; Local dst] =>
      if String.eqb d "docker" && String.eqb verb "cp" then
        copy_out (container_files P container inner) dst w
      else w
  | _ => w
  end.

(** [os.walk(top)] restricted to what the archive loop uses: every file
    below [top], top-down, with its path relative to [top], leaving out
    the files named [skip]. *)
Fixpoint walk_files (skip : string) (here : Fs.path) (n : Fs.node)
  : list (Fs.path * string) :=
  match n with
  | Fs.File _ => []
  | Fs.Dir es =>
      flat_map
        (fun e =>
           match snd e with
           | Fs.File data =>
               if String.eqb (fst e) skip then [] else [(here ++ [fst e], data)]
           | Fs.Dir _ => []
           end) es
      ++ (fix below (es : list (string * Fs.node)) : list (Fs.path * string) :=
            match es with
            | [] => []
            | (name, sub) :: rest => walk_files skip (here ++ [name]) sub ++ below rest
            end) es
  end.

Inductive response :=
| Jsonify (body : list (string * string)) (status : Z)
| SendFile (download_name : string) (data : string).

Record request := mkRequest {
  files_file : option string;     (* request.files['file'], its bytes *)
  form_name : option string       (* request.form.get('name') *)
}.

Section Service.

Variable P : platform.

Definition REGISTRY_URL : string :=
  match env_REGISTRY_URL P with
  | Some url => url
  | None => "localhost:5001"
  end.

(** [subprocess.run(cmd, check=True)] and [subprocess.check_output(cmd)]:
    the command is run to completion; a non-zero status raises
    [CalledProcessError]; the result is the captured output. *)
Definition subprocess_run (cmd : list arg) : M string :=
  fun w =>
    match docker P (trace w) cmd with
    | Exit rc out =>
        if Z.eqb rc 0 then (Ok out, daemon P cmd out (add_trace cmd w))
        else (Raise (CalledProcessError (map arg_str cmd) rc), add_trace cmd w)
    | NoExecutable => (Raise FileNotFoundError, add_trace cmd w)
    end.

Definition build_cmd (image_name : string) (source_dir : Fs.path) : list arg :=
  [Lit "docker"; Lit "build"; Lit "-t"; Lit image_name;
   Local (TempRoot, source_dir)].

Definition tag_cmd (image_name internal_image_name : string) : list arg :=
  [Lit "docker"; Lit "tag"; Lit image_name; Lit internal_image_name].

Definition push_cmd (internal_image_name : string) : list arg :=
  [Lit "docker"; Lit "push"; Lit internal_image_name].

(** The [try ... except subprocess.CalledProcessError] block of
    [build_image]. *)
Definition build_tag_push (source_dir : Fs.path)
  (image_name push_registry function_name : string) : M (option string) :=
  try_except
    (let cmd := build_cmd image_name source_dir in
     logger INFO ("Building image: " +++ join " " (map arg_str cmd)) ;;
     subprocess_run cmd ;;
     let internal_image_name :=
       push_registry +++ "/" +++ function_name +++ ":latest" in
     (if negb (String.eqb internal_image_name image_name) then
        let cmd := tag_cmd image_name internal_image_name in
        logger INFO ("Tagging image for internal network: "
                     +++ join " " (map arg_str cmd)) ;;
        subprocess_run cmd ;;
        ret tt
      else ret tt) ;;
     let cmd := push_cmd internal_image_name in
     logger INFO ("Pushing image: " +++ join " " (map arg_str cmd)) ;;
     subprocess_run cmd ;;
     ret (Some image_name))
    (fun e =>
       match e with
       | CalledProcessError _ _ =>
           logger ERROR ("Build failed: " +++ str P e) ;;
           ret None
       | _ => raise e
       end).

Definition build_image (source_dir : Fs.path) (function_name runtime : string)
  : M (option string) :=
  let image_name := REGISTRY_URL +++ "/" +++ function_name +++ ":latest" in
  let push_registry := "localhost:5001" in
  let dockerfile := (AppRuntimes, [runtime; "Dockerfile"]) in
  found <- os_path_exists dockerfile ;;
  if negb found then
    logger ERROR ("Dockerfile for runtime " +++ runtime +++ " not found") ;;
    ret None
  else
    shutil_copy2 dockerfile (os_path_join (TempRoot, source_dir) "Dockerfile") ;;
    build_tag_push source_dir image_name push_registry function_name.

(** *** Temporary directories *)

(** [tempfile.mkdtemp]: candidate names are drawn until one is free. *)
Definition first_free (candidates : list string) (d : Fs.dir) : option string :=
  find (fun name =>
          match Fs.lookup name d with
          | None => true
          | Some _ => false
          end) candidates.

Definition mkdtemp : M loc :=
  fun w =>
    match first_free (mkdtemp_names P) (tmp w) with
    | Some name =>
        (Ok (TempRoot, [name]),
         set_tree TempRoot (Fs.Dir (Fs.put name (Fs.Dir []) (tmp w))) w)
    | None => (Raise FileExistsError, w)
    end.

Definition rmtree (l : loc) : M unit :=
  fun w => (Ok tt, set_tree (fst l) (Fs.delete (snd l) (tree (fst l) w)) w).

(** [with tempfile.TemporaryDirectory() as temp_dir: body] *)
Definition with_TemporaryDirectory {A} (body : loc -> M A) : M A :=
  temp_dir <- mkdtemp ;;
  try_finally (body temp_dir) (rmtree temp_dir).

(** *** Files and archives *)

(** Open [l] for writing and write [data]; with [mk] the missing parent
    directories are created first. *)
Definition write_file (mk : bool) (l : loc) (data : string) : M unit :=
  fun w =>
    match Fs.resolve (snd l) (tree (fst l) w) with
    | Some (Fs.Dir _) => (Raise IsADirectoryError, w)
    | _ =>
        match Fs.store mk (snd l) (Fs.File data) (Some (tree (fst l) w)) with
        | Ok t => (Ok tt, set_tree (fst l) t w)
        | Raise e => (Raise e, w)
        end
    end.

Definition read_file (l : loc) : M string :=
  fun w =>
    match Fs.resolve (snd l) (tree (fst l) w) with
    | Some (Fs.File data) => (Ok data, w)
    | Some (Fs.Dir _) => (Raise IsADirectoryError, w)
    | None => (Raise FileNotFoundError, w)
    end.

(** [os.makedirs(l)], without [exist_ok] *)
Definition os_makedirs (l : loc) : M unit :=
  fun w =>
    match Fs.resolve (snd l) (tree (fst l) w) with
    | Some _ => (Raise FileExistsError, w)
    | None =>
        match Fs.store true (snd l) (Fs.Dir []) (Some (tree (fst l) w)) with
        | Ok t => (Ok tt, set_tree (fst l) t w)
        | Raise e => (Raise e, w)
        end
    end.

(** [zipfile.ZipFile(zip_path, 'r')]: the members of the archive, or
    [BadZipFile] when the bytes are not an archive. *)
Definition ZipFile_read (zip_path : loc) : M (list (Fs.path * string)) :=
  data <- read_file zip_path ;;
  match zip_decode P data with
  | Some members => ret members
  | None => raise BadZipFile
  end.

Definition extractall (members : list (Fs.path * string)) (dst : loc)
  : M unit :=
  for_each members (fun m => write_file true (fst dst, snd dst ++ fst m) (snd m)).

Definition build_function (req : request) : M response :=
  match files_file req with
  | None => ret (Jsonify [("error", "No file part")] 400)
  | Some file =>
      let function_name := form_name req in
      match function_name with
      | None | Some "" =>
          ret (Jsonify [("error", "Function name is required")] 400)
      | Some function_name =>
          with_TemporaryDirectory (fun temp_dir =>
            let zip_path := os_path_join temp_dir "function.zip" in
            write_file false zip_path file ;;
            let extract_dir := os_path_join temp_dir "src" in
            os_makedirs extract_dir ;;
            zip_ref <- ZipFile_read zip_path ;;
            extractall zip_ref extract_dir ;;
            runtime <- detect_runtime (snd extract_dir) ;;
            inject_scaffold (snd extract_dir) runtime ;;
            image_name <- build_image (snd extract_dir) function_name runtime ;;
            match image_name with
            | None | Some "" => ret (Jsonify [("error", "Build failed")] 500)
            | Some image_name =>
                ret (Jsonify [("name", function_name);
                              ("image", image_name);
                              ("runtime", runtime)] 201)
            end)
      end
  end.

Definition create_cmd (image_name : string) : list arg :=
  [Lit "docker"; Lit "create"; Lit image_name].

Definition cp_cmd (container_id : string) (temp_dir : loc) : list arg :=
  [Lit "docker"; Lit "cp"; Remote container_id "/app/."; Local temp_dir].

Definition rm_cmd (container_id : string) : list arg :=
  [Lit "docker"; Lit "rm"; Lit container_id].

(** The files [os.walk(top)] reaches, as the archive loop adds them. *)
Definition archive_members (skip : string) (top : loc)
  : M (list (Fs.path * string)) :=
  fun w =>
    match Fs.resolve (snd top) (tree (fst top) w) with
    | Some n => (Ok (walk_files skip [] n), w)
    | None => (Ok [], w)
    end.

(** What follows [docker cp] in the inner [try] of [get_function_code]:
    the archive is written next to the copied files and sent. *)
Definition package (function_name : string) (temp_dir : loc) : M response :=
  logger INFO ("Copied source code from container to " +++ loc_str temp_dir) ;;
  let zip_path := os_path_join temp_dir (function_name +++ ".zip") in
  write_file false zip_path "" ;;
  members <- archive_members (function_name +++ ".zip") temp_dir ;;
  write_file false zip_path (zip_encode P members) ;;
  logger INFO ("Created zip file at " +++ loc_str zip_path) ;;
  data <- read_file zip_path ;;
  ret (SendFile (function_name +++ ".zip") data).

(** The two [except] clauses of [get_function_code]. *)
Definition retrieve_failed (e : exn) : M response :=
  match e with
  | CalledProcessError _ _ =>
      logger ERROR ("Error retrieving function code: " +++ str P e) ;;
      ret (Jsonify [("error", "Failed to retrieve function code: "
                              +++ str P e)] 500)
  | _ =>
      logger ERROR ("Unexpected error: " +++ str P e) ;;
      ret (Jsonify [("error", "Unexpected error: " +++ str P e)] 500)
  end.

Definition get_function_code (function_name : string) : M response :=
  logger INFO ("Retrieving source code for function: " +++ function_name) ;;
  let registry_url := REGISTRY_URL in
  let image_name := registry_url +++ "/" +++ function_name +++ ":latest" in
  with_TemporaryDirectory (fun temp_dir =>
    try_except
      (out <- subprocess_run (create_cmd image_name) ;;
       let container_id := strip out in
       logger INFO ("Created temporary container " +++ container_id
                    +++ " from image " +++ image_name) ;;
       try_finally
         (subprocess_run (cp_cmd container_id temp_dir) ;;
          package function_name temp_dir)
         (subprocess_run (rm_cmd container_id) ;;
          logger INFO ("Removed temporary container " +++ container_id)))
      retrieve_failed).

End Service.

(** ** Reference definitions for the statements below *)

(** The toolchain protocol as the specification words it: the steps are run
    in order, each after the one before has exited with status 0; the first
    step that does not ends the sequence.  The result is the list of the
    steps attempted and whether all of them succeeded. *)
Fixpoint run_in_sequence (P : platform) (history : list (list arg))
  (steps : list (list arg)) : list (list arg) * bool :=
  match steps with
  | [] => ([], true)
  | cmd :: rest =>
      match docker P history cmd with
      | Exit rc _ =>
          if Z.eqb rc 0 then
            let (attempted, ok) := run_in_sequence P (history ++ [cmd]) rest in
            (cmd :: attempted, ok)
          else ([cmd], false)
      | NoExecutable => ([cmd], false)
      end
  end.

(** Build under the name of [REGISTRY_URL]; re-tag under the push host
    when the two names differ; push the name of the push host. *)
Definition toolchain_steps (P : platform) (source_dir : Fs.path)
  (function_name : string) : list (list arg) :=
  let image_name := REGISTRY_URL P +++ "/" +++ function_name +++ ":latest" in
  let internal_image_name := "localhost:5001/" +++ function_name +++ ":latest" in
  build_cmd image_name source_dir
  :: (if String.eqb internal_image_name image_name then []
      else [tag_cmd image_name internal_image_name])
  ++ [push_cmd internal_image_name].

(** C2 as the specification states it: on success one registry host names
    both the tag that was pushed last and the reference returned. *)
Definition returns_pushed_reference (P : platform) (w : world)
  (source_dir : Fs.path) (function_name runtime : string) : Prop :=
  forall image w',
    build_image P source_dir function_name runtime w = (Ok (Some image), w') ->
    exists host,
      last (trace w') [] = push_cmd (host +++ "/" +++ function_name +++ ":latest") /\
      image = host +++ "/" +++ function_name +++ ":latest".

(** C3 as the specification states it: when [docker cp] fails, the caller
    is told of that failure, whatever the removal of the container does. *)
Definition reports_extraction_failure (P : platform) (function_name : string)
  (w : world) : Prop :=
  forall name out rc out',
    first_free (mkdtemp_names P) (tmp w) = Some name ->
    let create := create_cmd (REGISTRY_URL P +++ "/" +++ function_name +++ ":latest") in
    let cp := cp_cmd (strip out) (TempRoot, [name]) in
    docker P (trace w) create = Exit 0 out ->
    docker P (trace w ++ [create]) cp = Exit rc out' ->
    rc <> 0%Z ->
    fst (get_function_code P function_name w) =
    Ok (Jsonify [("error", "Failed to retrieve function code: "
                           +++ str P (CalledProcessError (map arg_str cp) rc))] 500).

(** C4 as the specification states it: below a directory that exists in
    the scaffold and in the bundle, a scaffold entry the bundle lacks is
    copied into the bundle. *)
Definition descends_into_existing (w : world) (source_dir : Fs.path)
  (runtime : string) : Prop :=
  forall (item child : string) (x : Fs.node),
    (exists es, Fs.resolve [runtime; item] (Fs.Dir (runtimes w)) = Some (Fs.Dir es)) ->
    (exists es, Fs.resolve (source_dir ++ [item]) (Fs.Dir (tmp w)) = Some (Fs.Dir es)) ->
    Fs.resolve [runtime; item; child] (Fs.Dir (runtimes w)) = Some x ->
    Fs.resolve (source_dir ++ [item; child]) (Fs.Dir (tmp w)) = None ->
    Fs.resolve (source_dir ++ [item; child])
      (Fs.Dir (tmp (snd (inject_scaffold source_dir runtime w)))) = Some x.

(** A computation is confined to the temporary directory [name] when all
    it changes in the file system lies below that directory. *)
Definition confined {A} (name : string) (m : M A) : Prop :=
  forall w, Fs.remove name (tmp (snd (m w))) = Fs.remove name (tmp w).

(** A computation keeps clear of docker when it runs no command and leaves
    the containers as they are. *)
Definition offline {A} (m : M A) : Prop :=
  forall w, trace (snd (m w)) = trace w /\ containers (snd (m w)) = containers w.

(** The loop of [inject_scaffold] over the listed entries. *)
Definition inject_loop (rt : string) (sd : Fs.path) (items : list string) : M unit :=
  for_each items (inject_item (AppRuntimes, [rt]) (TempRoot, sd)).

(** ** Invariants of computations *)

(** A computation preserves the observation [f] of the world when [f] is
    the same before and after it, whether it returns or raises. *)
Definition preserves {A X} (f : world -> X) (m : M A) : Prop :=
  forall w, f (snd (m w)) = f w.

(** What the service cannot reach from a request: the runtime
    definitions and the containers of the docker daemon. *)
Definition installation (w : world) : Fs.dir * list string :=
  (runtimes w, containers w).

(** Everything but the log. *)
Definition effects (w : world)
  : Fs.dir * Fs.dir * list string * list (list arg) :=
  (runtimes w, tmp w, containers w, trace w).

(** What lies outside the bundle and the log: the runtime definitions, the
    containers and the docker commands run. *)
Definition surroundings (w : world) : Fs.dir * list string * list (list arg) :=
  (runtimes w, containers w, trace w).

(** An observation is shielded when writes into the temporary tree and
    log records do not change it. *)
Definition shielded {X} (f : world -> X) : Prop :=
  (forall t w, f (set_tree TempRoot t w) = f w) /\
  (forall l msg w, f (add_log l msg w) = f w).

(** ** Concrete platforms and worlds used by the examples below *)

Module Examples.

(** A rendering of exceptions that keeps the failed command. *)
Definition plain_str (e : exn) : string :=
  match e with
  | CalledProcessError cmd rc => "Command " +++ join " " cmd +++ " failed"
  | FileNotFoundError => "FileNotFoundError"
  | NotADirectoryError => "NotADirectoryError"
  | IsADirectoryError => "IsADirectoryError"
  | FileExistsError => "FileExistsError"
  | BadZipFile => "File is not a zip file"
  end.

(** The only valid archive is the byte string [ZIP]; it holds [app.py]
    and a [Dockerfile] of the user. *)
Definition platform_with (env : option string)
  (dk : list (list arg) -> list arg -> proc) : platform :=
  mkPlatform env dk
    (fun _ _ => [("app.py", Fs.File "print(1)")])
    plain_str
    (fun s =>
       if String.eqb s "ZIP"
       then Some [(["app.py"], "print(1)"); (["Dockerfile"], "FROM user")]
       else None)
    (fun _ => "ZIPPED")
    ["tmpaaaa"; "tmpbbbb"].

(** Every docker command succeeds and prints a container id. *)
Definition docker_ok : list (list arg) -> list arg -> proc :=
  fun _ _ => Exit 0 "c1".

(** [docker create] succeeds; [cp] exits with 2 and [rm] with 1. *)
Definition docker_cp_rm_fail : list (list arg) -> list arg -> proc :=
  fun _ cmd =>
    match cmd with
    | [_; Lit verb; _] =>
        if String.eqb verb "create" then Exit 0 "c1" else Exit 1 ""
    | _ => Exit 2 ""
    end.

(** [docker create] and [cp] succeed; [rm] exits with 1. *)
Definition docker_rm_fail : list (list arg) -> list arg -> proc :=
  fun _ cmd =>
    match cmd with
    | [_; Lit verb; _] =>
        if String.eqb verb "create" then Exit 0 "c1" else Exit 1 ""
    | _ => Exit 0 ""
    end.

(** Every docker command exits with status 1. *)
Definition docker_fails : list (list arg) -> list arg -> proc :=
  fun _ _ => Exit 1 "".

Definition python_scaffold : Fs.node :=
  Fs.Dir [("Dockerfile", Fs.File "FROM python");
          ("wsgi.py", Fs.File "from app import app");
          ("lib", Fs.Dir [("helper.py", Fs.File "def h(): pass")])].

Definition runtimes0 : Fs.dir := [("python-flask", python_scaffold)].

(** A bundle at [/tmp/t/src] with its own [app.py], [Dockerfile] and an
    empty [lib] directory. *)
Definition bundle0 : Fs.dir :=
  [("app.py", Fs.File "print(1)");
   ("Dockerfile", Fs.File "FROM user");
   ("lib", Fs.Dir [])].

Definition world_with (bundle : Fs.dir) : world :=
  mkWorld runtimes0 [("t", Fs.Dir [("src", Fs.Dir bundle)])] [] [] [].

Definition src0 : Fs.path := ["t"; "src"].

Definition go_bundle : Fs.dir :=
  [("go.mod", Fs.File "module m"); ("README.md", Fs.File "readme")].

Definition plain_bundle : Fs.dir := [("README.md", Fs.File "readme")].

Definition empty_world : world := mkWorld runtimes0 [] [] [] [].

End Examples.

(** ** More concrete cases *)

Module Cases.

(** The docker client is not installed. *)
Definition docker_absent : list (list arg) -> list arg -> proc :=
  fun _ _ => NoExecutable.

(** A container whose [/app] holds [app.py], a stale [hello.zip] and a
    directory [pkg] with another [hello.zip] and [m.py]. *)
Definition app_tree : Fs.dir :=
  [("app.py", Fs.File "print(1)");
   ("hello.zip", Fs.File "old");
   ("pkg", Fs.Dir [("hello.zip", Fs.File "nested"); ("m.py", Fs.File "x = 1")])].

End Cases.

(** * The metadata service: [metadata-service/src/app.py]

    A catalogue of function records kept in a module-level dict.  The
    handlers are functions of the dict; what [uuid.uuid4()] and
    [datetime.now().isoformat()] return during a request is given with the
    request. *)

Module Metadata.

(** ** Python dicts

    A dict keeps its keys in insertion order: assigning to a key that is
    there replaces the value in place, assigning to a new key appends. *)

Fixpoint dict_get {V} (k : string) (d : list (string * V)) : option V :=
  match d with
  | [] => None
  | (k', v) :: rest => if String.eqb k' k then Some v else dict_get k rest
  end.

Fixpoint dict_set {V} (k : string) (v : V) (d : list (string * V))
  : list (string * V) :=
  match d with
  | [] => [(k, v)]
  | (k', v') :: rest =>
      if String.eqb k' k then (k', v) :: rest else (k', v') :: dict_set k v rest
  end.

Definition dict_del {V} (k : string) (d : list (string * V)) : list (string * V) :=
  filter (fun e => negb (String.eqb (fst e) k)) d.

Definition dict_values {V} (d : list (string * V)) : list V := map snd d.

Definition dict_keys {V} (d : list (string * V)) : list string := map fst d.

(** ** Models *)

Record FunctionCreate := mkFunctionCreate {
  name : string;
  runtime : string;
  image : string;
  description : option string;
  env_vars : option (list (string * string))
}.

(** [class Function(FunctionCreate)]: the inherited fields and its own. *)
Record Function := mkFunction {
  base : FunctionCreate;
  id : string;
  created_at : string;
  updated_at : string;
  status : string
}.

Definition db := list (string * Function).

(** ** Exceptions and handlers *)

Inductive error :=
| HTTPException (status_code : Z) (detail : string)
    (headers : list (string * string))
| AttributeError (message : string).

Inductive outcome (A : Type) :=
| Return (a : A)
| Raised (e : error).

Arguments Return {A} a.
Arguments Raised {A} e.

(** What the clock and the random source give during one request. *)
Record request_env := mkEnv {
  uuid4 : string;          (* str(uuid.uuid4()) *)
  now : string             (* datetime.datetime.now().isoformat() *)
}.

Definition validate_token (credentials : string) : outcome string :=
  if negb (String.eqb credentials "dev-token") then
    Raised (HTTPException 401 "Invalid authentication token"
              [("WWW-Authenticate", "Bearer")])
  else Return credentials.

(** [token: str = Depends(validate_token)]: the dependency runs before the
    body of the handler; when it raises, the body is not run. *)
Definition Depends {A} (credentials : string)
  (body : string -> db -> outcome A * db) : db -> outcome A * db :=
  fun functions_db =>
    match validate_token credentials with
    | Return token => body token functions_db
    | Raised e => (Raised e, functions_db)
    end.

Definition health_check : list (string * string) := [("status", "ok")].

(** The loop [for existing in functions_db.values(): if existing.name == n]:
    the first record with that name. *)
Fixpoint find_by_name (n : string) (records : list Function) : option Function :=
  match records with
  | [] => None
  | existing :: rest =>
      if String.eqb (name (base existing)) n then Some existing
      else find_by_name n rest
  end.

Definition create_function (env : request_env) (function : FunctionCreate)
  (credentials : string) : db -> outcome Function * db :=
  Depends credentials (fun token functions_db =>
    match find_by_name (name function) (dict_values functions_db) with
    | Some _ =>
        (Raised (HTTPException 409
                   ("Function with name '" +++ name function +++ "' already exists")
                   []),
         functions_db)
    | None =>
        let function_id := uuid4 env in
        let timestamp := now env in
        let new_function :=
          mkFunction function function_id timestamp timestamp "inactive" in
        (Return new_function, dict_set function_id new_function functions_db)
    end).

Definition list_functions (credentials : string)
  : db -> outcome (list Function) * db :=
  Depends credentials (fun token functions_db =>
    (Return (dict_values functions_db), functions_db)).

Definition not_found_id (function_id : string) : error :=
  HTTPException 404 ("Function with ID '" +++ function_id +++ "' not found") [].

Definition get_function (function_id : string) (credentials : string)
  : db -> outcome Function * db :=
  Depends credentials (fun token functions_db =>
    match dict_get function_id functions_db with
    | None => (Raised (not_found_id function_id), functions_db)
    | Some f => (Return f, functions_db)
    end).

Definition get_function_by_name (function_name : string) (credentials : string)
  : db -> outcome Function * db :=
  Depends credentials (fun token functions_db =>
    match find_by_name function_name (dict_values functions_db) with
    | Some function => (Return function, functions_db)
    | None =>
        (Raised (HTTPException 404
                   ("Function with name '" +++ function_name +++ "' not found")
                   []),
         functions_db)
    end).

Definition update_function (env : request_env) (function_id : string)
  (function_update : FunctionCreate) (credentials : string)
  : db -> outcome Function * db :=
  Depends credentials (fun token functions_db =>
    match dict_get function_id functions_db with
    | None => (Raised (not_found_id function_id), functions_db)
    | Some existing =>
        let updated :=
          mkFunction function_update function_id (created_at existing)
            (now env) (status existing) in
        (Return updated, dict_set function_id updated functions_db)
    end).

(** In [update_function_status] the parameter [status] hides the module
    [fastapi.status]: [status.HTTP_404_NOT_FOUND] and
    [status.HTTP_400_BAD_REQUEST] are attribute look-ups on a [str], which
    raise [AttributeError] before an [HTTPException] is built. *)
Definition str_has_no_attribute (attribute : string) : error :=
  AttributeError ("'str' object has no attribute '" +++ attribute +++ "'").

Definition update_function_status (env : request_env) (function_id : string)
  (status_param : string) (credentials : string)
  : db -> outcome Function * db :=
  Depends credentials (fun token functions_db =>
    match dict_get function_id functions_db with
    | None =>
        (Raised (str_has_no_attribute "HTTP_404_NOT_FOUND"), functions_db)
    | Some f =>
        if negb (mem status_param ["active"; "inactive"]) then
          (Raised (str_has_no_attribute "HTTP_400_BAD_REQUEST"), functions_db)
        else
          let f1 := mkFunction (base f) (id f) (created_at f) (updated_at f)
                      status_param in
          let functions_db := dict_set function_id f1 functions_db in
          let f2 := mkFunction (base f1) (id f1) (created_at f1) (now env)
                      (status f1) in
          let functions_db := dict_set function_id f2 functions_db in
          (Return f2, functions_db)
    end).

Definition delete_function (function_id : string) (credentials : string)
  : db -> outcome unit * db :=
  Depends credentials (fun token functions_db =>
    match dict_get function_id functions_db with
    | None => (Raised (not_found_id function_id), functions_db)
    | Some _ => (Return tt, dict_del function_id functions_db)
    end).

(** ** What a well-formed store looks like *)

Definition valid_status (s : string) : Prop := s = "active" \/ s = "inactive".

Definition well_formed (functions_db : db) : Prop :=
  NoDup (dict_keys functions_db) /\
  forall k f, In (k, f) functions_db -> id f = k /\ valid_status (status f).

Definition unique_names (functions_db : db) : Prop :=
  NoDup (map (fun f => name (base f)) (dict_values functions_db)).

(** One request to the service and the store it leaves. *)
Inductive call :=
| Create (env : request_env) (function : FunctionCreate)
| List
| Get (function_id : string)
| GetByName (function_name : string)
| Update (env : request_env) (function_id : string) (function_update : FunctionCreate)
| UpdateStatus (env : request_env) (function_id : string) (status_param : string)
| Delete (function_id : string).

Definition after (c : call) (credentials : string) (functions_db : db) : db :=
  match c with
  | Create env function => snd (create_function env function credentials functions_db)
  | List => snd (list_functions credentials functions_db)
  | Get function_id => snd (get_function function_id credentials functions_db)
  | GetByName function_name =>
      snd (get_function_by_name function_name credentials functions_db)
  | Update env function_id function_update =>
      snd (update_function env function_id function_update credentials functions_db)
  | UpdateStatus env function_id status_param =>
      snd (update_function_status env function_id status_param credentials functions_db)
  | Delete function_id => snd (delete_function function_id credentials functions_db)
  end.

Definition failed (c : call) (credentials : string) (functions_db : db)
  : option error :=
  let err {A} (r : outcome A) :=
    match r with Return _ => None | Raised e => Some e end in
  match c with
  | Create env function => err (fst (create_function env function credentials functions_db))
  | List => err (fst (list_functions credentials functions_db))
  | Get function_id => err (fst (get_function function_id credentials functions_db))
  | GetByName function_name =>
      err (fst (get_function_by_name function_name credentials functions_db))
  | Update env function_id function_update =>
      err (fst (update_function env function_id function_update credentials functions_db))
  | UpdateStatus env function_id status_param =>
      err (fst (update_function_status env function_id status_param credentials functions_db))
  | Delete function_id => err (fst (delete_function function_id credentials functions_db))
  end.

(** ** A small store for the examples *)

Definition hello : FunctionCreate :=
  mkFunctionCreate "hello" "python-flask" "localhost:5001/hello:latest" None None.

Definition greeter : FunctionCreate :=
  mkFunctionCreate "world" "go" "localhost:5001/world:latest"
    (Some "a second function") (Some [("MODE", "prod")]).

Definition store2 : db :=
  [("id-1", mkFunction hello "id-1" "t0" "t0" "inactive");
   ("id-2", mkFunction greeter "id-2" "t1" "t1" "active")].

End Metadata.

(** * The authentication service: [auth-service/src/app.py]

    Users are rows of one SQLite table; passwords are hashed by werkzeug
    and tokens are made by PyJWT.  The table is a list of rows in insertion
    order, the two libraries are parameters, and what the clock and the
    random source give during a request comes with the request.  A request
    body is what [request.get_json()] returns: [None], or a dict, taken
    here with string values.  The tokens the library accepts are taken to
    carry the three claims [generate_token] writes. *)

Module Auth.

Inductive json :=
| JString (s : string)
| JObject (fields : list (string * json)).

(** A row of [users]. *)
Record user := mkUser {
  id : string;
  username : string;
  email : string;
  password_hash : string;
  created_at : string
}.

(** The claims of a token: [user_id], [username] and [exp]. *)
Record payload := mkPayload {
  user_id : string;
  token_username : string;
  exp : Z
}.

(** werkzeug's password hashing and PyJWT under [JWT_SECRET] and
    [JWT_ALGORITHM].  [jwt_decode now token] is [None] when [jwt.decode]
    raises [ExpiredSignatureError] or [InvalidTokenError]. *)
Record library := mkLibrary {
  generate_password_hash : string -> string;
  check_password_hash : string -> string -> bool;
  jwt_encode : payload -> string;
  jwt_decode : Z -> string -> option payload
}.

(** What one request reads from its surroundings. *)
Record request_env := mkEnv {
  time : Z;                     (* int(time.time()) *)
  uuid4_hex : string;           (* uuid.uuid4().hex *)
  CURRENT_TIMESTAMP : string    (* the default of created_at *)
}.

Inductive exception := IntegrityError | IndexError.

Inductive outcome :=
| Return (body : json) (status : Z)
| Raised (e : exception).

Definition JWT_EXPIRATION : Z := 3600.

Definition error (message : string) : json := JObject [("error", JString message)].

(** ** The table *)

Fixpoint dict_get (k : string) (d : list (string * string)) : option string :=
  match d with
  | [] => None
  | (k', v) :: rest => if String.eqb k' k then Some v else dict_get k rest
  end.

(** [k in data] *)
Definition has_key (d : list (string * string)) (k : string) : bool :=
  match dict_get k d with
  | Some _ => true
  | None => false
  end.

(** [SELECT ... WHERE username = ? OR email = ?], [fetchone()] *)
Definition select_by_username_or_email (u e : string) (users : list user)
  : option user :=
  find (fun row => String.eqb (username row) u || String.eqb (email row) e) users.

(** [SELECT ... WHERE username = ?], [fetchone()] *)
Definition select_by_username (u : string) (users : list user) : option user :=
  find (fun row => String.eqb (username row) u) users.

(** [SELECT ... WHERE id = ?], [fetchone()] *)
Definition select_by_id (i : string) (users : list user) : option user :=
  find (fun row => String.eqb (id row) i) users.

(** [INSERT INTO users]: the primary key and the two [UNIQUE] columns
    refuse a row that repeats a value. *)
Definition insert (row : user) (users : list user) : option (list user) :=
  if existsb (fun r => String.eqb (id r) (id row)
                       || String.eqb (username r) (username row)
                       || String.eqb (email r) (email row)) users
  then None
  else Some (users ++ [row]).

(** ** Tokens *)

Definition generate_token (L : library) (env : request_env)
  (user_id username : string) : string :=
  jwt_encode L (mkPayload user_id username (time env + JWT_EXPIRATION)).

Definition verify_token (L : library) (env : request_env) (token : string)
  : option payload :=
  jwt_decode L (time env) token.

(** [str.split(" ")] *)
Fixpoint split_spaces (s : string) : list string :=
  match s with
  | EmptyString => [EmptyString]
  | String c rest =>
      if Ascii.eqb c " "%char then EmptyString :: split_spaces rest
      else
        match split_spaces rest with
        | piece :: pieces => String c piece :: pieces
        | [] => [String c EmptyString]
        end
  end.

(** The decorator [auth_required]: [f] gets the claims that the decorator
    stores in [request.user]. *)
Definition auth_required (L : library) (env : request_env)
  (f : payload -> list user -> outcome)
  (Authorization : option string) (users : list user) : outcome :=
  match Authorization with
  | None => Return (error "Authorization header required") 401
  | Some auth_header =>
      if String.eqb auth_header "" || negb (String.prefix "Bearer " auth_header)
      then Return (error "Authorization header required") 401
      else
        match split_spaces auth_header with
        | _ :: token :: _ =>
            match verify_token L env token with
            | None => Return (error "Invalid or expired token") 401
            | Some payload => f payload users
            end
        | _ => Raised IndexError
        end
  end.

(** ** Routes *)

Definition register (L : library) (env : request_env)
  (data : option (list (string * string))) (users : list user)
  : outcome * list user :=
  match data with
  | None | Some [] =>
      (Return (error "Username, email, and password are required") 400, users)
  | Some data =>
      match dict_get "username" data, dict_get "email" data,
            dict_get "password" data with
      | Some username, Some email, Some password =>
          if Nat.ltb (String.length password) 8 then
            (Return (error "Password must be at least 8 characters long") 400,
             users)
          else
            match select_by_username_or_email username email users with
            | Some existing_user =>
                (Return (error "Username or email already exists") 409, users)
            | None =>
                let user_id := "user_" +++ String.substring 0 12 (uuid4_hex env) in
                let password_hash := generate_password_hash L password in
                match insert (mkUser user_id username email password_hash
                                (CURRENT_TIMESTAMP env)) users with
                | None => (Raised IntegrityError, users)
                | Some users' =>
                    (Return (JObject [("message", JString "User registered successfully");
                                      ("user_id", JString user_id);
                                      ("username", JString username)]) 201,
                     users')
                end
            end
      | _, _, _ =>
          (Return (error "Username, email, and password are required") 400, users)
      end
  end.

Definition login (L : library) (env : request_env)
  (data : option (list (string * string))) (users : list user) : outcome :=
  match data with
  | None | Some [] => Return (error "Username and password are required") 400
  | Some data =>
      match dict_get "username" data, dict_get "password" data with
      | Some username, Some password =>
          match select_by_username username users with
          | None => Return (error "Invalid username or password") 401
          | Some user =>
              if negb (check_password_hash L (password_hash user) password) then
                Return (error "Invalid username or password") 401
              else
                let token := generate_token L env (id user) (Auth.username user) in
                Return (JObject [("message", JString "Login successful");
                                 ("token", JString token);
                                 ("user", JObject [("id", JString (id user));
                                                   ("username", JString (Auth.username user))])])
                       200
          end
      | _, _ => Return (error "Username and password are required") 400
      end
  end.

Definition get_current_user (L : library) (env : request_env)
  : option string -> list user -> outcome :=
  auth_required L env (fun request_user users =>
    match select_by_id (user_id request_user) users with
    | None => Return (error "User not found") 404
    | Some user =>
        Return (JObject [("id", JString (id user));
                         ("username", JString (username user));
                         ("email", JString (email user));
                         ("created_at", JString (created_at user))]) 200
    end).

(** ** Statements *)

(** The constraints of the table: ids, usernames and emails are each
    distinct. *)
Definition unique (users : list user) : Prop :=
  NoDup (map id users) /\ NoDup (map username users) /\ NoDup (map email users).

Fixpoint no_space (s : string) : bool :=
  match s with
  | EmptyString => true
  | String c rest => negb (Ascii.eqb c " "%char) && no_space rest
  end.

(** ** A library and a table for the examples *)

Definition toy_library : library :=
  mkLibrary (fun p => "h:" +++ p)
    (fun h p => String.eqb h ("h:" +++ p))
    (fun c => "jwt." +++ user_id c)
    (fun now t =>
       if String.prefix "jwt." t && Z.ltb now 4600
       then Some (mkPayload (String.substring 4 (String.length t - 4) t) "ann" 4600)
       else None).

Definition env0 : request_env := mkEnv 1000 "0123456789abcdef0123" "2025-01-01".

Definition ann_data : list (string * string) :=
  [("username", "ann"); ("email", "ann@example.com"); ("password", "password123")].

End Auth.


(** * Properties *)

(** ** Runtime detection *)

Lemma mem_In (s : string) (l : list string) : mem s l = true <-> In s l.
Proof.
  unfold mem. rewrite existsb_exists. split.
  - intros [x [Hin Heq]]. apply String.eqb_eq in Heq. now subst.
  - intros Hin. exists s. split; [assumption | apply String.eqb_refl].
Qed.

Lemma any_pattern_true (patterns files : list string) :
  any_pattern patterns files = true <->
  exists m, In m patterns /\ In m files.
Proof.
  induction patterns as [|p rest IH]; simpl.
  - split; [discriminate | intros [m [[] _]]].
  - destruct (mem p files) eqn:Hmem.
    + split; [|reflexivity]. intros _. exists p. split; [now left|].
      now apply mem_In.
    + rewrite IH. split.
      * intros [m [Hin Hf]]. exists m. split; [now right | assumption].
      * intros [m [[Heq|Hin] Hf]].
        -- subst. apply mem_In in Hf. congruence.
        -- exists m. now split.
Qed.

Lemma any_pattern_false (patterns files : list string) :
  (forall m, In m patterns -> ~ In m files) ->
  any_pattern patterns files = false.
Proof.
  intros Hnone. destruct (any_pattern patterns files) eqn:Hany; [|reflexivity].
  apply any_pattern_true in Hany. destruct Hany as [m [Hin Hf]].
  exfalso. now apply (Hnone m).
Qed.

(** The scan returns the first entry one of whose patterns is present. *)
Lemma scan_runtimes_first (earlier later : list (string * list string))
  (runtime : string) (markers files : list string) :
  (exists m, In m markers /\ In m files) ->
  (forall r ms m, In (r, ms) earlier -> In m ms -> ~ In m files) ->
  scan_runtimes (earlier ++ (runtime, markers) :: later) files = Some runtime.
Proof.
  intros Hhit. induction earlier as [|[r ms] earlier IH]; intros Hmiss; simpl.
  - apply any_pattern_true in Hhit. now rewrite Hhit.
  - rewrite (any_pattern_false ms files).
    + apply IH. intros r' ms' m Hin. apply (Hmiss r' ms' m). now right.
    + intros m Hin. apply (Hmiss r ms m); [now left | assumption].
Qed.

Lemma scan_runtimes_none (items : list (string * list string))
  (files : list string) :
  (forall r ms m, In (r, ms) items -> In m ms -> ~ In m files) ->
  scan_runtimes items files = None.
Proof.
  induction items as [|[r ms] items IH]; intros Hmiss; simpl; [reflexivity|].
  rewrite (any_pattern_false ms files).
  - apply IH. intros r' ms' m Hin. apply (Hmiss r' ms' m). now right.
  - intros m Hin. apply (Hmiss r ms m); [now left | assumption].
Qed.

Lemma detect_runtime_unfold (w : world) (source_dir : Fs.path) (bundle : Fs.dir) :
  Fs.resolve source_dir (Fs.Dir (tmp w)) = Some (Fs.Dir bundle) ->
  detect_runtime source_dir w =
  match scan_runtimes RUNTIME_PATTERNS (Fs.names bundle) with
  | Some runtime => (Ok runtime, add_log INFO ("Detected runtime: " +++ runtime) w)
  | None =>
      (Ok "python-flask",
       add_log WARNING "No runtime detected, defaulting to python-flask" w)
  end.
Proof.
  intros Hdir. unfold detect_runtime, bind, os_listdir. simpl fst. simpl snd.
  unfold tree. rewrite Hdir.
  destruct (scan_runtimes RUNTIME_PATTERNS (Fs.names bundle)); reflexivity.
Qed.

(** C7: on a bundle directory the classification always returns a runtime,
    and when the top-level names of the bundle contain a marker of runtime
    [runtime] and no marker of a runtime declared before it, the runtime
    returned is [runtime]. *)
Theorem detect_runtime_first_match :
  forall (w : world) (source_dir : Fs.path) (bundle : Fs.dir),
    Fs.resolve source_dir (Fs.Dir (tmp w)) = Some (Fs.Dir bundle) ->
    (exists runtime, fst (detect_runtime source_dir w) = Ok runtime) /\
    (forall earlier runtime markers later,
        RUNTIME_PATTERNS = earlier ++ (runtime, markers) :: later ->
        (exists m, In m markers /\ In m (Fs.names bundle)) ->
        (forall r ms m, In (r, ms) earlier -> In m ms ->
                        ~ In m (Fs.names bundle)) ->
        fst (detect_runtime source_dir w) = Ok runtime).
Proof.
  intros w source_dir bundle Hdir.
  rewrite (detect_runtime_unfold w source_dir bundle Hdir). split.
  - destruct (scan_runtimes RUNTIME_PATTERNS (Fs.names bundle)) as [r|];
      [exists r | exists "python-flask"]; reflexivity.
  - intros earlier runtime markers later Hsplit Hhit Hmiss.
    rewrite Hsplit.
    now rewrite (scan_runtimes_first earlier later runtime markers _ Hhit Hmiss).
Qed.

Lemma detect_runtime_first_match_witness :
  (exists runtime,
      fst (detect_runtime Examples.src0 (Examples.world_with Examples.go_bundle))
      = Ok runtime) /\
  fst (detect_runtime Examples.src0 (Examples.world_with Examples.go_bundle))
  = Ok "go".
Proof.
  destruct (detect_runtime_first_match
              (Examples.world_with Examples.go_bundle) Examples.src0
              Examples.go_bundle eq_refl) as [Htotal Hfirst].
  split; [exact Htotal|].
  apply (Hfirst
           [("python-flask", ["requirements.txt"; "app.py"; "wsgi.py"]);
            ("nodejs", ["package.json"; "index.js"; "server.js"])]
           "go" ["go.mod"; "main.go"] []).
  - reflexivity.
  - exists "go.mod". split; simpl; auto.
  - intros r ms m Hin Hm Hb. simpl in Hin, Hb.
    destruct Hin as [Heq|[Heq|[]]]; inversion Heq; subst; simpl in Hm;
      intuition (subst; discriminate).
Defined.

(** C8: when no top-level name of the bundle is a marker of a declared
    runtime, the classification returns ["python-flask"] as a value, not an
    exception, and the only trace of the fallback is a WARNING record
    appended to the log. *)
Theorem detect_runtime_fallback :
  forall (w : world) (source_dir : Fs.path) (bundle : Fs.dir),
    Fs.resolve source_dir (Fs.Dir (tmp w)) = Some (Fs.Dir bundle) ->
    (forall r ms m, In (r, ms) RUNTIME_PATTERNS -> In m ms ->
                    ~ In m (Fs.names bundle)) ->
    detect_runtime source_dir w =
    (Ok "python-flask",
     add_log WARNING "No runtime detected, defaulting to python-flask" w).
Proof.
  intros w source_dir bundle Hdir Hmiss.
  rewrite (detect_runtime_unfold w source_dir bundle Hdir).
  now rewrite (scan_runtimes_none _ _ Hmiss).
Qed.

Lemma detect_runtime_fallback_witness :
  detect_runtime Examples.src0 (Examples.world_with Examples.plain_bundle) =
  (Ok "python-flask",
   add_log WARNING "No runtime detected, defaulting to python-flask"
     (Examples.world_with Examples.plain_bundle)).
Proof.
  apply (detect_runtime_fallback (Examples.world_with Examples.plain_bundle)
           Examples.src0 Examples.plain_bundle eq_refl).
  intros r ms m Hin Hm Hb. simpl in Hin, Hb.
  destruct Hin as [Heq|[Heq|[Heq|[]]]]; inversion Heq; subst; simpl in Hm;
    intuition (subst; discriminate).
Defined.

(** ** Directory trees: lookup, put and store *)

Lemma lookup_put_same (c : string) (x : Fs.node) (d : Fs.dir) :
  Fs.lookup c (Fs.put c x d) = Some x.
Proof.
  induction d as [|[n y] d IH]; simpl.
  - now rewrite String.eqb_refl.
  - destruct (String.eqb n c) eqn:E; simpl; rewrite E; [reflexivity | exact IH].
Qed.

Lemma lookup_put_other (c c' : string) (x : Fs.node) (d : Fs.dir) :
  c <> c' -> Fs.lookup c' (Fs.put c x d) = Fs.lookup c' d.
Proof.
  intros Hne. induction d as [|[n y] d IH]; simpl.
  - destruct (String.eqb c c') eqn:E; [|reflexivity].
    apply String.eqb_eq in E. contradiction.
  - destruct (String.eqb n c) eqn:E; simpl.
    + apply String.eqb_eq in E. subst n.
      destruct (String.eqb c c') eqn:E'; [|reflexivity].
      apply String.eqb_eq in E'. contradiction.
    + now rewrite IH.
Qed.

Lemma lookup_names (c : string) (d : Fs.dir) :
  In c (Fs.names d) -> exists x, Fs.lookup c d = Some x.
Proof.
  induction d as [|[n y] d IH]; simpl; [intros []|].
  intros [Heq|Hin].
  - subst. rewrite String.eqb_refl. now exists y.
  - destruct (String.eqb n c); [now exists y | now apply IH].
Qed.

Lemma remove_put (c : string) (x : Fs.node) (d : Fs.dir) :
  Fs.remove c (Fs.put c x d) = Fs.remove c d.
Proof.
  unfold Fs.remove. induction d as [|[n y] d IH]; simpl.
  - now rewrite String.eqb_refl.
  - destruct (String.eqb n c) eqn:E; simpl; rewrite E; simpl;
      [reflexivity | now rewrite IH].
Qed.

Lemma remove_absent (c : string) (d : Fs.dir) :
  Fs.lookup c d = None -> Fs.remove c d = d.
Proof.
  unfold Fs.remove. induction d as [|[n y] d IH]; simpl; [reflexivity|].
  destruct (String.eqb n c); [discriminate|].
  intros H. simpl. now rewrite IH.
Qed.

Lemma resolve_app (p q : Fs.path) (n : Fs.node) :
  Fs.resolve (p ++ q) n = Fs.resolve_from q (Fs.resolve p n).
Proof.
  revert n. induction p as [|c p IH]; intros n; simpl; [reflexivity|].
  destruct n as [data|es]; [reflexivity|].
  destruct (Fs.lookup c es); [apply IH | reflexivity].
Qed.

Lemma resolve_cons (c : string) (q : Fs.path) (es : Fs.dir) :
  Fs.resolve (c :: q) (Fs.Dir es) = Fs.resolve_from q (Fs.lookup c es).
Proof. reflexivity. Qed.

(** A store below a directory yields a directory. *)
Lemma store_below_dir (mk : bool) (c : string) (q : Fs.path) (x t : Fs.node)
  (es : Fs.dir) :
  Fs.store mk (c :: q) x (Some (Fs.Dir es)) = Ok t ->
  exists es', t = Fs.Dir es' /\ Fs.remove c es' = Fs.remove c es.
Proof.
  simpl. destruct (Fs.store mk q x (Fs.lookup c es)) as [y|e]; [|discriminate].
  intros H. injection H as <-. exists (Fs.put c y es). split; [reflexivity|].
  apply remove_put.
Qed.

(** What is stored at a path is found there. *)
Lemma resolve_store_same (mk : bool) (p : Fs.path) (x t : Fs.node)
  (cur : option Fs.node) :
  Fs.store mk p x cur = Ok t -> Fs.resolve p t = Some x.
Proof.
  revert cur t. induction p as [|c p IH]; intros cur t; simpl.
  - intros H. now injection H as <-.
  - destruct cur as [[data|es]|].
    + discriminate.
    + destruct (Fs.store mk p x (Fs.lookup c es)) as [y|e] eqn:E; [|discriminate].
      intros H. injection H as <-. simpl. rewrite lookup_put_same.
      exact (IH _ _ E).
    + destruct mk; [|discriminate].
      destruct (Fs.store true p x None) as [y|e] eqn:E; [|discriminate].
      intros H. injection H as <-. simpl. rewrite String.eqb_refl.
      exact (IH _ _ E).
Qed.

(** A store at [sd/item] leaves the paths through the other entries of
    [sd] as they were. *)
Lemma resolve_store_sibling (mk : bool) (sd : Fs.path) (item c : string)
  (q : Fs.path) (x t : Fs.node) (cur : option Fs.node) :
  Fs.store mk (sd ++ [item]) x cur = Ok t ->
  item <> c ->
  Fs.resolve (sd ++ c :: q) t = Fs.resolve_from (sd ++ c :: q) cur.
Proof.
  intros Hst Hne. revert cur t Hst.
  induction sd as [|s sd IH]; intros cur t; simpl.
  - destruct cur as [[data|es]|].
    + discriminate.
    + intros H. injection H as <-. simpl. now rewrite lookup_put_other.
    + destruct mk; [|discriminate]. intros H. injection H as <-. simpl.
      destruct (String.eqb item c) eqn:E; [|reflexivity].
      apply String.eqb_eq in E. contradiction.
  - destruct cur as [[data|es]|].
    + discriminate.
    + destruct (Fs.store mk (sd ++ [item]) x (Fs.lookup s es)) as [y|e] eqn:E;
        [|discriminate].
      intros H. injection H as <-. simpl. rewrite lookup_put_same.
      rewrite (IH _ _ E). reflexivity.
    + destruct mk; [|discriminate].
      destruct (Fs.store true (sd ++ [item]) x None) as [y|e] eqn:E;
        [|discriminate].
      intros H. injection H as <-. simpl. rewrite String.eqb_refl.
      rewrite (IH _ _ E). reflexivity.
Qed.

(** Storing an entry in an existing directory succeeds and changes that
    directory by one [put]. *)
Lemma store_in_dir (mk : bool) (sd : Fs.path) (item : string) (x : Fs.node)
  (root : Fs.node) (b : Fs.dir) :
  Fs.resolve sd root = Some (Fs.Dir b) ->
  exists t, Fs.store mk (sd ++ [item]) x (Some root) = Ok t /\
            Fs.resolve sd t = Some (Fs.Dir (Fs.put item x b)).
Proof.
  revert root. induction sd as [|s sd IH]; intros root; simpl.
  - intros H. injection H as ->. eexists. split; reflexivity.
  - destruct root as [data|es]; [discriminate|].
    destruct (Fs.lookup s es) as [m|] eqn:E; [|discriminate].
    intros H. destruct (IH m H) as [t [Hst Hres]].
    rewrite Hst. eexists. split; [reflexivity|].
    simpl. now rewrite lookup_put_same.
Qed.

(** ** Scaffold injection *)

Lemma tree_set_tree_tmp (es : Fs.dir) (w : world) :
  tmp (set_tree TempRoot (Fs.Dir es) w) = es /\
  runtimes (set_tree TempRoot (Fs.Dir es) w) = runtimes w /\
  containers (set_tree TempRoot (Fs.Dir es) w) = containers w /\
  trace (set_tree TempRoot (Fs.Dir es) w) = trace w /\
  log (set_tree TempRoot (Fs.Dir es) w) = log w.
Proof. repeat split. Qed.

Lemma store_tmp_dir (mk : bool) (sd : Fs.path) (item : string) (x t : Fs.node)
  (es : Fs.dir) :
  Fs.store mk (sd ++ [item]) x (Some (Fs.Dir es)) = Ok t ->
  exists es', t = Fs.Dir es'.
Proof.
  destruct sd as [|s sd]; simpl app; intros H;
    destruct (store_below_dir _ _ _ _ _ _ H) as [es' [-> _]]; now exists es'.
Qed.

(** The loop body, as a function of the two trees. *)
Lemma inject_item_unfold (rt : string) (sd : Fs.path) (item : string) (w : world) :
  inject_item (AppRuntimes, [rt]) (TempRoot, sd) item w =
  match Fs.resolve (sd ++ [item]) (Fs.Dir (tmp w)) with
  | Some _ => (Ok tt, w)
  | None =>
      match Fs.resolve [rt; item] (Fs.Dir (runtimes w)) with
      | Some x =>
          match Fs.store (match x with Fs.Dir _ => true | Fs.File _ => false end)
                  (sd ++ [item]) x (Some (Fs.Dir (tmp w))) with
          | Ok t => (Ok tt, set_tree TempRoot t w)
          | Raise e => (Raise e, w)
          end
      | None => (Raise FileNotFoundError, w)
      end
  end.
Proof.
  unfold inject_item, bind, os_path_exists, os_path_isdir, os_path_join,
    shutil_copytree, shutil_copy2, ret.
  cbn [fst snd tree app].
  destruct (Fs.resolve (sd ++ [item]) (Fs.Dir (tmp w))) eqn:Hdst; [reflexivity|].
  destruct (Fs.resolve [rt; item] (Fs.Dir (runtimes w))) as [[data|es]|] eqn:Hsrc.
  - cbn [fst snd tree app]. rewrite Hdst, Hsrc. cbn [fst snd tree]. rewrite Hdst.
    reflexivity.
  - cbn [fst snd tree app]. rewrite Hsrc, Hdst. reflexivity.
  - cbn [fst snd tree app]. rewrite Hdst, Hsrc. reflexivity.
Qed.

Lemma inject_item_skip (rt : string) (sd : Fs.path) (item : string) (w : world) :
  Fs.resolve (sd ++ [item]) (Fs.Dir (tmp w)) <> None ->
  inject_item (AppRuntimes, [rt]) (TempRoot, sd) item w = (Ok tt, w).
Proof.
  intros H. rewrite inject_item_unfold.
  destruct (Fs.resolve (sd ++ [item]) (Fs.Dir (tmp w))); [reflexivity | contradiction].
Qed.

(** One step either returns with the entry in place or raises and leaves
    the world as it was. *)
Lemma inject_item_outcome (rt : string) (sd : Fs.path) (item : string) (w : world) :
  (exists wa, inject_item (AppRuntimes, [rt]) (TempRoot, sd) item w = (Ok tt, wa) /\
              Fs.resolve (sd ++ [item]) (Fs.Dir (tmp wa)) <> None) \/
  (exists e, inject_item (AppRuntimes, [rt]) (TempRoot, sd) item w = (Raise e, w)).
Proof.
  rewrite inject_item_unfold.
  destruct (Fs.resolve (sd ++ [item]) (Fs.Dir (tmp w))) eqn:Hdst.
  - left. exists w. split; [reflexivity|]. rewrite Hdst. discriminate.
  - destruct (Fs.resolve [rt; item] (Fs.Dir (runtimes w))) as [x|];
      [|right; now exists FileNotFoundError].
    destruct (Fs.store _ (sd ++ [item]) x (Some (Fs.Dir (tmp w)))) as [t|e] eqn:Hst;
      [|right; now exists e].
    left. exists (set_tree TempRoot t w). split; [reflexivity|].
    destruct (store_tmp_dir _ _ _ _ _ _ Hst) as [es' ->]. simpl tmp.
    rewrite (resolve_store_same _ _ _ _ _ Hst). discriminate.
Qed.

(** One step leaves every path that exists below [source_dir] as it is,
    and never touches [/app/runtimes]. *)
Lemma inject_item_frame (rt : string) (sd : Fs.path) (item : string) (w : world)
  (c : string) (q : Fs.path) (n : Fs.node) :
  Fs.resolve (sd ++ c :: q) (Fs.Dir (tmp w)) = Some n ->
  Fs.resolve (sd ++ c :: q)
    (Fs.Dir (tmp (snd (inject_item (AppRuntimes, [rt]) (TempRoot, sd) item w))))
  = Some n.
Proof.
  intros Hpre. rewrite inject_item_unfold.
  destruct (Fs.resolve (sd ++ [item]) (Fs.Dir (tmp w))) eqn:Hdst; [exact Hpre|].
  destruct (Fs.resolve [rt; item] (Fs.Dir (runtimes w))) as [x|]; [|exact Hpre].
  destruct (Fs.store _ (sd ++ [item]) x (Some (Fs.Dir (tmp w)))) as [t|e] eqn:Hst;
    [|exact Hpre].
  destruct (store_tmp_dir _ _ _ _ _ _ Hst) as [es' ->]. simpl snd. simpl tmp.
  assert (Hne : item <> c).
  { intros <-. rewrite resolve_app in Hdst.
    change (sd ++ item :: q) with (sd ++ [item] ++ q) in Hpre.
    rewrite resolve_app in Hpre.
    destruct (Fs.resolve sd (Fs.Dir (tmp w))) as [m|]; [|discriminate].
    simpl in Hdst, Hpre. destruct m as [data|es]; [discriminate|].
    destruct (Fs.lookup item es); discriminate. }
  rewrite (resolve_store_sibling _ _ _ _ q _ _ _ Hst Hne). exact Hpre.
Qed.

Lemma inject_item_runtimes (rt : string) (sd : Fs.path) (item : string) (w : world) :
  runtimes (snd (inject_item (AppRuntimes, [rt]) (TempRoot, sd) item w))
  = runtimes w.
Proof.
  rewrite inject_item_unfold.
  destruct (Fs.resolve (sd ++ [item]) (Fs.Dir (tmp w))); [reflexivity|].
  destruct (Fs.resolve [rt; item] (Fs.Dir (runtimes w))) as [x|]; [|reflexivity].
  destruct (Fs.store _ (sd ++ [item]) x (Some (Fs.Dir (tmp w)))) as [t|e];
    reflexivity.
Qed.

(** The outcome of a step and the trees it leaves depend on the trees only. *)
Lemma inject_item_congr (rt : string) (sd : Fs.path) (item : string) (w w' : world) :
  runtimes w = runtimes w' -> tmp w = tmp w' ->
  fst (inject_item (AppRuntimes, [rt]) (TempRoot, sd) item w)
  = fst (inject_item (AppRuntimes, [rt]) (TempRoot, sd) item w') /\
  tmp (snd (inject_item (AppRuntimes, [rt]) (TempRoot, sd) item w))
  = tmp (snd (inject_item (AppRuntimes, [rt]) (TempRoot, sd) item w')).
Proof.
  intros Hr Ht. rewrite !inject_item_unfold, <- Hr, <- Ht.
  destruct (Fs.resolve (sd ++ [item]) (Fs.Dir (tmp w))); [now split|].
  destruct (Fs.resolve [rt; item] (Fs.Dir (runtimes w))) as [x|]; [|now split].
  destruct (Fs.store _ (sd ++ [item]) x (Some (Fs.Dir (tmp w)))) as [t|e];
    now split.
Qed.

Lemma inject_loop_frame (rt : string) (sd : Fs.path) (items : list string)
  (w : world) (c : string) (q : Fs.path) (n : Fs.node) :
  Fs.resolve (sd ++ c :: q) (Fs.Dir (tmp w)) = Some n ->
  Fs.resolve (sd ++ c :: q) (Fs.Dir (tmp (snd (inject_loop rt sd items w)))) = Some n.
Proof.
  revert w. induction items as [|item items IH]; intros w Hpre; [exact Hpre|].
  unfold inject_loop. simpl. unfold bind.
  pose proof (inject_item_frame rt sd item w c q n Hpre) as Hstep.
  destruct (inject_item (AppRuntimes, [rt]) (TempRoot, sd) item w) as [[[]|e] wa];
    simpl in Hstep; [|exact Hstep].
  apply IH. exact Hstep.
Qed.

Lemma inject_loop_runtimes (rt : string) (sd : Fs.path) (items : list string)
  (w : world) :
  runtimes (snd (inject_loop rt sd items w)) = runtimes w.
Proof.
  revert w. induction items as [|item items IH]; intros w; [reflexivity|].
  unfold inject_loop. simpl. unfold bind.
  pose proof (inject_item_runtimes rt sd item w) as Hstep.
  destruct (inject_item (AppRuntimes, [rt]) (TempRoot, sd) item w) as [[[]|e] wa];
    simpl in Hstep; [|exact Hstep].
  fold (inject_loop rt sd items). now rewrite IH.
Qed.

(** After one pass of the loop a second pass changes nothing: either every
    entry is in place, or the second pass stops where the first did. *)
Lemma inject_loop_settled (rt : string) (sd : Fs.path) (items : list string) :
  forall w w',
    runtimes w' = runtimes (snd (inject_loop rt sd items w)) ->
    tmp w' = tmp (snd (inject_loop rt sd items w)) ->
    tmp (snd (inject_loop rt sd items w')) = tmp w'.
Proof.
  induction items as [|item items IH]; intros w w' Hr Ht; [reflexivity|].
  unfold inject_loop in *. simpl in *. unfold bind in *.
  destruct (inject_item_outcome rt sd item w) as [[wa [Hstep Hin]]|[e Hstep]];
    rewrite Hstep in Hr, Ht.
  - assert (Hthere : Fs.resolve (sd ++ [item]) (Fs.Dir (tmp w')) <> None).
    { destruct (Fs.resolve (sd ++ [item]) (Fs.Dir (tmp wa))) as [n|] eqn:E;
        [|contradiction].
      pose proof (inject_loop_frame rt sd items wa item [] n E) as Hkept.
      unfold inject_loop in Hkept. rewrite Ht, Hkept. discriminate. }
    rewrite (inject_item_skip rt sd item w' Hthere).
    apply (IH wa w' Hr Ht).
  - simpl in Hr, Ht.
    destruct (inject_item_congr rt sd item w w' (eq_sym Hr) (eq_sym Ht))
      as [Hfst Htmp].
    rewrite Hstep in Hfst, Htmp. simpl in Hfst, Htmp.
    destruct (inject_item (AppRuntimes, [rt]) (TempRoot, sd) item w') as [r wb].
    simpl in Hfst, Htmp. subst r. simpl. congruence.
Qed.

Lemma inject_scaffold_unfold (sd : Fs.path) (rt : string) (w : world) :
  inject_scaffold sd rt w =
  match Fs.lookup rt (runtimes w) with
  | None =>
      (Ok tt, add_log WARNING ("Scaffold directory for " +++ rt +++ " not found") w)
  | Some (Fs.File _) => (Raise NotADirectoryError, w)
  | Some (Fs.Dir scaffold) =>
      match inject_loop rt sd (Fs.names scaffold) w with
      | (Ok _, w1) => (Ok tt, add_log INFO ("Injected scaffold for " +++ rt) w1)
      | (Raise e, w1) => (Raise e, w1)
      end
  end.
Proof.
  unfold inject_scaffold, bind, os_path_exists, os_listdir, logger, inject_loop.
  cbn [fst snd tree Fs.resolve].
  destruct (Fs.lookup rt (runtimes w)) as [[data|scaffold]|] eqn:E;
    cbn [negb fst snd tree Fs.resolve]; rewrite ?E; reflexivity.
Qed.

(** The merge keeps every path that exists below the bundle root. *)
Lemma inject_scaffold_frame (sd : Fs.path) (rt : string) (w : world)
  (c : string) (q : Fs.path) (n : Fs.node) :
  Fs.resolve (sd ++ c :: q) (Fs.Dir (tmp w)) = Some n ->
  Fs.resolve (sd ++ c :: q) (Fs.Dir (tmp (snd (inject_scaffold sd rt w)))) = Some n.
Proof.
  intros Hpre. rewrite inject_scaffold_unfold.
  destruct (Fs.lookup rt (runtimes w)) as [[data|scaffold]|]; try exact Hpre.
  pose proof (inject_loop_frame rt sd (Fs.names scaffold) w c q n Hpre) as Hloop.
  destruct (inject_loop rt sd (Fs.names scaffold) w) as [[[]|e] w1]; exact Hloop.
Qed.

Lemma inject_scaffold_runtimes (sd : Fs.path) (rt : string) (w : world) :
  runtimes (snd (inject_scaffold sd rt w)) = runtimes w.
Proof.
  rewrite inject_scaffold_unfold.
  destruct (Fs.lookup rt (runtimes w)) as [[data|scaffold]|]; try reflexivity.
  pose proof (inject_loop_runtimes rt sd (Fs.names scaffold) w) as Hloop.
  destruct (inject_loop rt sd (Fs.names scaffold) w) as [[[]|e] w1]; exact Hloop.
Qed.

(** C1: every file or directory of the bundle that exists before
    [inject_scaffold] is there afterwards with the same content, for every
    world, bundle root and runtime, whether the merge returns or raises. *)
Theorem inject_scaffold_keeps_bundle :
  forall (w : world) (source_dir : Fs.path) (runtime : string)
         (name : string) (below : Fs.path) (n : Fs.node),
    Fs.resolve (source_dir ++ name :: below) (Fs.Dir (tmp w)) = Some n ->
    Fs.resolve (source_dir ++ name :: below)
      (Fs.Dir (tmp (snd (inject_scaffold source_dir runtime w)))) = Some n.
Proof.
  intros w source_dir runtime name below n.
  apply inject_scaffold_frame.
Qed.

Lemma inject_scaffold_keeps_bundle_witness :
  Fs.resolve (Examples.src0 ++ "Dockerfile" :: [])
    (Fs.Dir (tmp (snd (inject_scaffold Examples.src0 "python-flask"
                         (Examples.world_with Examples.bundle0)))))
  = Some (Fs.File "FROM user").
Proof.
  apply (inject_scaffold_keeps_bundle (Examples.world_with Examples.bundle0)
           Examples.src0 "python-flask" "Dockerfile" [] (Fs.File "FROM user")).
  reflexivity.
Defined.

(** C9: a second [inject_scaffold] on the same bundle leaves the whole
    temporary tree, and so the bundle, exactly as the first left it. *)
Theorem inject_scaffold_idempotent :
  forall (w : world) (source_dir : Fs.path) (runtime : string),
    tmp (snd (inject_scaffold source_dir runtime
                (snd (inject_scaffold source_dir runtime w))))
    = tmp (snd (inject_scaffold source_dir runtime w)) /\
    runtimes (snd (inject_scaffold source_dir runtime
                     (snd (inject_scaffold source_dir runtime w))))
    = runtimes (snd (inject_scaffold source_dir runtime w)).
Proof.
  intros w sd rt. split; [|apply inject_scaffold_runtimes].
  pose proof (inject_scaffold_runtimes sd rt w) as Hrt.
  remember (snd (inject_scaffold sd rt w)) as w1 eqn:Hw1.
  rewrite inject_scaffold_unfold in Hw1.
  rewrite (inject_scaffold_unfold sd rt w1), Hrt.
  destruct (Fs.lookup rt (runtimes w)) as [[data|scaffold]|]; try reflexivity.
  assert (Hsettled : tmp (snd (inject_loop rt sd (Fs.names scaffold) w1)) = tmp w1).
  { apply (inject_loop_settled rt sd (Fs.names scaffold) w w1).
    - rewrite Hrt. symmetry. apply inject_loop_runtimes.
    - rewrite Hw1.
      destruct (inject_loop rt sd (Fs.names scaffold) w) as [[[]|e] wl];
        reflexivity. }
  destruct (inject_loop rt sd (Fs.names scaffold) w1) as [[[]|e] w2];
    exact Hsettled.
Qed.

Lemma names_lookup (c : string) (x : Fs.node) (d : Fs.dir) :
  Fs.lookup c d = Some x -> In c (Fs.names d).
Proof.
  induction d as [|[n y] d IH]; simpl; [discriminate|].
  destruct (String.eqb n c) eqn:E.
  - apply String.eqb_eq in E. now left.
  - intros H. right. now apply IH.
Qed.

(** With the bundle root a directory and every listed entry in the
    scaffold, the loop raises nothing and settles each listed name: what
    the bundle had stays, what it lacked is the scaffold's entry. *)
Lemma inject_loop_copies (rt : string) (sd : Fs.path) (scaffold : Fs.dir)
  (items : list string) :
  (forall i, In i items -> exists x, Fs.lookup i scaffold = Some x) ->
  forall (w : world) (b : Fs.dir),
    Fs.resolve sd (Fs.Dir (tmp w)) = Some (Fs.Dir b) ->
    Fs.lookup rt (runtimes w) = Some (Fs.Dir scaffold) ->
    fst (inject_loop rt sd items w) = Ok tt /\
    forall i, In i items ->
      Fs.resolve (sd ++ [i]) (Fs.Dir (tmp (snd (inject_loop rt sd items w)))) =
      match Fs.resolve (sd ++ [i]) (Fs.Dir (tmp w)) with
      | Some y => Some y
      | None => Fs.lookup i scaffold
      end.
Proof.
  induction items as [|item items IH]; intros Hlisted w b Hsd Hrt.
  - split; [reflexivity | intros i []].
  - assert (Hrest : forall i, In i items -> exists x, Fs.lookup i scaffold = Some x)
      by (intros i Hi; apply Hlisted; now right).
    unfold inject_loop. simpl for_each. unfold bind.
    fold (inject_loop rt sd items).
    rewrite inject_item_unfold.
    destruct (Fs.resolve (sd ++ [item]) (Fs.Dir (tmp w))) as [y|] eqn:Hdst.
    + destruct (IH Hrest w b Hsd Hrt) as [Hok Hall]. split; [exact Hok|].
      intros i [<-|Hi]; [|now apply Hall].
      rewrite Hdst. apply (inject_loop_frame rt sd items w item [] y Hdst).
    + destruct (Hlisted item (or_introl eq_refl)) as [x Hx].
      assert (Hsrc : Fs.resolve [rt; item] (Fs.Dir (runtimes w)) = Some x).
      { simpl. rewrite Hrt. simpl. now rewrite Hx. }
      rewrite Hsrc.
      destruct (store_in_dir
                  (match x with Fs.Dir _ => true | Fs.File _ => false end)
                  sd item x (Fs.Dir (tmp w)) b Hsd) as [t [Hst Hsd']].
      rewrite Hst.
      destruct (store_tmp_dir _ _ _ _ _ _ Hst) as [es' ->].
      destruct (IH Hrest (set_tree TempRoot (Fs.Dir es') w) (Fs.put item x b)
                  Hsd' Hrt) as [Hok Hall].
      split; [exact Hok|].
      assert (Hnew : Fs.resolve (sd ++ [item]) (Fs.Dir es') = Some x)
        by exact (resolve_store_same _ _ _ _ _ Hst).
      intros i [<-|Hi].
      * rewrite Hdst, Hx.
        apply (inject_loop_frame rt sd items _ item [] x). exact Hnew.
      * rewrite (Hall i Hi). simpl tmp.
        destruct (String.string_dec item i) as [<-|Hne].
        -- now rewrite Hnew, Hdst, Hx.
        -- now rewrite (resolve_store_sibling _ _ _ _ [] _ _ _ Hst Hne).
Qed.

(** C4, as amended: the merge works on the top-level entries of the
    scaffold only.  With the bundle root and the scaffold directories, a
    top-level scaffold entry whose name the bundle lacks is copied whole,
    and one whose name the bundle has -- a file or a directory -- leaves
    the bundle entry as it is: the merge does not descend into it. *)
Theorem inject_scaffold_top_level :
  forall (w : world) (source_dir : Fs.path) (runtime : string)
         (bundle scaffold : Fs.dir) (item : string) (x : Fs.node),
    Fs.resolve source_dir (Fs.Dir (tmp w)) = Some (Fs.Dir bundle) ->
    Fs.lookup runtime (runtimes w) = Some (Fs.Dir scaffold) ->
    Fs.lookup item scaffold = Some x ->
    Fs.resolve (source_dir ++ [item])
      (Fs.Dir (tmp (snd (inject_scaffold source_dir runtime w)))) =
    match Fs.lookup item bundle with
    | Some y => Some y
    | None => Some x
    end.
Proof.
  intros w sd rt bundle scaffold item x Hsd Hrt Hx.
  rewrite inject_scaffold_unfold, Hrt.
  assert (Hlisted : forall i, In i (Fs.names scaffold) ->
                              exists y, Fs.lookup i scaffold = Some y)
    by (intros i; apply lookup_names).
  destruct (inject_loop_copies rt sd scaffold (Fs.names scaffold) Hlisted
              w bundle Hsd Hrt) as [Hok Hall].
  specialize (Hall item (names_lookup _ _ _ Hx)).
  destruct (inject_loop rt sd (Fs.names scaffold) w) as [r w1].
  simpl in Hok. subst r. simpl snd in *. simpl tmp.
  rewrite Hall, resolve_app, Hsd. simpl. rewrite Hx.
  destruct (Fs.lookup item bundle); reflexivity.
Qed.

Lemma inject_scaffold_top_level_witness :
  Fs.resolve (Examples.src0 ++ ["lib"])
    (Fs.Dir (tmp (snd (inject_scaffold Examples.src0 "python-flask"
                         (Examples.world_with Examples.bundle0)))))
  = Some (Fs.Dir []) /\
  Fs.resolve (Examples.src0 ++ ["wsgi.py"])
    (Fs.Dir (tmp (snd (inject_scaffold Examples.src0 "python-flask"
                         (Examples.world_with Examples.bundle0)))))
  = Some (Fs.File "from app import app").
Proof.
  split.
  - apply (inject_scaffold_top_level (Examples.world_with Examples.bundle0)
             Examples.src0 "python-flask" Examples.bundle0
             (entries_of Examples.python_scaffold) "lib"
             (Fs.Dir [("helper.py", Fs.File "def h(): pass")]));
      reflexivity.
  - apply (inject_scaffold_top_level (Examples.world_with Examples.bundle0)
             Examples.src0 "python-flask" Examples.bundle0
             (entries_of Examples.python_scaffold) "wsgi.py"
             (Fs.File "from app import app"));
      reflexivity.
Defined.

(** C4 fails as stated: the bundle has an empty [lib], the scaffold has
    [lib/helper.py], and after the merge the bundle still has no
    [lib/helper.py]. *)
Lemma inject_scaffold_does_not_descend :
  ~ descends_into_existing (Examples.world_with Examples.bundle0)
      Examples.src0 "python-flask".
Proof.
  intros Hclaim.
  specialize (Hclaim "lib" "helper.py" (Fs.File "def h(): pass")).
  assert (Hafter :
    Fs.resolve (Examples.src0 ++ ["lib"; "helper.py"])
      (Fs.Dir (tmp (snd (inject_scaffold Examples.src0 "python-flask"
                           (Examples.world_with Examples.bundle0)))))
    = None) by reflexivity.
  rewrite Hafter in Hclaim. 
  assert (Habs : None = Some (Fs.File "def h(): pass")).
  { apply Hclaim.
    - eexists. reflexivity.
    - eexists. reflexivity.
    - reflexivity.
    - reflexivity. }
  discriminate Habs.
Qed.

(** ** The build toolchain *)

Lemma subprocess_run_unfold (P : platform) (cmd : list arg) (w : world) :
  subprocess_run P cmd w =
  match docker P (trace w) cmd with
  | Exit rc out =>
      if Z.eqb rc 0 then (Ok out, daemon P cmd out (add_trace cmd w))
      else (Raise (CalledProcessError (map arg_str cmd) rc), add_trace cmd w)
  | NoExecutable => (Raise FileNotFoundError, add_trace cmd w)
  end.
Proof. reflexivity. Qed.

(** [docker build], [tag] and [push] change nothing in the world. *)
Lemma daemon_build (P : platform) (image : string) (sd : Fs.path)
  (out : string) (w : world) :
  daemon P (build_cmd image sd) out w = w.
Proof. reflexivity. Qed.

Lemma daemon_tag (P : platform) (image internal out : string) (w : world) :
  daemon P (tag_cmd image internal) out w = w.
Proof. reflexivity. Qed.

Lemma daemon_push (P : platform) (internal out : string) (w : world) :
  daemon P (push_cmd internal) out w = w.
Proof. reflexivity. Qed.

Ltac protocol_case :=
  cbn; rewrite <- ?app_assoc;
  repeat split; try (intros; discriminate); try reflexivity.

(** The [try] block of [build_image] follows the protocol: it runs the
    steps in sequence up to the first that fails, returns the image name
    when all succeeded and nothing of the kind otherwise, and leaves the
    file system and the containers alone. *)
Lemma build_tag_push_protocol (P : platform) (sd : Fs.path) (fn : string)
  (w : world) :
  let image := REGISTRY_URL P +++ "/" +++ fn +++ ":latest" in
  let rw := build_tag_push P sd image "localhost:5001" fn w in
  let run := run_in_sequence P (trace w) (toolchain_steps P sd fn) in
  trace (snd rw) = trace w ++ fst run /\
  tmp (snd rw) = tmp w /\
  runtimes (snd rw) = runtimes w /\
  containers (snd rw) = containers w /\
  (snd run = true ->
   fst rw = Ok (Some image) /\ fst run = toolchain_steps P sd fn) /\
  (snd run = false -> forall img, fst rw <> Ok (Some img)).
Proof.
  intros image rw run. subst rw run.
  unfold build_tag_push, toolchain_steps, try_except, bind, logger, ret, raise.
  fold image.
  set (internal := "localhost:5001" +++ "/" +++ fn +++ ":latest").
  change ("localhost:5001/" +++ fn +++ ":latest") with internal.
  rewrite !subprocess_run_unfold. cbn [trace add_log run_in_sequence].
  destruct (docker P (trace w) (build_cmd image sd)) as [rc out|];
    [destruct (Z.eqb rc 0) eqn:Hrc|]; [|protocol_case..].
  rewrite daemon_build. cbn [trace add_trace add_log].
  destruct (String.eqb internal image) eqn:Hsame; cbn [negb app].
  - rewrite !subprocess_run_unfold. cbn [trace add_log add_trace run_in_sequence].
    destruct (docker P (trace w ++ [build_cmd image sd]) (push_cmd internal))
      as [rc2 out2|]; [destruct (Z.eqb rc2 0) eqn:Hrc2|];
      rewrite ?daemon_push; protocol_case.
  - rewrite !subprocess_run_unfold. cbn [trace add_log add_trace run_in_sequence].
    destruct (docker P (trace w ++ [build_cmd image sd]) (tag_cmd image internal))
      as [rc1 out1|]; [destruct (Z.eqb rc1 0) eqn:Hrc1|]; [|protocol_case..].
    rewrite daemon_tag. rewrite !subprocess_run_unfold.
    cbn [trace add_log add_trace run_in_sequence].
    destruct (docker P ((trace w ++ [build_cmd image sd]) ++ [tag_cmd image internal])
                (push_cmd internal))
      as [rc2 out2|]; [destruct (Z.eqb rc2 0) eqn:Hrc2|];
      rewrite ?daemon_push; protocol_case.
Qed.

Lemma run_in_sequence_prefix (P : platform) (steps : list (list arg)) :
  forall history,
    exists rest, steps = fst (run_in_sequence P history steps) ++ rest.
Proof.
  induction steps as [|cmd steps IH]; intros history; simpl.
  - now exists [].
  - destruct (docker P history cmd) as [rc out|].
    + destruct (Z.eqb rc 0).
      * destruct (IH (history ++ [cmd])) as [rest Hrest].
        destruct (run_in_sequence P (history ++ [cmd]) steps) as [attempted ok].
        simpl in *. exists rest. now rewrite <- Hrest.
      * now exists steps.
    + now exists steps.
Qed.

(** A copy from [/app/runtimes] into the temporary tree changes that tree
    only. *)
Lemma shutil_copy2_rest (src : Fs.path) (dst : Fs.path) (w : world) :
  trace (snd (shutil_copy2 (AppRuntimes, src) (TempRoot, dst) w)) = trace w /\
  runtimes (snd (shutil_copy2 (AppRuntimes, src) (TempRoot, dst) w)) = runtimes w /\
  containers (snd (shutil_copy2 (AppRuntimes, src) (TempRoot, dst) w)) = containers w.
Proof.
  unfold shutil_copy2, os_path_join. cbn [fst snd tree].
  repeat match goal with
         | |- context [match ?x with _ => _ end] => destruct x
         end; repeat split; reflexivity.
Qed.

(** Copying a file onto a name that is free or held by a file, in an
    existing directory, succeeds and leaves the copied content there. *)
Lemma shutil_copy2_file (src sd : Fs.path) (name : string) (w : world)
  (data : string) (b : Fs.dir) (old : option string) :
  Fs.resolve src (Fs.Dir (runtimes w)) = Some (Fs.File data) ->
  Fs.resolve sd (Fs.Dir (tmp w)) = Some (Fs.Dir b) ->
  Fs.lookup name b = option_map Fs.File old ->
  fst (shutil_copy2 (AppRuntimes, src) (TempRoot, sd ++ [name]) w) = Ok tt /\
  Fs.resolve (sd ++ [name])
    (Fs.Dir (tmp (snd (shutil_copy2 (AppRuntimes, src) (TempRoot, sd ++ [name]) w))))
  = Some (Fs.File data).
Proof.
  intros Hsrc Hsd Hold.
  assert (Hdst : Fs.resolve (sd ++ [name]) (Fs.Dir (tmp w)) = option_map Fs.File old).
  { rewrite resolve_app, Hsd. simpl. rewrite Hold. now destruct old. }
  destruct (store_in_dir false sd name (Fs.File data) (Fs.Dir (tmp w)) b Hsd)
    as [t [Hst _]].
  destruct (store_tmp_dir _ _ _ _ _ _ Hst) as [es' ->].
  unfold shutil_copy2. cbn [fst snd tree]. rewrite Hsrc, Hdst.
  destruct old as [o|]; cbn [option_map fst snd tree] in *;
    rewrite Hdst, Hst; cbn [fst snd set_tree tmp entries_of];
    (split; [reflexivity|]); exact (resolve_store_same _ _ _ _ _ Hst).
Qed.

Lemma build_image_unfold (P : platform) (sd : Fs.path) (fn rt : string) (w : world) :
  build_image P sd fn rt w =
  match Fs.resolve [rt; "Dockerfile"] (Fs.Dir (runtimes w)) with
  | None =>
      (Ok None, add_log ERROR ("Dockerfile for runtime " +++ rt +++ " not found") w)
  | Some _ =>
      match shutil_copy2 (AppRuntimes, [rt; "Dockerfile"])
              (TempRoot, sd ++ ["Dockerfile"]) w with
      | (Ok _, w1) =>
          build_tag_push P sd (REGISTRY_URL P +++ "/" +++ fn +++ ":latest")
            "localhost:5001" fn w1
      | (Raise e, w1) => (Raise e, w1)
      end
  end.
Proof.
  unfold build_image, bind, os_path_exists, os_path_join, logger, ret.
  cbn [fst snd tree].
  destruct (Fs.resolve [rt; "Dockerfile"] (Fs.Dir (runtimes w))); reflexivity.
Qed.

(** The commands [build_image] runs, and what it returns, against the
    protocol. *)
Lemma build_image_protocol (P : platform) (sd : Fs.path) (fn rt : string)
  (w : world) :
  let rw := build_image P sd fn rt w in
  let run := run_in_sequence P (trace w) (toolchain_steps P sd fn) in
  (trace (snd rw) = trace w /\ forall img, fst rw <> Ok (Some img)) \/
  (trace (snd rw) = trace w ++ fst run /\
   (snd run = true ->
    fst rw = Ok (Some (REGISTRY_URL P +++ "/" +++ fn +++ ":latest")) /\
    fst run = toolchain_steps P sd fn) /\
   (snd run = false -> forall img, fst rw <> Ok (Some img))).
Proof.
  intros rw run. subst rw run. rewrite build_image_unfold.
  destruct (Fs.resolve [rt; "Dockerfile"] (Fs.Dir (runtimes w))) as [df|].
  2:{ left. split; [reflexivity | discriminate]. }
  destruct (shutil_copy2 (AppRuntimes, [rt; "Dockerfile"])
              (TempRoot, sd ++ ["Dockerfile"]) w) as [[[]|e] w1] eqn:Hcopy;
    destruct (shutil_copy2_rest [rt; "Dockerfile"] (sd ++ ["Dockerfile"]) w)
      as [Htr _];
    rewrite Hcopy in Htr; simpl in Htr.
  2:{ left. split; [exact Htr | discriminate]. }
  right. rewrite <- Htr.
  destruct (build_tag_push_protocol P sd fn w1) as [H1 [_ [_ [_ [H2 H3]]]]].
  repeat split; try assumption; now apply H2.
Qed.

(** C5: the docker commands of [build_image] are an initial segment of
    build, tag (when the names differ), push, each run once and only after
    the one before exited with status 0; the image name is returned exactly
    when all of them succeeded.  In particular, when [docker build] does not
    succeed, no other command is run. *)
Theorem build_image_sequential :
  forall (P : platform) (w : world) (source_dir : Fs.path)
         (function_name runtime : string),
    let rw := build_image P source_dir function_name runtime w in
    let steps := toolchain_steps P source_dir function_name in
    let run := run_in_sequence P (trace w) steps in
    let build :=
      build_cmd (REGISTRY_URL P +++ "/" +++ function_name +++ ":latest")
        source_dir in
    ((trace (snd rw) = trace w /\ forall img, fst rw <> Ok (Some img)) \/
     (trace (snd rw) = trace w ++ fst run /\
      (exists rest, steps = fst run ++ rest) /\
      (snd run = true -> fst run = steps /\ exists img, fst rw = Ok (Some img)) /\
      (snd run = false -> forall img, fst rw <> Ok (Some img)))) /\
    ((forall out, docker P (trace w) build <> Exit 0 out) ->
     (trace (snd rw) = trace w \/ trace (snd rw) = trace w ++ [build]) /\
     forall img, fst rw <> Ok (Some img)).
Proof.
  intros P w sd fn rt rw steps run build.
  pose proof (build_image_protocol P sd fn rt w) as Hproto.
  fold rw in Hproto. fold steps in Hproto. fold run in Hproto.
  split.
  - destruct Hproto as [Hnone|[Htr [Hok Hfail]]]; [now left|].
    right. repeat split; try assumption.
    + apply run_in_sequence_prefix.
    + now apply Hok.
    + destruct (Hok H) as [Hr _]. eexists. exact Hr.
  - intros Hbuild.
    destruct Hproto as [[Htr Hres]|[Htr [_ Hfail]]]; [split; [now left | exact Hres]|].
    assert (Hrun : run = ([build], false)).
    { subst run steps. unfold toolchain_steps. fold build.
      cbn [run_in_sequence].
      destruct (docker P (trace w) build) as [rc out|] eqn:Hd; [|reflexivity].
      destruct (Z.eqb rc 0) eqn:Hrc; [|reflexivity].
      apply Z.eqb_eq in Hrc. subst rc. now destruct (Hbuild out). }
    rewrite Hrun in Htr, Hfail. split; [right; exact Htr | now apply Hfail].
Qed.

Lemma build_image_sequential_witness :
  (trace (snd (build_image
                 (Examples.platform_with None Examples.docker_fails)
                 Examples.src0 "hello" "python-flask"
                 (Examples.world_with Examples.bundle0))) = [] \/
   trace (snd (build_image
                 (Examples.platform_with None Examples.docker_fails)
                 Examples.src0 "hello" "python-flask"
                 (Examples.world_with Examples.bundle0)))
   = [] ++ [build_cmd "localhost:5001/hello:latest" Examples.src0]) /\
  forall img,
    fst (build_image
           (Examples.platform_with None Examples.docker_fails)
           Examples.src0 "hello" "python-flask"
           (Examples.world_with Examples.bundle0)) <> Ok (Some img).
Proof.
  apply (build_image_sequential
           (Examples.platform_with None Examples.docker_fails)
           (Examples.world_with Examples.bundle0)
           Examples.src0 "hello" "python-flask").
  intros out. discriminate.
Defined.

(** C2, as amended: when [build_image] returns an image reference, that
    reference is [REGISTRY_URL/<function name>:latest], the name the image
    was built under; all steps were run, and the tag pushed last is
    [localhost:5001/<function name>:latest].  The two agree when
    [REGISTRY_URL] is [localhost:5001]. *)
Theorem build_image_success :
  forall (P : platform) (w w' : world) (source_dir : Fs.path)
         (function_name runtime image : string),
    build_image P source_dir function_name runtime w = (Ok (Some image), w') ->
    image = REGISTRY_URL P +++ "/" +++ function_name +++ ":latest" /\
    trace w' = trace w ++ toolchain_steps P source_dir function_name /\
    last (trace w') [] =
    push_cmd ("localhost:5001" +++ "/" +++ function_name +++ ":latest") /\
    (REGISTRY_URL P = "localhost:5001" -> last (trace w') [] = push_cmd image).
Proof.
  intros P w w' sd fn rt image Hrun.
  pose proof (build_image_protocol P sd fn rt w) as Hproto.
  rewrite Hrun in Hproto. cbn [fst snd] in Hproto.
  destruct Hproto as [[_ Hnone]|[Htr [Hok Hfail]]];
    [now destruct (Hnone image)|].
  destruct (snd (run_in_sequence P (trace w) (toolchain_steps P sd fn))) eqn:Hall;
    [|now destruct (Hfail eq_refl image)].
  destruct (Hok eq_refl) as [Himg Hsteps].
  injection Himg as Himg. rewrite Hsteps in Htr.
  assert (Hlast : last (trace w') [] = push_cmd ("localhost:5001" +++ "/" +++ fn +++ ":latest")).
  { rewrite Htr. unfold toolchain_steps.
    change (trace w ++ ?b :: ?t ++ [?p]) with (trace w ++ (b :: t) ++ [p]).
    rewrite app_assoc. apply last_last. }
  repeat split; try assumption.
  intros Hurl. rewrite Hlast, Himg, Hurl. reflexivity.
Qed.

Lemma build_image_success_witness :
  "registry:5000/hello:latest" = "registry:5000" +++ "/" +++ "hello" +++ ":latest" /\
  last (trace (snd (build_image
                      (Examples.platform_with (Some "registry:5000") Examples.docker_ok)
                      Examples.src0 "hello" "python-flask"
                      (Examples.world_with Examples.bundle0)))) []
  = push_cmd "localhost:5001/hello:latest".
Proof.
  destruct (build_image_success
              (Examples.platform_with (Some "registry:5000") Examples.docker_ok)
              (Examples.world_with Examples.bundle0)
              (snd (build_image
                      (Examples.platform_with (Some "registry:5000") Examples.docker_ok)
                      Examples.src0 "hello" "python-flask"
                      (Examples.world_with Examples.bundle0)))
              Examples.src0 "hello" "python-flask" "registry:5000/hello:latest"
              eq_refl) as [Himg [_ [Hlast _]]].
  split; [exact Himg | exact Hlast].
Defined.

(** C2 fails as stated: with [REGISTRY_URL=registry:5000] the build
    succeeds, pushes [localhost:5001/hello:latest] and returns
    [registry:5000/hello:latest]; no host names both. *)
Lemma build_image_returns_other_host :
  ~ returns_pushed_reference
      (Examples.platform_with (Some "registry:5000") Examples.docker_ok)
      (Examples.world_with Examples.bundle0) Examples.src0 "hello" "python-flask".
Proof.
  intros Hclaim.
  destruct (Hclaim "registry:5000/hello:latest" _ eq_refl) as [host [Hpush Himg]].
  cbn in Hpush, Himg. unfold push_cmd in Hpush. injection Hpush as Hpush.
  rewrite <- Hpush in Himg. discriminate Himg.
Qed.

(** C10: when the runtime has a Dockerfile and the bundle root holds no
    directory of that name, [build_image] leaves the runtime's Dockerfile
    at the bundle root, whether or not the bundle had a Dockerfile of its
    own and whatever docker does afterwards. *)
Theorem build_image_overwrites_dockerfile :
  forall (P : platform) (w : world) (source_dir : Fs.path)
         (function_name runtime : string) (bundle : Fs.dir)
         (data : string) (user : option string),
    Fs.resolve [runtime; "Dockerfile"] (Fs.Dir (runtimes w)) = Some (Fs.File data) ->
    Fs.resolve source_dir (Fs.Dir (tmp w)) = Some (Fs.Dir bundle) ->
    Fs.lookup "Dockerfile" bundle = option_map Fs.File user ->
    Fs.resolve (source_dir ++ ["Dockerfile"])
      (Fs.Dir (tmp (snd (build_image P source_dir function_name runtime w))))
    = Some (Fs.File data).
Proof.
  intros P w sd fn rt bundle data user Hdf Hsd Huser.
  rewrite build_image_unfold, Hdf.
  destruct (shutil_copy2_file [rt; "Dockerfile"] sd "Dockerfile" w data bundle
              user Hdf Hsd Huser) as [Hok Hthere].
  destruct (shutil_copy2 (AppRuntimes, [rt; "Dockerfile"])
              (TempRoot, sd ++ ["Dockerfile"]) w) as [r w1].
  cbn [fst snd] in Hok, Hthere. subst r.
  destruct (build_tag_push_protocol P sd fn w1) as [_ [Htmp _]].
  now rewrite Htmp.
Qed.

Lemma build_image_overwrites_dockerfile_witness :
  Fs.resolve (Examples.src0 ++ ["Dockerfile"])
    (Fs.Dir (tmp (Examples.world_with Examples.bundle0)))
  = Some (Fs.File "FROM user") /\
  Fs.resolve (Examples.src0 ++ ["Dockerfile"])
    (Fs.Dir (tmp (snd (build_image
                         (Examples.platform_with None Examples.docker_ok)
                         Examples.src0 "hello" "python-flask"
                         (Examples.world_with Examples.bundle0)))))
  = Some (Fs.File "FROM python").
Proof.
  split; [reflexivity|].
  apply (build_image_overwrites_dockerfile
           (Examples.platform_with None Examples.docker_ok)
           (Examples.world_with Examples.bundle0) Examples.src0
           "hello" "python-flask" Examples.bundle0 "FROM python"
           (Some "FROM user")); reflexivity.
Defined.

(** ** Temporary directories *)

Lemma confined_ret {A} (name : string) (a : A) : confined name (ret a).
Proof. intros w. reflexivity. Qed.

Lemma confined_raise {A} (name : string) (e : exn) : confined name (@raise A e).
Proof. intros w. reflexivity. Qed.

Lemma confined_logger (name : string) (l : level) (msg : string) :
  confined name (logger l msg).
Proof. intros w. reflexivity. Qed.

Lemma confined_bind {A B} (name : string) (m : M A) (k : A -> M B) :
  confined name m -> (forall a, confined name (k a)) -> confined name (bind m k).
Proof.
  intros Hm Hk w. unfold bind. specialize (Hm w).
  destruct (m w) as [[a|e] w1]; simpl in Hm; [|exact Hm].
  now rewrite (Hk a w1).
Qed.

Lemma confined_try_except {A} (name : string) (m : M A) (h : exn -> M A) :
  confined name m -> (forall e, confined name (h e)) ->
  confined name (try_except m h).
Proof.
  intros Hm Hh w. unfold try_except. specialize (Hm w).
  destruct (m w) as [[a|e] w1]; simpl in Hm; [exact Hm|].
  now rewrite (Hh e w1).
Qed.

Lemma confined_for_each {A} (name : string) (xs : list A) (body : A -> M unit) :
  (forall x, confined name (body x)) -> confined name (for_each xs body).
Proof.
  intros Hbody. induction xs as [|x xs IH]; simpl.
  - apply confined_ret.
  - apply confined_bind; [apply Hbody | intros _; exact IH].
Qed.

(** A computation that only reads is confined. *)
Lemma confined_reader {A} (name : string) (m : M A) :
  (forall w, snd (m w) = w) -> confined name m.
Proof. intros H w. now rewrite H. Qed.

Lemma os_path_exists_reads (l : loc) (w : world) : snd (os_path_exists l w) = w.
Proof. unfold os_path_exists. now destruct (Fs.resolve _ _). Qed.

Lemma os_path_isdir_reads (l : loc) (w : world) : snd (os_path_isdir l w) = w.
Proof. unfold os_path_isdir. now destruct (Fs.resolve _ _) as [[?|?]|]. Qed.

Lemma os_listdir_reads (l : loc) (w : world) : snd (os_listdir l w) = w.
Proof. unfold os_listdir. now destruct (Fs.resolve _ _) as [[?|?]|]. Qed.

(** A store below [name] in the temporary tree is confined to [name]. *)
Lemma store_confined (mk : bool) (name : string) (q : Fs.path) (x : Fs.node)
  (w : world) :
  Fs.remove name
    (tmp (snd (match Fs.store mk (name :: q) x (Some (Fs.Dir (tmp w))) with
               | Ok t => (@Ok unit tt, set_tree TempRoot t w)
               | Raise e => (Raise e, w)
               end)))
  = Fs.remove name (tmp w).
Proof.
  destruct (Fs.store mk (name :: q) x (Some (Fs.Dir (tmp w)))) as [t|e] eqn:Hst;
    [|reflexivity].
  destruct (store_below_dir _ _ _ _ _ _ Hst) as [es' [-> Hrm]]. exact Hrm.
Qed.

Lemma confined_write_file (mk : bool) (name : string)
  (q : Fs.path) (data : string) :
  confined name (write_file mk (TempRoot, name :: q) data).
Proof.
  intros w. unfold write_file. cbn [fst snd tree].
  destruct (Fs.resolve (name :: q) (Fs.Dir (tmp w))) as [[d|es]|];
    try reflexivity; apply store_confined.
Qed.

Lemma confined_os_makedirs (name : string) (q : Fs.path) :
  confined name (os_makedirs (TempRoot, name :: q)).
Proof.
  intros w. unfold os_makedirs. cbn [fst snd tree].
  destruct (Fs.resolve (name :: q) (Fs.Dir (tmp w))); [reflexivity|].
  apply store_confined.
Qed.

Lemma confined_shutil_copy2 (name : string) (src q : Fs.path) :
  confined name (shutil_copy2 (AppRuntimes, src) (TempRoot, name :: q)).
Proof.
  intros w. unfold shutil_copy2, os_path_join. cbn [fst snd tree].
  destruct (Fs.resolve src (Fs.Dir (runtimes w))) as [[data|es]|];
    try reflexivity.
  destruct (Fs.resolve (name :: q) (Fs.Dir (tmp w))) as [[d|es]|];
    cbn [fst snd tree].
  - destruct (Fs.resolve (name :: q) (Fs.Dir (tmp w))) as [[d'|es']|];
      try reflexivity; apply store_confined.
  - change ((name :: q) ++ [basename (AppRuntimes, src)])
      with (name :: (q ++ [basename (AppRuntimes, src)])).
    destruct (Fs.resolve _ (Fs.Dir (tmp w))) as [[d'|es']|];
      try reflexivity; apply store_confined.
  - destruct (Fs.resolve (name :: q) (Fs.Dir (tmp w))) as [[d'|es']|];
      try reflexivity; apply store_confined.
Qed.

Lemma confined_inject_item (name rt : string) (sd : Fs.path) (item : string) :
  confined name (inject_item (AppRuntimes, [rt]) (TempRoot, name :: sd) item).
Proof.
  intros w. rewrite inject_item_unfold.
  destruct (Fs.resolve _ (Fs.Dir (tmp w))); [reflexivity|].
  destruct (Fs.resolve [rt; item] (Fs.Dir (runtimes w))) as [x|]; [|reflexivity].
  apply (store_confined _ name (sd ++ [item]) x w).
Qed.

Lemma confined_inject_scaffold (name rt : string) (sd : Fs.path) :
  confined name (inject_scaffold (name :: sd) rt).
Proof.
  unfold inject_scaffold.
  apply confined_bind; [apply confined_reader, os_path_exists_reads|].
  intros found. destruct found; cbn [negb]; [|apply confined_logger].
  apply confined_bind; [apply confined_reader, os_listdir_reads|].
  intros items. apply confined_bind; [|intros _; apply confined_logger].
  apply confined_for_each. intros item. apply confined_inject_item.
Qed.

Lemma confined_detect_runtime (name : string) (sd : Fs.path) :
  confined name (detect_runtime sd).
Proof.
  unfold detect_runtime.
  apply confined_bind; [apply confined_reader, os_listdir_reads|].
  intros files. destruct (scan_runtimes RUNTIME_PATTERNS files);
    (apply confined_bind; [apply confined_logger | intros _; apply confined_ret]).
Qed.

Lemma confined_build_image (P : platform) (name : string) (sd : Fs.path)
  (fn rt : string) :
  confined name (build_image P (name :: sd) fn rt).
Proof.
  unfold build_image.
  apply confined_bind; [apply confined_reader, os_path_exists_reads|].
  intros found. destruct found; cbn [negb].
  - apply confined_bind; [apply confined_shutil_copy2|]. intros _ w.
    destruct (build_tag_push_protocol P (name :: sd) fn w) as [_ [Htmp _]].
    now rewrite Htmp.
  - apply confined_bind; [apply confined_logger | intros _; apply confined_ret].
Qed.

Lemma first_free_absent (candidates : list string) (d : Fs.dir) (name : string) :
  first_free candidates d = Some name -> Fs.lookup name d = None.
Proof.
  unfold first_free. intros H. apply find_some in H. destruct H as [_ H].
  now destruct (Fs.lookup name d).
Qed.

(** A body confined to its temporary directory leaves the temporary root
    as it found it: the directory is gone when the [with] block is left,
    by return or by exception. *)
Lemma with_TemporaryDirectory_clean {A} (P : platform) (body : loc -> M A) :
  (forall name, confined name (body (TempRoot, [name]))) ->
  forall w, tmp (snd (with_TemporaryDirectory P body w)) = tmp w.
Proof.
  intros Hbody w. unfold with_TemporaryDirectory, bind, mkdtemp.
  destruct (first_free (mkdtemp_names P) (tmp w)) as [name|] eqn:Hfree;
    [|reflexivity].
  unfold try_finally, rmtree.
  specialize (Hbody name
                (set_tree TempRoot (Fs.Dir (Fs.put name (Fs.Dir []) (tmp w))) w)).
  destruct (body (TempRoot, [name]) _) as [r w1].
  cbn [fst snd tree Fs.delete set_tree tmp entries_of] in *.
  rewrite Hbody, remove_put.
  apply remove_absent. exact (first_free_absent _ _ _ Hfree).
Qed.

Lemma confined_read_file (name : string) (l : loc) : confined name (read_file l).
Proof.
  apply confined_reader. intros w. unfold read_file.
  now destruct (Fs.resolve _ _) as [[?|?]|].
Qed.

Lemma confined_build_request (P : platform) (file function_name name : string) :
  confined name
    (let temp_dir := (TempRoot, [name]) in
     let zip_path := os_path_join temp_dir "function.zip" in
     write_file false zip_path file ;;
     let extract_dir := os_path_join temp_dir "src" in
     os_makedirs extract_dir ;;
     zip_ref <- ZipFile_read P zip_path ;;
     extractall zip_ref extract_dir ;;
     runtime <- detect_runtime (snd extract_dir) ;;
     inject_scaffold (snd extract_dir) runtime ;;
     image_name <- build_image P (snd extract_dir) function_name runtime ;;
     match image_name with
     | None | Some "" => ret (Jsonify [("error", "Build failed")] 500)
     | Some image_name =>
         ret (Jsonify [("name", function_name);
                       ("image", image_name);
                       ("runtime", runtime)] 201)
     end).
Proof.
  cbn [os_path_join fst snd app].
  apply confined_bind; [apply confined_write_file|]. intros _.
  apply confined_bind; [apply confined_os_makedirs|]. intros _.
  apply confined_bind.
  { unfold ZipFile_read. apply confined_bind; [apply confined_read_file|].
    intros data. destruct (zip_decode P data);
      [apply confined_ret | apply confined_raise]. }
  intros members. apply confined_bind.
  { unfold extractall. apply confined_for_each. intros m.
    apply (confined_write_file true name ("src" :: fst m)). }
  intros _. apply confined_bind; [apply confined_detect_runtime|].
  intros runtime. apply confined_bind; [apply confined_inject_scaffold|].
  intros _. apply confined_bind; [apply confined_build_image|].
  intros [[|c image]|]; apply confined_ret.
Qed.

(** C6: [build_function] leaves the temporary root exactly as it found
    it, whatever the request and whichever way its handling ends; and a
    named request whose upload is not an archive ends in [BadZipFile], the
    archive error of the code, with the whole world as before. *)
Theorem build_function_removes_tempdir :
  forall (P : platform) (req : request) (w : world),
    tmp (snd (build_function P req w)) = tmp w /\
    (forall file function_name name,
        files_file req = Some file ->
        form_name req = Some function_name ->
        function_name <> "" ->
        first_free (mkdtemp_names P) (tmp w) = Some name ->
        zip_decode P file = None ->
        build_function P req w = (Raise BadZipFile, w)).
Proof.
  intros P req w. split.
  - unfold build_function.
    destruct (files_file req) as [file|]; [|reflexivity].
    destruct (form_name req) as [[|c fn]|]; try reflexivity.
    apply with_TemporaryDirectory_clean. intros name.
    apply (confined_build_request P file (String c fn) name).
  - intros file fn name Hfile Hname Hne Hfree Hzip.
    unfold build_function. rewrite Hfile, Hname.
    destruct fn as [|c fn]; [contradiction|].
    pose proof (first_free_absent _ _ _ Hfree) as Habsent.
    unfold with_TemporaryDirectory, mkdtemp, bind, try_finally, rmtree.
    rewrite Hfree.
    unfold write_file, os_makedirs, ZipFile_read, read_file, bind, raise.
    cbn [os_path_join fst snd app tree set_tree tmp entries_of Fs.resolve
         Fs.store Fs.lookup].
    rewrite !lookup_put_same.
    cbn [Fs.lookup Fs.store Fs.put fst snd tree set_tree tmp entries_of
         Fs.resolve String.eqb Ascii.eqb Bool.eqb].
    rewrite !lookup_put_same.
    cbn [Fs.lookup Fs.store Fs.put fst snd tree set_tree tmp entries_of
         Fs.resolve String.eqb Ascii.eqb Bool.eqb].
    rewrite !lookup_put_same.
    cbn [Fs.lookup Fs.store Fs.put fst snd tree set_tree tmp entries_of
         Fs.resolve String.eqb Ascii.eqb Bool.eqb].
    rewrite Hzip.
    cbn [fst snd tree set_tree tmp entries_of Fs.delete runtimes containers
         trace log].
    rewrite !remove_put, (remove_absent _ _ Habsent).
    destruct w; reflexivity.
Qed.

Lemma build_function_removes_tempdir_witness :
  build_function (Examples.platform_with None Examples.docker_ok)
    (mkRequest (Some "not a zip") (Some "hello")) Examples.empty_world
  = (Raise BadZipFile, Examples.empty_world).
Proof.
  destruct (build_function_removes_tempdir
              (Examples.platform_with None Examples.docker_ok)
              (mkRequest (Some "not a zip") (Some "hello"))
              Examples.empty_world) as [_ Hbad].
  apply (Hbad "not a zip" "hello" "tmpaaaa"); try reflexivity.
  discriminate.
Defined.

(** ** Retrieval of the source of an image *)

Lemma offline_ret {A} (a : A) : offline (ret a).
Proof. intros w. now split. Qed.

Lemma offline_logger (l : level) (msg : string) : offline (logger l msg).
Proof. intros w. now split. Qed.

Lemma offline_bind {A B} (m : M A) (k : A -> M B) :
  offline m -> (forall a, offline (k a)) -> offline (bind m k).
Proof.
  intros Hm Hk w. unfold bind. specialize (Hm w).
  destruct (m w) as [[a|e] w1]; simpl in Hm; [|exact Hm].
  destruct (Hk a w1) as [Ht Hc]. rewrite Ht, Hc. exact Hm.
Qed.

Lemma set_tree_docker (r : root) (t : Fs.node) (w : world) :
  trace (set_tree r t w) = trace w /\ containers (set_tree r t w) = containers w.
Proof. destruct r; now split. Qed.

Lemma offline_write_file (mk : bool) (l : loc) (data : string) :
  offline (write_file mk l data).
Proof.
  intros w. unfold write_file.
  destruct (Fs.resolve (snd l) (tree (fst l) w)) as [[d|es]|]; try now split.
  all: destruct (Fs.store mk (snd l) (Fs.File data) _) as [t|e];
    [apply set_tree_docker | now split].
Qed.

Lemma offline_package (P : platform) (fn : string) (td : loc) :
  offline (package P fn td).
Proof.
  unfold package.
  apply offline_bind; [apply offline_logger|]. intros _.
  apply offline_bind; [apply offline_write_file|]. intros _.
  apply offline_bind.
  { intros w. unfold archive_members. now destruct (Fs.resolve _ _). }
  intros members. apply offline_bind; [apply offline_write_file|]. intros _.
  apply offline_bind; [apply offline_logger|]. intros _.
  apply offline_bind; [|intros data; apply offline_ret].
  intros w. unfold read_file. now destruct (Fs.resolve _ _) as [[?|?]|].
Qed.

Lemma copy_out_docker (entries : Fs.dir) (dst : loc) (w : world) :
  trace (copy_out entries dst w) = trace w /\
  containers (copy_out entries dst w) = containers w.
Proof.
  unfold copy_out. revert w.
  induction entries as [|e entries IH]; intros w; [now split|].
  simpl. destruct (Fs.store false _ _ _) as [t|err]; [|apply IH].
  destruct (IH (set_tree (fst dst) t w)) as [Ht Hc].
  destruct (set_tree_docker (fst dst) t w) as [Ht' Hc'].
  rewrite Ht, Hc. now split.
Qed.

Lemma daemon_create (P : platform) (image out : string) (w : world) :
  daemon P (create_cmd image) out w
  = set_containers (containers w ++ [strip out]) w.
Proof. reflexivity. Qed.

Lemma daemon_cp (P : platform) (id out : string) (td : loc) (w : world) :
  daemon P (cp_cmd id td) out w = copy_out (container_files P id "/app/.") td w.
Proof. reflexivity. Qed.

Lemma daemon_rm (P : platform) (id out : string) (w : world) :
  daemon P (rm_cmd id) out w
  = set_containers (filter (fun c => negb (String.eqb c id)) (containers w)) w.
Proof. reflexivity. Qed.

(** The [try ... finally] block of [get_function_code]: [docker cp] and
    [docker rm] are both run, in this order, whatever [cp] did.  When
    [rm] fails its exception is what leaves the block; when [rm] succeeds
    the container is gone and a failure of [cp] leaves the block. *)
Lemma retrieve_block (P : platform) (fn id : string) (td : loc) (w : world) :
  let cp := cp_cmd id td in
  let rm := rm_cmd id in
  let rw := try_finally
              (subprocess_run P cp ;; package P fn td)
              (subprocess_run P rm ;;
               logger INFO ("Removed temporary container " +++ id)) w in
  trace (snd rw) = trace w ++ [cp; rm] /\
  (forall rc out, docker P (trace w ++ [cp]) rm = Exit rc out -> rc <> 0%Z ->
     fst rw = Raise (CalledProcessError (map arg_str rm) rc) /\
     containers (snd rw) = containers w) /\
  (forall out, docker P (trace w ++ [cp]) rm = Exit 0 out ->
     containers (snd rw)
     = filter (fun c => negb (String.eqb c id)) (containers w) /\
     forall rc out', docker P (trace w) cp = Exit rc out' -> rc <> 0%Z ->
       fst rw = Raise (CalledProcessError (map arg_str cp) rc)).
Proof.
  intros cp rm rw. subst rw. unfold try_finally.
  assert (Hcpdef : cp = cp_cmd id td) by reflexivity.
  assert (Hrmdef : rm = rm_cmd id) by reflexivity.
  clearbody cp rm.
  (* the body: [cp] is run; what follows it runs no command *)
  assert (Hbody :
    exists r w1,
      (subprocess_run P cp ;; package P fn td) w = (r, w1) /\
      trace w1 = trace w ++ [cp] /\ containers w1 = containers w /\
      (forall rc out', docker P (trace w) cp = Exit rc out' -> rc <> 0%Z ->
         r = Raise (CalledProcessError (map arg_str cp) rc))).
  { unfold bind. rewrite subprocess_run_unfold.
    destruct (docker P (trace w) cp) as [rc out|] eqn:Hcp.
    - destruct (Z.eqb rc 0) eqn:Hrc.
      + apply Z.eqb_eq in Hrc. subst rc.
        replace (daemon P cp out (add_trace cp w))
          with (copy_out (container_files P id "/app/.") td (add_trace cp w))
          by (rewrite Hcpdef; reflexivity).
        destruct (copy_out_docker (container_files P id "/app/.") td
                    (add_trace cp w)) as [Ht Hc].
        destruct (offline_package P fn td
                    (copy_out (container_files P id "/app/.") td (add_trace cp w)))
          as [Ht' Hc'].
        destruct (package P fn td _) as [r w1]. simpl in Ht', Hc'.
        exists r, w1. split; [reflexivity|]. split; [now rewrite Ht', Ht|].
        split; [now rewrite Hc', Hc|].
        intros rc out' Heq Hne. injection Heq as <- _. contradiction.
      + eexists _, _. split; [reflexivity|]. split; [reflexivity|].
        split; [reflexivity|].
        intros rc' out' Heq _. now injection Heq as <- _.
    - eexists _, _. split; [reflexivity|]. split; [reflexivity|].
      split; [reflexivity|]. intros rc out' Heq. discriminate Heq. }
  destruct Hbody as [r [w1 [Hrun [Ht1 [Hc1 Hcpfail]]]]]. rewrite Hrun.
  unfold bind, logger. rewrite subprocess_run_unfold, Ht1.
  destruct (docker P (trace w ++ [cp]) rm) as [rc out|] eqn:Hrm.
  - destruct (Z.eqb rc 0) eqn:Hrc.
    + apply Z.eqb_eq in Hrc. subst rc.
      replace (daemon P rm out (add_trace rm w1))
        with (set_containers
                (filter (fun c => negb (String.eqb c id))
                   (containers (add_trace rm w1))) (add_trace rm w1))
        by (rewrite Hrmdef; reflexivity).
      cbn [fst snd trace containers add_log add_trace set_containers].
      rewrite Ht1, Hc1, <- app_assoc. split; [reflexivity|]. split.
      * intros rc out' Heq Hne. injection Heq as <- _. contradiction.
      * intros out' _. split; [reflexivity|].
        intros rc out'' Heq Hne. now apply (Hcpfail rc out'').
    + cbn [fst snd trace containers add_log add_trace].
      rewrite Ht1, Hc1, <- app_assoc. split; [reflexivity|]. split.
      * intros rc' out' Heq _. injection Heq as <- _. now split.
      * intros out' Heq. injection Heq as -> _. discriminate Hrc.
  - cbn [fst snd trace containers add_log add_trace].
    rewrite Ht1, <- app_assoc. split; [reflexivity|].
    split; intros; discriminate.
Qed.

Lemma offline_retrieve_failed (P : platform) (e : exn) :
  offline (retrieve_failed P e).
Proof.
  destruct e; unfold retrieve_failed;
    (apply offline_bind; [apply offline_logger | intros _; apply offline_ret]).
Qed.

(** [get_function_code] once the temporary directory [name] and the
    container are there. *)
Lemma get_function_code_unfold (P : platform) (fn : string) (w : world)
  (name out : string) :
  let image := REGISTRY_URL P +++ "/" +++ fn +++ ":latest" in
  first_free (mkdtemp_names P) (tmp w) = Some name ->
  docker P (trace w) (create_cmd image) = Exit 0 out ->
  get_function_code P fn w =
  let w2 :=
    add_log INFO ("Created temporary container " +++ strip out
                  +++ " from image " +++ image)
      (set_containers (containers w ++ [strip out])
         (add_trace (create_cmd image)
            (set_tree TempRoot (Fs.Dir (Fs.put name (Fs.Dir []) (tmp w)))
               (add_log INFO ("Retrieving source code for function: " +++ fn) w)))) in
  let (r, w3) :=
    try_finally
      (subprocess_run P (cp_cmd (strip out) (TempRoot, [name])) ;;
       package P fn (TempRoot, [name]))
      (subprocess_run P (rm_cmd (strip out)) ;;
       logger INFO ("Removed temporary container " +++ strip out)) w2 in
  let (res, w4) :=
    match r with
    | Ok a => (Ok a, w3)
    | Raise e => retrieve_failed P e w3
    end in
  (res, set_tree TempRoot (Fs.delete [name] (tree TempRoot w4)) w4).
Proof.
  intros image Hfree Hcreate.
  unfold get_function_code, with_TemporaryDirectory, mkdtemp.
  unfold bind at 1. unfold logger at 1. unfold bind at 1.
  cbn [tmp add_log]. rewrite Hfree.
  unfold try_finally at 1. unfold try_except, rmtree. unfold bind at 1.
  rewrite subprocess_run_unfold. cbn [trace set_tree add_log].
  fold image. rewrite Hcreate. change (Z.eqb 0 0) with true. cbv iota.
  rewrite daemon_create. unfold bind at 1. unfold logger at 1.
  cbn [containers set_tree add_trace add_log fst snd].
  match goal with
  | |- context [try_finally ?body ?fin ?w0] =>
      destruct (try_finally body fin w0) as [[resp|e] w3]
  end; [reflexivity|].
  destruct (retrieve_failed P e w3) as [res w4]. reflexivity.
Qed.

(** C3, as amended: once [docker create] has given a container,
    [get_function_code] runs [docker cp] and then [docker rm] on it on every
    path, and nothing else.  When the removal succeeds the container is
    gone and a failure of the copy is what the caller is told; when the
    removal itself fails, its failure is what the caller is told, whatever
    the copy did. *)
Theorem get_function_code_cleanup :
  forall (P : platform) (function_name : string) (w : world)
         (name out : string),
    let create :=
      create_cmd (REGISTRY_URL P +++ "/" +++ function_name +++ ":latest") in
    let container_id := strip out in
    let cp := cp_cmd container_id (TempRoot, [name]) in
    let rm := rm_cmd container_id in
    let rw := get_function_code P function_name w in
    first_free (mkdtemp_names P) (tmp w) = Some name ->
    docker P (trace w) create = Exit 0 out ->
    trace (snd rw) = trace w ++ [create; cp; rm] /\
    (forall out', docker P (trace w ++ [create; cp]) rm = Exit 0 out' ->
       ~ In container_id (containers (snd rw)) /\
       forall rc out'', docker P (trace w ++ [create]) cp = Exit rc out'' ->
         rc <> 0%Z ->
         fst rw = Ok (Jsonify [("error", "Failed to retrieve function code: "
                                +++ str P (CalledProcessError (map arg_str cp) rc))]
                        500)) /\
    (forall rc out', docker P (trace w ++ [create; cp]) rm = Exit rc out' ->
       rc <> 0%Z ->
       In container_id (containers (snd rw)) /\
       fst rw = Ok (Jsonify [("error", "Failed to retrieve function code: "
                              +++ str P (CalledProcessError (map arg_str rm) rc))]
                      500)).
Proof.
  intros P fn w name out create container_id cp rm rw Hfree Hcreate.
  subst rw. rewrite (get_function_code_unfold P fn w name out Hfree Hcreate).
  cbv zeta.
  match goal with
  | |- context [try_finally _ _ ?w0] =>
      set (w2 := w0);
      pose proof (retrieve_block P fn container_id (TempRoot, [name]) w2) as Hblock;
      assert (Htr2 : trace w2 = trace w ++ [create]) by reflexivity;
      assert (Hc2 : containers w2 = containers w ++ [container_id]) by reflexivity
  end.
  cbv zeta in Hblock. fold cp in Hblock. fold rm in Hblock.
  fold container_id. fold cp. fold rm.
  destruct (try_finally _ _ w2) as [r w3].
  cbn [fst snd] in Hblock. destruct Hblock as [Htr3 [Hrmfail Hrmok]].
  rewrite Htr2, <- app_assoc in Htr3. rewrite Htr2 in Hrmfail, Hrmok.
  rewrite <- app_assoc in Hrmfail, Hrmok. cbn [app] in Htr3, Hrmfail, Hrmok.
  assert (Hgone : forall out',
             docker P (trace w ++ [create; cp]) rm = Exit 0 out' ->
             ~ In container_id (containers w3)).
  { intros out' Hrm. destruct (Hrmok out' Hrm) as [Hcont _].
    rewrite Hcont. intros Hin. apply filter_In in Hin.
    destruct Hin as [_ Hin]. now rewrite String.eqb_refl in Hin. }
  destruct r as [resp|e].
  - cbn [fst snd trace containers set_tree].
    split; [exact Htr3|]. split.
    + intros out' Hrm. split; [exact (Hgone out' Hrm)|].
      destruct (Hrmok out' Hrm) as [_ Hcp].
      intros rc out'' Hcpout Hne. discriminate (Hcp rc out'' Hcpout Hne).
    + intros rc out' Hrm Hne. destruct (Hrmfail rc out' Hrm Hne) as [Habs _].
      discriminate Habs.
  - destruct (offline_retrieve_failed P e w3) as [Ht4 Hc4].
    destruct (retrieve_failed P e w3) as [res w4] eqn:Hhandler.
    cbn [fst snd trace containers set_tree] in *.
    split; [now rewrite Ht4|]. split.
    + intros out' Hrm. split; [rewrite Hc4; exact (Hgone out' Hrm)|].
      destruct (Hrmok out' Hrm) as [_ Hcp].
      intros rc out'' Hcpout Hne.
      pose proof (Hcp rc out'' Hcpout Hne) as He. injection He as ->.
      cbn in Hhandler. now injection Hhandler as <- _.
    + intros rc out' Hrm Hne. destruct (Hrmfail rc out' Hrm Hne) as [He Hcont].
      injection He as ->. split.
      * rewrite Hc4, Hcont, Hc2. apply in_or_app. right. now left.
      * cbn in Hhandler. now injection Hhandler as <- _.
Qed.

Lemma get_function_code_cleanup_witness :
  trace (snd (get_function_code
                (Examples.platform_with None Examples.docker_cp_rm_fail)
                "hello" Examples.empty_world))
  = [create_cmd "localhost:5001/hello:latest";
     cp_cmd "c1" (TempRoot, ["tmpaaaa"]);
     rm_cmd "c1"] /\
  fst (get_function_code
         (Examples.platform_with None Examples.docker_cp_rm_fail)
         "hello" Examples.empty_world)
  = Ok (Jsonify [("error",
                  "Failed to retrieve function code: Command docker rm c1 failed")]
          500).
Proof.
  destruct (get_function_code_cleanup
              (Examples.platform_with None Examples.docker_cp_rm_fail)
              "hello" Examples.empty_world
              "tmpaaaa" "c1" eq_refl eq_refl) as [Htrace [_ Hrm]].
  split; [exact Htrace|].
  destruct (Hrm 1%Z "" eq_refl) as [_ Hresp]; [discriminate | exact Hresp].
Defined.

(** C3 fails as stated: [docker cp] exits with 2, then [docker rm] exits
    with 1, and the caller is told of the failed [docker rm], not of the
    failed [docker cp]. *)
Lemma get_function_code_removal_masks_failure :
  ~ reports_extraction_failure
      (Examples.platform_with None Examples.docker_cp_rm_fail)
      "hello" Examples.empty_world.
Proof.
  intros Hclaim.
  specialize (Hclaim "tmpaaaa" "c1" 2%Z "" eq_refl eq_refl eq_refl).
  assert (Hne : 2%Z <> 0%Z) by discriminate.
  specialize (Hclaim Hne). vm_compute in Hclaim. discriminate Hclaim.
Qed.

(** ** End-to-end runs *)

(** A bundle with [app.py] and a [Dockerfile] of its own, built with the
    default registry: the runtime is [python-flask], the image is
    [localhost:5001/hello:latest], and no temporary directory is left. *)
Example build_hello :
  build_function (Examples.platform_with None Examples.docker_ok)
    (mkRequest (Some "ZIP") (Some "hello")) Examples.empty_world
  = (Ok (Jsonify [("name", "hello");
                  ("image", "localhost:5001/hello:latest");
                  ("runtime", "python-flask")] 201),
     mkWorld Examples.runtimes0 [] []
       [build_cmd "localhost:5001/hello:latest" ["tmpaaaa"; "src"];
        push_cmd "localhost:5001/hello:latest"]
       [(INFO, "Detected runtime: python-flask");
        (INFO, "Injected scaffold for python-flask");
        (INFO, "Building image: docker build -t localhost:5001/hello:latest /tmp/tmpaaaa/src");
        (INFO, "Pushing image: docker push localhost:5001/hello:latest")]).
Proof. reflexivity. Qed.

(** A request without a function name is rejected before any work. *)
Example build_without_name :
  build_function (Examples.platform_with None Examples.docker_ok)
    (mkRequest (Some "ZIP") None) Examples.empty_world
  = (Ok (Jsonify [("error", "Function name is required")] 400),
     Examples.empty_world).
Proof. reflexivity. Qed.

(** The copy succeeds and the removal fails: the caller gets the failure
    of the removal instead of the archive, and the container stays. *)
Example retrieve_with_failing_removal :
  fst (get_function_code (Examples.platform_with None Examples.docker_rm_fail)
         "hello" Examples.empty_world)
  = Ok (Jsonify [("error",
                  "Failed to retrieve function code: Command docker rm c1 failed")]
          500) /\
  containers (snd (get_function_code
                     (Examples.platform_with None Examples.docker_rm_fail)
                     "hello" Examples.empty_world)) = ["c1"].
Proof. split; reflexivity. Qed.

(** All docker commands succeed: the archive is sent and nothing is left. *)
Example retrieve_hello :
  let rw := get_function_code (Examples.platform_with None Examples.docker_ok)
              "hello" Examples.empty_world in
  fst rw = Ok (SendFile "hello.zip" "ZIPPED") /\
  containers (snd rw) = [] /\ tmp (snd rw) = [].
Proof. repeat split; reflexivity. Qed.

(** * Further properties of the builder *)

(** ** Runtime detection *)

Lemma mem_same_members (p : string) (l1 l2 : list string) :
  (forall n, In n l1 <-> In n l2) -> mem p l1 = mem p l2.
Proof.
  intros Hsame. destruct (mem p l1) eqn:H1, (mem p l2) eqn:H2; try reflexivity.
  - apply mem_In, Hsame, mem_In in H1. congruence.
  - apply mem_In, Hsame, mem_In in H2. congruence.
Qed.

Lemma scan_runtimes_same_members (items : list (string * list string))
  (l1 l2 : list string) :
  (forall n, In n l1 <-> In n l2) ->
  scan_runtimes items l1 = scan_runtimes items l2.
Proof.
  intros Hsame. induction items as [|[r ps] items IH]; simpl; [reflexivity|].
  assert (Hany : any_pattern ps l1 = any_pattern ps l2).
  { induction ps as [|p ps IHps]; simpl; [reflexivity|].
    now rewrite (mem_same_members p l1 l2 Hsame), IHps. }
  now rewrite Hany, IH.
Qed.

(** The runtime detected depends on which names the bundle root holds, not
    on the order in which [os.listdir] reports them. *)
Theorem detect_runtime_listing_order :
  forall (w1 w2 : world) (sd1 sd2 : Fs.path) (b1 b2 : Fs.dir),
    Fs.resolve sd1 (Fs.Dir (tmp w1)) = Some (Fs.Dir b1) ->
    Fs.resolve sd2 (Fs.Dir (tmp w2)) = Some (Fs.Dir b2) ->
    (forall n, In n (Fs.names b1) <-> In n (Fs.names b2)) ->
    fst (detect_runtime sd1 w1) = fst (detect_runtime sd2 w2).
Proof.
  intros w1 w2 sd1 sd2 b1 b2 H1 H2 Hsame.
  rewrite (detect_runtime_unfold w1 sd1 b1 H1), (detect_runtime_unfold w2 sd2 b2 H2).
  rewrite (scan_runtimes_same_members RUNTIME_PATTERNS _ _ Hsame).
  destruct (scan_runtimes RUNTIME_PATTERNS (Fs.names b2)); reflexivity.
Qed.

Lemma detect_runtime_listing_order_witness :
  fst (detect_runtime Examples.src0
         (Examples.world_with [("go.mod", Fs.File "m"); ("package.json", Fs.File "{}")]))
  = fst (detect_runtime Examples.src0
           (Examples.world_with [("package.json", Fs.File "{}"); ("go.mod", Fs.File "m")])).
Proof.
  apply (detect_runtime_listing_order
           (Examples.world_with [("go.mod", Fs.File "m"); ("package.json", Fs.File "{}")])
           (Examples.world_with [("package.json", Fs.File "{}"); ("go.mod", Fs.File "m")])
           Examples.src0 Examples.src0
           [("go.mod", Fs.File "m"); ("package.json", Fs.File "{}")]
           [("package.json", Fs.File "{}"); ("go.mod", Fs.File "m")]
           eq_refl eq_refl).
  intros n. simpl. tauto.
Defined.

Lemma scan_runtimes_declared (items : list (string * list string))
  (files : list string) (r : string) :
  scan_runtimes items files = Some r -> In r (map fst items).
Proof.
  induction items as [|[r' ps] items IH]; simpl; [discriminate|].
  destruct (any_pattern ps files).
  - intros H. injection H as ->. now left.
  - intros H. right. now apply IH.
Qed.

(** Whatever the bundle holds, a runtime that [detect_runtime] returns is
    one of the three declared ones, and the detection changes nothing but
    the log; when the bundle root cannot be listed it raises instead. *)
Theorem detect_runtime_declared :
  forall (w : world) (source_dir : Fs.path),
    effects (snd (detect_runtime source_dir w)) = effects w /\
    (forall r, fst (detect_runtime source_dir w) = Ok r ->
               r = "python-flask" \/ r = "nodejs" \/ r = "go") /\
    (Fs.resolve source_dir (Fs.Dir (tmp w)) = None ->
     fst (detect_runtime source_dir w) = Raise FileNotFoundError).
Proof.
  intros w sd. unfold detect_runtime, bind, os_listdir, logger, ret.
  cbn [fst snd tree].
  destruct (Fs.resolve sd (Fs.Dir (tmp w))) as [[data|b]|].
  - repeat split; intros; discriminate.
  - destruct (scan_runtimes RUNTIME_PATTERNS (Fs.names b)) as [r0|] eqn:Hscan.
    + split; [reflexivity|]. split; [|discriminate].
      intros r H. injection H as <-.
      apply scan_runtimes_declared in Hscan. simpl in Hscan.
      destruct Hscan as [<-|[<-|[<-|[]]]]; auto.
    + split; [reflexivity|]. split; [|discriminate].
      intros r H. injection H as <-. now left.
  - split; [reflexivity|]. split; [discriminate | reflexivity].
Qed.

Lemma detect_runtime_declared_witness :
  "go" = "python-flask" \/ "go" = "nodejs" \/ "go" = "go".
Proof.
  destruct (detect_runtime_declared (Examples.world_with Examples.go_bundle)
              Examples.src0) as [_ [Hdeclared _]].
  apply Hdeclared. reflexivity.
Defined.

(** ** What a computation preserves *)

Lemma preserves_ret {A X} (f : world -> X) (a : A) : preserves f (ret a).
Proof. intros w. reflexivity. Qed.

Lemma preserves_raise {A X} (f : world -> X) (e : exn) : preserves f (@raise A e).
Proof. intros w. reflexivity. Qed.

Lemma preserves_bind {A B X} (f : world -> X) (m : M A) (k : A -> M B) :
  preserves f m -> (forall a, preserves f (k a)) -> preserves f (bind m k).
Proof.
  intros Hm Hk w. unfold bind. specialize (Hm w).
  destruct (m w) as [[a|e] w1]; simpl in Hm; [|exact Hm].
  now rewrite (Hk a w1).
Qed.

Lemma preserves_try_except {A X} (f : world -> X) (m : M A) (h : exn -> M A) :
  preserves f m -> (forall e, preserves f (h e)) -> preserves f (try_except m h).
Proof.
  intros Hm Hh w. unfold try_except. specialize (Hm w).
  destruct (m w) as [[a|e] w1]; simpl in Hm; [exact Hm|].
  now rewrite (Hh e w1).
Qed.

Lemma preserves_try_finally {A X} (f : world -> X) (m : M A) (fin : M unit) :
  preserves f m -> preserves f fin -> preserves f (try_finally m fin).
Proof.
  intros Hm Hfin w. unfold try_finally. specialize (Hm w).
  destruct (m w) as [r w1]. specialize (Hfin w1).
  destruct (fin w1) as [[u|e] w2]; simpl in *; congruence.
Qed.

Lemma preserves_for_each {A X} (f : world -> X) (xs : list A) (body : A -> M unit) :
  (forall x, preserves f (body x)) -> preserves f (for_each xs body).
Proof.
  intros Hbody. induction xs as [|x xs IH]; simpl.
  - apply preserves_ret.
  - apply preserves_bind; [apply Hbody | intros _; exact IH].
Qed.

Lemma preserves_reader {A X} (f : world -> X) (m : M A) :
  (forall w, snd (m w) = w) -> preserves f m.
Proof. intros H w. now rewrite H. Qed.

Lemma shielded_installation : shielded installation.
Proof. split; reflexivity. Qed.

Lemma shielded_runtimes : shielded runtimes.
Proof. split; reflexivity. Qed.

Lemma shielded_surroundings : shielded surroundings.
Proof. split; reflexivity. Qed.

Section Shielded.

Context {X : Type} (f : world -> X) (Hf : shielded f).

Lemma preserves_logger (l : level) (msg : string) : preserves f (logger l msg).
Proof. intros w. apply Hf. Qed.

Lemma preserves_store (mk : bool) (p : Fs.path) (x : Fs.node) (w : world) :
  f (snd (match Fs.store mk p x (Some (tree TempRoot w)) with
          | Ok t => (@Ok unit tt, set_tree TempRoot t w)
          | Raise e => (Raise e, w)
          end)) = f w.
Proof. destruct (Fs.store mk p x _); [apply Hf | reflexivity]. Qed.

Lemma preserves_write_file (mk : bool) (p : Fs.path) (data : string) :
  preserves f (write_file mk (TempRoot, p) data).
Proof.
  intros w. unfold write_file. cbn [fst snd].
  destruct (Fs.resolve p (tree TempRoot w)) as [[d|es]|];
    try reflexivity; apply preserves_store.
Qed.

Lemma preserves_os_makedirs (p : Fs.path) : preserves f (os_makedirs (TempRoot, p)).
Proof.
  intros w. unfold os_makedirs. cbn [fst snd].
  destruct (Fs.resolve p (tree TempRoot w)); [reflexivity | apply preserves_store].
Qed.

Lemma preserves_shutil_copytree (src : loc) (p : Fs.path) :
  preserves f (shutil_copytree src (TempRoot, p)).
Proof.
  intros w. unfold shutil_copytree. cbn [fst snd].
  destruct (Fs.resolve (snd src) (tree (fst src) w)) as [[d|es]|];
    try reflexivity.
  destruct (Fs.resolve p (tree TempRoot w)); [reflexivity | apply preserves_store].
Qed.

Lemma preserves_shutil_copy2 (src : loc) (p : Fs.path) :
  preserves f (shutil_copy2 src (TempRoot, p)).
Proof.
  intros w. unfold shutil_copy2, os_path_join. cbn [fst snd].
  destruct (Fs.resolve (snd src) (tree (fst src) w)) as [[d|es]|];
    try reflexivity.
  destruct (Fs.resolve p (tree TempRoot w)) as [[d'|es']|]; cbn [fst snd];
    match goal with
    | |- context [Fs.resolve ?q (tree TempRoot w)] =>
        destruct (Fs.resolve q (tree TempRoot w)) as [[?|?]|]
    end; try reflexivity; apply preserves_store.
Qed.

Lemma preserves_inject_item (scaffold_dir : loc) (sd : Fs.path) (item : string) :
  preserves f (inject_item scaffold_dir (TempRoot, sd) item).
Proof.
  unfold inject_item.
  apply preserves_bind; [apply preserves_reader, os_path_exists_reads|].
  intros present. destruct present; [apply preserves_ret|].
  apply preserves_bind; [apply preserves_reader, os_path_isdir_reads|].
  intros isdir. destruct isdir;
    [apply preserves_shutil_copytree | apply preserves_shutil_copy2].
Qed.

Lemma preserves_inject_scaffold (sd : Fs.path) (rt : string) :
  preserves f (inject_scaffold sd rt).
Proof.
  unfold inject_scaffold.
  apply preserves_bind; [apply preserves_reader, os_path_exists_reads|].
  intros found. destruct found; cbn [negb]; [|apply preserves_logger].
  apply preserves_bind; [apply preserves_reader, os_listdir_reads|].
  intros items. apply preserves_bind; [|intros _; apply preserves_logger].
  apply preserves_for_each. intros item. apply preserves_inject_item.
Qed.

Lemma preserves_detect_runtime (sd : Fs.path) : preserves f (detect_runtime sd).
Proof.
  unfold detect_runtime.
  apply preserves_bind; [apply preserves_reader, os_listdir_reads|].
  intros files. destruct (scan_runtimes RUNTIME_PATTERNS files);
    (apply preserves_bind; [apply preserves_logger | intros _; apply preserves_ret]).
Qed.

End Shielded.

(** ** Scaffold injection *)

(** The loop leaves alone the names it is not asked to inject. *)
Lemma inject_loop_other_names (rt : string) (sd : Fs.path) (items : list string)
  (n : string) (q : Fs.path) :
  ~ In n items ->
  forall w,
    Fs.resolve (sd ++ n :: q) (Fs.Dir (tmp (snd (inject_loop rt sd items w))))
    = Fs.resolve (sd ++ n :: q) (Fs.Dir (tmp w)).
Proof.
  induction items as [|item items IH]; intros Hnot w; [reflexivity|].
  unfold inject_loop. simpl for_each. unfold bind.
  fold (inject_loop rt sd items).
  assert (Hne : item <> n) by (intros ->; apply Hnot; now left).
  assert (Hrest : ~ In n items) by (intros Hin; apply Hnot; now right).
  assert (Hstep :
    Fs.resolve (sd ++ n :: q)
      (Fs.Dir (tmp (snd (inject_item (AppRuntimes, [rt]) (TempRoot, sd) item w))))
    = Fs.resolve (sd ++ n :: q) (Fs.Dir (tmp w))).
  { rewrite inject_item_unfold.
    destruct (Fs.resolve (sd ++ [item]) (Fs.Dir (tmp w))); [reflexivity|].
    destruct (Fs.resolve [rt; item] (Fs.Dir (runtimes w))) as [x|]; [|reflexivity].
    destruct (Fs.store _ (sd ++ [item]) x (Some (Fs.Dir (tmp w)))) as [t|e] eqn:Hst;
      [|reflexivity].
    destruct (store_tmp_dir _ _ _ _ _ _ Hst) as [es' ->]. simpl snd. simpl tmp.
    exact (resolve_store_sibling _ _ _ _ q _ _ _ Hst Hne). }
  destruct (inject_item (AppRuntimes, [rt]) (TempRoot, sd) item w) as [[[]|e] wa];
    simpl in Hstep; [|exact Hstep].
  rewrite (IH Hrest wa). exact Hstep.
Qed.

(** With the bundle root and the scaffold both directories the merge never
    raises, and afterwards the bundle root holds exactly the names it had
    and the top-level names of the scaffold. *)
Theorem inject_scaffold_union :
  forall (w : world) (source_dir : Fs.path) (runtime : string)
         (bundle scaffold : Fs.dir),
    Fs.resolve source_dir (Fs.Dir (tmp w)) = Some (Fs.Dir bundle) ->
    Fs.lookup runtime (runtimes w) = Some (Fs.Dir scaffold) ->
    fst (inject_scaffold source_dir runtime w) = Ok tt /\
    forall n,
      Fs.resolve (source_dir ++ [n])
        (Fs.Dir (tmp (snd (inject_scaffold source_dir runtime w)))) <> None <->
      (In n (Fs.names bundle) \/ In n (Fs.names scaffold)).
Proof.
  intros w sd rt bundle scaffold Hsd Hrt.
  rewrite inject_scaffold_unfold, Hrt.
  assert (Hlisted : forall i, In i (Fs.names scaffold) ->
                              exists y, Fs.lookup i scaffold = Some y)
    by (intros i; apply lookup_names).
  destruct (inject_loop_copies rt sd scaffold (Fs.names scaffold) Hlisted
              w bundle Hsd Hrt) as [Hok Hall].
  assert (Hbefore : forall n, Fs.resolve (sd ++ [n]) (Fs.Dir (tmp w))
                              = Fs.lookup n bundle).
  { intros n. rewrite resolve_app, Hsd. simpl. now destruct (Fs.lookup n bundle). }
  assert (Hnames : forall n d, Fs.lookup n d <> None <-> In n (Fs.names d)).
  { intros n d. split.
    - destruct (Fs.lookup n d) as [x|] eqn:E; [|contradiction].
      intros _. exact (names_lookup _ _ _ E).
    - intros Hin. destruct (lookup_names _ _ Hin) as [x ->]. discriminate. }
  pose proof (fun n q Hnot => inject_loop_other_names rt sd (Fs.names scaffold)
                                n q Hnot w) as Hother.
  destruct (inject_loop rt sd (Fs.names scaffold) w) as [r w1].
  simpl in Hok. subst r. cbn [fst snd tmp add_log] in *.
  split; [reflexivity|]. intros n.
  destruct (in_dec String.string_dec n (Fs.names scaffold)) as [Hin|Hnot].
  - rewrite (Hall n Hin), Hbefore. split; [intros _; now right|]. intros _.
    destruct (Fs.lookup n bundle); [discriminate|].
    now apply Hnames.
  - rewrite (Hother n [] Hnot), Hbefore, Hnames. tauto.
Qed.

Lemma inject_scaffold_union_witness :
  fst (inject_scaffold Examples.src0 "python-flask"
         (Examples.world_with Examples.bundle0)) = Ok tt /\
  Fs.resolve (Examples.src0 ++ ["wsgi.py"])
    (Fs.Dir (tmp (snd (inject_scaffold Examples.src0 "python-flask"
                         (Examples.world_with Examples.bundle0))))) <> None.
Proof.
  destruct (inject_scaffold_union (Examples.world_with Examples.bundle0)
              Examples.src0 "python-flask" Examples.bundle0
              (entries_of Examples.python_scaffold) eq_refl eq_refl)
    as [Hok Hnames].
  split; [exact Hok|]. apply Hnames. right. simpl. tauto.
Defined.

(** A runtime without a scaffold directory is no failure: the merge
    returns and only logs a warning.  A regular file in the place of the
    scaffold directory makes the merge raise, with nothing changed. *)
Theorem inject_scaffold_without_directory :
  forall (w : world) (source_dir : Fs.path) (runtime : string),
    (Fs.lookup runtime (runtimes w) = None ->
     inject_scaffold source_dir runtime w =
     (Ok tt, add_log WARNING
               ("Scaffold directory for " +++ runtime +++ " not found") w)) /\
    (forall data, Fs.lookup runtime (runtimes w) = Some (Fs.File data) ->
     inject_scaffold source_dir runtime w = (Raise NotADirectoryError, w)).
Proof.
  intros w sd rt. split.
  - intros H. now rewrite inject_scaffold_unfold, H.
  - intros data H. now rewrite inject_scaffold_unfold, H.
Qed.

Lemma inject_scaffold_without_directory_witness :
  inject_scaffold Examples.src0 "go" (Examples.world_with Examples.go_bundle) =
  (Ok tt, add_log WARNING "Scaffold directory for go not found"
            (Examples.world_with Examples.go_bundle)).
Proof.
  destruct (inject_scaffold_without_directory
              (Examples.world_with Examples.go_bundle) Examples.src0 "go")
    as [Habsent _].
  apply Habsent. reflexivity.
Defined.

(** The merge reaches nothing but the bundle: the runtime definitions,
    the containers, the docker commands run and every other entry of the
    temporary root are as before. *)
Theorem inject_scaffold_stays_in_bundle :
  forall (w : world) (temp_name : string) (below : Fs.path) (runtime : string),
    surroundings (snd (inject_scaffold (temp_name :: below) runtime w))
    = surroundings w /\
    Fs.remove temp_name (tmp (snd (inject_scaffold (temp_name :: below) runtime w)))
    = Fs.remove temp_name (tmp w).
Proof.
  intros w name below rt. split.
  - apply (preserves_inject_scaffold surroundings shielded_surroundings).
  - apply confined_inject_scaffold.
Qed.

(** ** Image build *)

(** A store anywhere below [sd/item] leaves the paths through the other
    entries of [sd] as they were. *)
Lemma resolve_store_below_sibling (mk : bool) (sd : Fs.path) (item c : string)
  (r q : Fs.path) (x t : Fs.node) (cur : option Fs.node) :
  Fs.store mk (sd ++ item :: r) x cur = Ok t ->
  item <> c ->
  Fs.resolve (sd ++ c :: q) t = Fs.resolve_from (sd ++ c :: q) cur.
Proof.
  intros Hst Hne. revert cur t Hst.
  induction sd as [|s sd IH]; intros cur t; simpl.
  - destruct cur as [[data|es]|].
    + discriminate.
    + destruct (Fs.store mk r x (Fs.lookup item es)) as [y|e]; [|discriminate].
      intros H. injection H as <-. simpl. now rewrite lookup_put_other.
    + destruct mk; [|discriminate].
      destruct (Fs.store true r x None) as [y|e]; [|discriminate].
      intros H. injection H as <-. simpl.
      destruct (String.eqb item c) eqn:E; [|reflexivity].
      apply String.eqb_eq in E. contradiction.
  - destruct cur as [[data|es]|].
    + discriminate.
    + destruct (Fs.store mk (sd ++ item :: r) x (Fs.lookup s es)) as [y|e] eqn:E;
        [|discriminate].
      intros H. injection H as <-. simpl. rewrite lookup_put_same.
      rewrite (IH _ _ E). reflexivity.
    + destruct mk; [|discriminate].
      destruct (Fs.store true (sd ++ item :: r) x None) as [y|e] eqn:E;
        [|discriminate].
      intros H. injection H as <-. simpl. rewrite String.eqb_refl.
      rewrite (IH _ _ E). reflexivity.
Qed.

Lemma store_below_sibling_tmp (mk : bool) (sd : Fs.path) (item c : string)
  (r q : Fs.path) (x : Fs.node) (w : world) :
  item <> c ->
  Fs.resolve (sd ++ c :: q)
    (Fs.Dir (tmp (snd (match Fs.store mk (sd ++ item :: r) x
                               (Some (Fs.Dir (tmp w))) with
                       | Ok t => (@Ok unit tt, set_tree TempRoot t w)
                       | Raise e => (Raise e, w)
                       end))))
  = Fs.resolve (sd ++ c :: q) (Fs.Dir (tmp w)).
Proof.
  intros Hne.
  destruct (Fs.store mk (sd ++ item :: r) x (Some (Fs.Dir (tmp w)))) as [t|e] eqn:Hst;
    [|reflexivity].
  assert (Hdir : exists es', t = Fs.Dir es').
  { destruct sd as [|s sd]; simpl app in Hst;
      destruct (store_below_dir _ _ _ _ _ _ Hst) as [es' [-> _]]; now exists es'. }
  destruct Hdir as [es' ->]. cbn [snd set_tree tmp entries_of].
  exact (resolve_store_below_sibling _ _ _ _ _ q _ _ _ Hst Hne).
Qed.

(** [shutil.copy2] onto [sd/name] changes nothing below the other entries
    of [sd], also when [sd/name] is a directory and the file lands in it. *)
Lemma shutil_copy2_siblings (src : loc) (sd : Fs.path) (name c : string)
  (q : Fs.path) (w : world) :
  name <> c ->
  Fs.resolve (sd ++ c :: q)
    (Fs.Dir (tmp (snd (shutil_copy2 src (TempRoot, sd ++ [name]) w))))
  = Fs.resolve (sd ++ c :: q) (Fs.Dir (tmp w)).
Proof.
  intros Hne. unfold shutil_copy2, os_path_join. cbn [fst snd tree].
  destruct (Fs.resolve (snd src) (tree (fst src) w)) as [[data|es]|];
    try reflexivity.
  destruct (Fs.resolve (sd ++ [name]) (Fs.Dir (tmp w))) as [[d|es]|] eqn:Hdst;
    cbn [fst snd tree].
  - rewrite Hdst. apply (store_below_sibling_tmp false sd name c [] q _ w Hne).
  - rewrite <- app_assoc. cbn [app].
    destruct (Fs.resolve (sd ++ name :: [basename src]) (Fs.Dir (tmp w)))
      as [[d'|es']|]; try reflexivity;
      apply (store_below_sibling_tmp false sd name c [basename src] q _ w Hne).
  - rewrite Hdst. apply (store_below_sibling_tmp false sd name c [] q _ w Hne).
Qed.

(** The only thing [build_image] writes is the Dockerfile: every path of
    the bundle through another top-level name is as before, whatever the
    outcome of the build. *)
Theorem build_image_writes_dockerfile_only :
  forall (P : platform) (w : world) (source_dir : Fs.path)
         (function_name runtime : string) (name : string) (below : Fs.path),
    name <> "Dockerfile" ->
    Fs.resolve (source_dir ++ name :: below)
      (Fs.Dir (tmp (snd (build_image P source_dir function_name runtime w))))
    = Fs.resolve (source_dir ++ name :: below) (Fs.Dir (tmp w)).
Proof.
  intros P w sd fn rt name below Hne.
  rewrite build_image_unfold.
  destruct (Fs.resolve [rt; "Dockerfile"] (Fs.Dir (runtimes w))); [|reflexivity].
  pose proof (shutil_copy2_siblings (AppRuntimes, [rt; "Dockerfile"]) sd
                "Dockerfile" name below w (not_eq_sym Hne)) as Hcopy.
  destruct (shutil_copy2 (AppRuntimes, [rt; "Dockerfile"])
              (TempRoot, sd ++ ["Dockerfile"]) w) as [[[]|e] w1];
    cbn [snd] in Hcopy; [|exact Hcopy].
  destruct (build_tag_push_protocol P sd fn w1) as [_ [Htmp _]].
  now rewrite Htmp.
Qed.

Lemma build_image_writes_dockerfile_only_witness :
  Fs.resolve (Examples.src0 ++ "app.py" :: [])
    (Fs.Dir (tmp (snd (build_image
                         (Examples.platform_with None Examples.docker_ok)
                         Examples.src0 "hello" "python-flask"
                         (Examples.world_with Examples.bundle0)))))
  = Fs.resolve (Examples.src0 ++ "app.py" :: [])
      (Fs.Dir (tmp (Examples.world_with Examples.bundle0))).
Proof.
  apply (build_image_writes_dockerfile_only
           (Examples.platform_with None Examples.docker_ok)
           (Examples.world_with Examples.bundle0) Examples.src0
           "hello" "python-flask" "app.py" []).
  discriminate.
Defined.

(** A runtime without a Dockerfile ends the build before docker is
    called: [build_image] returns [None], and the only effect is the error
    record in the log. *)
Theorem build_image_without_dockerfile :
  forall (P : platform) (w : world) (source_dir : Fs.path)
         (function_name runtime : string),
    Fs.resolve [runtime; "Dockerfile"] (Fs.Dir (runtimes w)) = None ->
    build_image P source_dir function_name runtime w =
    (Ok None,
     add_log ERROR ("Dockerfile for runtime " +++ runtime +++ " not found") w).
Proof.
  intros P w sd fn rt H. now rewrite build_image_unfold, H.
Qed.

Lemma build_image_without_dockerfile_witness :
  build_image (Examples.platform_with None Examples.docker_ok)
    Examples.src0 "hello" "go" (Examples.world_with Examples.go_bundle) =
  (Ok None,
   add_log ERROR "Dockerfile for runtime go not found"
     (Examples.world_with Examples.go_bundle)).
Proof.
  apply (build_image_without_dockerfile
           (Examples.platform_with None Examples.docker_ok)
           (Examples.world_with Examples.go_bundle) Examples.src0 "hello" "go").
  reflexivity.
Defined.

(** The installation is out of reach of [build_image]. *)
Lemma preserves_build_image (P : platform) (sd : Fs.path) (fn rt : string) :
  preserves installation (build_image P sd fn rt).
Proof.
  unfold build_image.
  apply preserves_bind; [apply preserves_reader, os_path_exists_reads|].
  intros found. destruct found; cbn [negb].
  - apply preserves_bind;
      [apply (preserves_shutil_copy2 installation shielded_installation)|].
    intros _ w.
    destruct (build_tag_push_protocol P sd fn w) as [_ [_ [Hr [Hc _]]]].
    unfold installation. now rewrite Hr, Hc.
  - apply preserves_bind;
      [apply (preserves_logger installation shielded_installation)
      | intros _; apply preserves_ret].
Qed.

Ltac failed_step Hd Hrc :=
  cbn [fst snd trace log add_log add_trace]; split;
  [ intros _; eexists _, _, _, _; split; [reflexivity|];
    split; [exact Hd|]; split;
    [ intros ->; discriminate Hrc | apply last_last ]
  | intros e He; discriminate He ].

Ltac unstarted_step Hd :=
  cbn [fst snd trace log add_log add_trace]; split;
  [ intros He; discriminate He
  | intros e He; injection He as <-; split; [reflexivity|];
    eexists _, _; split; [reflexivity | exact Hd] ].

(** How the [try] block of [build_image] ends when it does not return the
    image name: with [None] after a command that exited with a non-zero
    status, named in the last log record, or with the [FileNotFoundError]
    of a command that could not be started. *)
Lemma build_tag_push_report (P : platform) (sd : Fs.path) (fn : string)
  (w : world) :
  let image := REGISTRY_URL P +++ "/" +++ fn +++ ":latest" in
  let rw := build_tag_push P sd image "localhost:5001" fn w in
  (fst rw = Ok None ->
   exists history cmd rc out,
     trace (snd rw) = history ++ [cmd] /\
     docker P history cmd = Exit rc out /\
     rc <> 0%Z /\
     last (log (snd rw)) (INFO, "")
     = (ERROR, "Build failed: " +++ str P (CalledProcessError (map arg_str cmd) rc))) /\
  (forall e, fst rw = Raise e ->
     e = FileNotFoundError /\
     exists history cmd,
       trace (snd rw) = history ++ [cmd] /\ docker P history cmd = NoExecutable).
Proof.
  intros image rw. subst rw.
  unfold build_tag_push, try_except, bind, logger, ret, raise.
  set (internal := "localhost:5001" +++ "/" +++ fn +++ ":latest").
  rewrite !subprocess_run_unfold. cbn [trace add_log].
  destruct (docker P (trace w) (build_cmd image sd)) as [rc out|] eqn:Hd;
    [destruct (Z.eqb rc 0) eqn:Hrc|];
    [|failed_step Hd Hrc|unstarted_step Hd].
  rewrite daemon_build. cbn [trace add_trace add_log].
  destruct (String.eqb internal image) eqn:Hsame; cbn [negb].
  - rewrite !subprocess_run_unfold. cbn [trace add_log add_trace].
    destruct (docker P (trace w ++ [build_cmd image sd]) (push_cmd internal))
      as [rc2 out2|] eqn:Hd2; [destruct (Z.eqb rc2 0) eqn:Hrc2|];
      [|failed_step Hd2 Hrc2|unstarted_step Hd2].
    rewrite daemon_push. cbn. split; [discriminate | intros e He; discriminate He].
  - rewrite !subprocess_run_unfold. cbn [trace add_log add_trace].
    destruct (docker P (trace w ++ [build_cmd image sd]) (tag_cmd image internal))
      as [rc1 out1|] eqn:Hd1; [destruct (Z.eqb rc1 0) eqn:Hrc1|];
      [|failed_step Hd1 Hrc1|unstarted_step Hd1].
    rewrite daemon_tag. rewrite !subprocess_run_unfold.
    cbn [trace add_log add_trace].
    destruct (docker P ((trace w ++ [build_cmd image sd]) ++ [tag_cmd image internal])
                (push_cmd internal))
      as [rc2 out2|] eqn:Hd2; [destruct (Z.eqb rc2 0) eqn:Hrc2|];
      [|failed_step Hd2 Hrc2|unstarted_step Hd2].
    rewrite daemon_push. cbn. split; [discriminate | intros e He; discriminate He].
Qed.

(** When [build_image] returns [None] after docker was called, the
    command run last exited with a non-zero status and the last log record
    is the build failure of that very command. *)
Theorem build_image_failure_names_step :
  forall (P : platform) (w : world) (source_dir : Fs.path)
         (function_name runtime : string),
    fst (build_image P source_dir function_name runtime w) = Ok None ->
    trace (snd (build_image P source_dir function_name runtime w)) = trace w \/
    exists history cmd rc out,
      trace (snd (build_image P source_dir function_name runtime w))
      = history ++ [cmd] /\
      docker P history cmd = Exit rc out /\
      rc <> 0%Z /\
      last (log (snd (build_image P source_dir function_name runtime w))) (INFO, "")
      = (ERROR, "Build failed: " +++ str P (CalledProcessError (map arg_str cmd) rc)).
Proof.
  intros P w sd fn rt. rewrite build_image_unfold.
  destruct (Fs.resolve [rt; "Dockerfile"] (Fs.Dir (runtimes w)));
    [|intros _; now left].
  destruct (shutil_copy2 (AppRuntimes, [rt; "Dockerfile"])
              (TempRoot, sd ++ ["Dockerfile"]) w) as [[[]|e] w1];
    [|discriminate].
  intros Hnone. right.
  destruct (build_tag_push_report P sd fn w1) as [Hreport _].
  exact (Hreport Hnone).
Qed.

Lemma build_image_failure_names_step_witness :
  trace (snd (build_image (Examples.platform_with None Examples.docker_fails)
                Examples.src0 "hello" "python-flask"
                (Examples.world_with Examples.bundle0))) = [] \/
  exists history cmd rc out,
    trace (snd (build_image (Examples.platform_with None Examples.docker_fails)
                  Examples.src0 "hello" "python-flask"
                  (Examples.world_with Examples.bundle0)))
    = history ++ [cmd] /\
    Examples.docker_fails history cmd = Exit rc out /\
    rc <> 0%Z /\
    last (log (snd (build_image (Examples.platform_with None Examples.docker_fails)
                      Examples.src0 "hello" "python-flask"
                      (Examples.world_with Examples.bundle0)))) (INFO, "")
    = (ERROR, "Build failed: "
              +++ Examples.plain_str (CalledProcessError (map arg_str cmd) rc)).
Proof.
  apply (build_image_failure_names_step
           (Examples.platform_with None Examples.docker_fails)
           (Examples.world_with Examples.bundle0)
           Examples.src0 "hello" "python-flask").
  reflexivity.
Defined.

(** [build_image] handles [CalledProcessError] only: when it raises after
    docker was called, the exception is the [FileNotFoundError] of a docker
    command that could not be started, and that command is the last one
    attempted. *)
Theorem build_image_unstarted_docker :
  forall (P : platform) (w : world) (source_dir : Fs.path)
         (function_name runtime : string) (e : exn),
    fst (build_image P source_dir function_name runtime w) = Raise e ->
    trace (snd (build_image P source_dir function_name runtime w)) = trace w \/
    (e = FileNotFoundError /\
     exists history cmd,
       trace (snd (build_image P source_dir function_name runtime w))
       = history ++ [cmd] /\
       docker P history cmd = NoExecutable).
Proof.
  intros P w sd fn rt e. rewrite build_image_unfold.
  destruct (Fs.resolve [rt; "Dockerfile"] (Fs.Dir (runtimes w)));
    [|discriminate].
  destruct (shutil_copy2_rest [rt; "Dockerfile"] (sd ++ ["Dockerfile"]) w)
    as [Htr _].
  destruct (shutil_copy2 (AppRuntimes, [rt; "Dockerfile"])
              (TempRoot, sd ++ ["Dockerfile"]) w) as [[[]|e'] w1];
    cbn [snd] in Htr; [|intros _; now left].
  intros Hraise. right.
  destruct (build_tag_push_report P sd fn w1) as [_ Hreport].
  exact (Hreport e Hraise).
Qed.

(** ** The build request *)

(** A request without an uploaded file, or without a function name, is
    answered with status 400 before anything is touched; the file is
    looked for first. *)
Theorem build_function_rejects :
  forall (P : platform) (req : request) (w : world),
    (files_file req = None ->
     build_function P req w = (Ok (Jsonify [("error", "No file part")] 400), w)) /\
    (forall file,
        files_file req = Some file ->
        form_name req = None \/ form_name req = Some "" ->
        build_function P req w
        = (Ok (Jsonify [("error", "Function name is required")] 400), w)).
Proof.
  intros P req w. unfold build_function. split.
  - intros ->. reflexivity.
  - intros file -> [->| ->]; reflexivity.
Qed.

Lemma build_function_rejects_witness :
  build_function (Examples.platform_with None Examples.docker_ok)
    (mkRequest (Some "ZIP") (Some "")) Examples.empty_world
  = (Ok (Jsonify [("error", "Function name is required")] 400),
     Examples.empty_world).
Proof.
  destruct (build_function_rejects
              (Examples.platform_with None Examples.docker_ok)
              (mkRequest (Some "ZIP") (Some "")) Examples.empty_world)
    as [_ Hname].
  apply (Hname "ZIP"); [reflexivity | now right].
Defined.

Lemma shielded_trace : shielded trace.
Proof. split; reflexivity. Qed.

Section ShieldedRequest.

Context {X : Type} (f : world -> X) (Hf : shielded f).

Lemma preserves_read_file (l : loc) : preserves f (read_file l).
Proof.
  apply preserves_reader. intros w. unfold read_file.
  now destruct (Fs.resolve _ _) as [[?|?]|].
Qed.

Lemma preserves_ZipFile_read (P : platform) (l : loc) :
  preserves f (ZipFile_read P l).
Proof.
  unfold ZipFile_read. apply preserves_bind; [apply preserves_read_file|].
  intros data. destruct (zip_decode P data);
    [apply preserves_ret | apply preserves_raise].
Qed.

Lemma preserves_extractall (members : list (Fs.path * string)) (p : Fs.path) :
  preserves f (extractall members (TempRoot, p)).
Proof.
  unfold extractall. apply preserves_for_each. intros m.
  apply (preserves_write_file f Hf).
Qed.

Lemma preserves_with_TemporaryDirectory {A} (P : platform) (body : loc -> M A) :
  (forall name, preserves f (body (TempRoot, [name]))) ->
  preserves f (with_TemporaryDirectory P body).
Proof.
  intros Hbody w. unfold with_TemporaryDirectory, bind, mkdtemp.
  destruct (first_free (mkdtemp_names P) (tmp w)) as [name|]; [|reflexivity].
  unfold try_finally, rmtree.
  specialize (Hbody name
                (set_tree TempRoot (Fs.Dir (Fs.put name (Fs.Dir []) (tmp w))) w)).
  destruct (body (TempRoot, [name]) _) as [r w1].
  cbn [fst snd] in *. destruct Hf as [Htmp _]. now rewrite Htmp, Hbody, Htmp.
Qed.

End ShieldedRequest.

(** No request makes [build_function] change the runtime definitions or
    the containers, whichever way its handling ends. *)
Theorem build_function_keeps_installation :
  forall (P : platform) (req : request) (w : world),
    runtimes (snd (build_function P req w)) = runtimes w /\
    containers (snd (build_function P req w)) = containers w.
Proof.
  intros P req w.
  assert (H : installation (snd (build_function P req w)) = installation w).
  { revert w. change (preserves installation (build_function P req)).
    pose proof shielded_installation as Hs.
    unfold build_function.
    destruct (files_file req) as [file|]; [|apply preserves_ret].
    destruct (form_name req) as [[|c fn]|]; try apply preserves_ret.
    apply (preserves_with_TemporaryDirectory installation Hs). intros name.
    cbn [os_path_join fst snd app].
    apply preserves_bind; [apply (preserves_write_file installation Hs)|]. intros _.
    apply preserves_bind; [apply (preserves_os_makedirs installation Hs)|]. intros _.
    apply preserves_bind; [apply preserves_ZipFile_read|]. intros members.
    apply preserves_bind; [apply (preserves_extractall installation Hs)|]. intros _.
    apply preserves_bind; [apply (preserves_detect_runtime installation Hs)|].
    intros runtime.
    apply preserves_bind; [apply (preserves_inject_scaffold installation Hs)|].
    intros _. apply preserves_bind; [apply preserves_build_image|].
    intros [[|c' image]|]; apply preserves_ret. }
  unfold installation in H. now injection H.
Qed.

Lemma bind_Ok {A B} (m : M A) (k : A -> M B) (w w' : world) (b : B) :
  bind m k w = (Ok b, w') ->
  exists a w1, m w = (Ok a, w1) /\ k a w1 = (Ok b, w').
Proof.
  unfold bind. destruct (m w) as [[a|e] w1]; [|discriminate].
  intros H. now exists a, w1.
Qed.

Lemma detect_runtime_result (w : world) (sd : Fs.path) (r : string) :
  fst (detect_runtime sd w) = Ok r -> In r (map fst RUNTIME_PATTERNS).
Proof.
  unfold detect_runtime, bind, os_listdir, logger, ret. cbn [fst snd tree].
  destruct (Fs.resolve sd (Fs.Dir (tmp w))) as [[data|b]|]; try discriminate.
  destruct (scan_runtimes RUNTIME_PATTERNS (Fs.names b)) as [r0|] eqn:Hscan;
    intros H; injection H as <-.
  - exact (scan_runtimes_declared _ _ _ Hscan).
  - now left.
Qed.

(** What [build_image] has done when it returns an image name. *)
Lemma build_image_some (P : platform) (sd : Fs.path) (fn rt image : string)
  (w w' : world) :
  build_image P sd fn rt w = (Ok (Some image), w') ->
  image = REGISTRY_URL P +++ "/" +++ fn +++ ":latest" /\
  trace w' = trace w ++ toolchain_steps P sd fn.
Proof.
  intros Hrun. pose proof (build_image_protocol P sd fn rt w) as Hproto.
  rewrite Hrun in Hproto. cbn [fst snd] in Hproto.
  destruct Hproto as [[_ Hnone]|[Htr [Hok Hfail]]];
    [now destruct (Hnone image)|].
  destruct (snd (run_in_sequence P (trace w) (toolchain_steps P sd fn))) eqn:Hall;
    [|now destruct (Hfail eq_refl image)].
  destruct (Hok eq_refl) as [Himg Hsteps].
  injection Himg as Himg. rewrite Hsteps in Htr. now split.
Qed.

Lemma preserved_step {A X} (f : world -> X) (m : M A) (w w1 : world)
  (r : result A) :
  preserves f m -> m w = (r, w1) -> f w1 = f w.
Proof. intros Hm Hrun. specialize (Hm w). now rewrite Hrun in Hm. Qed.

(** A 201 answer of [build_function] tells what happened: the upload was
    an archive, the runtime named is one of the declared ones, the image
    named is [REGISTRY_URL/<name>:latest], and docker was run through build,
    tag (when the names differ) and push on the extracted bundle, and for
    nothing else. *)
Theorem build_function_created :
  forall (P : platform) (req : request) (w w' : world)
         (body : list (string * string)),
    build_function P req w = (Ok (Jsonify body 201), w') ->
    exists file members function_name runtime temp_name,
      files_file req = Some file /\
      zip_decode P file = Some members /\
      form_name req = Some function_name /\
      first_free (mkdtemp_names P) (tmp w) = Some temp_name /\
      In runtime ["python-flask"; "nodejs"; "go"] /\
      body = [("name", function_name);
              ("image", REGISTRY_URL P +++ "/" +++ function_name +++ ":latest");
              ("runtime", runtime)] /\
      trace w' = trace w ++ toolchain_steps P [temp_name; "src"] function_name.
Proof.
  intros P req w w' body. unfold build_function.
  destruct (files_file req) as [file|]; [|discriminate].
  destruct (form_name req) as [[|c fn]|]; try discriminate.
  unfold with_TemporaryDirectory, bind at 1, mkdtemp.
  destruct (first_free (mkdtemp_names P) (tmp w)) as [name|] eqn:Hfree;
    [|discriminate].
  unfold try_finally, rmtree. cbn [os_path_join fst snd app].
  set (w0 := set_tree TempRoot (Fs.Dir (Fs.put name (Fs.Dir []) (tmp w))) w).
  match goal with
  | |- (let (r, w1) := ?m w0 in _) = _ -> _ =>
      destruct (m w0) as [r wb] eqn:Hbody
  end.
  cbn [fst snd tree]. intros H. injection H as -> <-.
  pose proof shielded_trace as Hs.
  apply bind_Ok in Hbody. destruct Hbody as [[] [w1 [Hwrite Hbody]]].
  apply bind_Ok in Hbody. destruct Hbody as [[] [w2 [Hmk Hbody]]].
  apply bind_Ok in Hbody. destruct Hbody as [members [w3 [Hzip Hbody]]].
  apply bind_Ok in Hbody. destruct Hbody as [[] [w4 [Hext Hbody]]].
  apply bind_Ok in Hbody. destruct Hbody as [runtime [w5 [Hdet Hbody]]].
  apply bind_Ok in Hbody. destruct Hbody as [[] [w6 [Hinj Hbody]]].
  apply bind_Ok in Hbody. destruct Hbody as [image [w7 [Hbuild Hbody]]].
  destruct image as [[|c' image]|]; try discriminate.
  injection Hbody as <- <-.
  unfold os_path_join in Hwrite, Hmk, Hzip, Hext.
  cbn [fst snd app] in Hwrite, Hmk, Hzip, Hext.
  destruct (build_image_some _ _ _ _ _ _ _ Hbuild) as [Himage Htrace].
  (* the archive read back is the upload *)
  assert (Hupload : zip_decode P file = Some members).
  { unfold write_file in Hwrite. cbn [fst snd tree] in Hwrite.
    assert (Hst : exists es1, Fs.store false [name; "function.zip"] (Fs.File file)
                                (Some (Fs.Dir (tmp w0))) = Ok (Fs.Dir es1) /\
                              w1 = set_tree TempRoot (Fs.Dir es1) w0).
    { destruct (Fs.resolve [name; "function.zip"] (Fs.Dir (tmp w0))) as [[d|es]|];
        try discriminate;
        destruct (Fs.store false [name; "function.zip"] (Fs.File file)
                    (Some (Fs.Dir (tmp w0)))) as [t|e] eqn:Hst; try discriminate;
        destruct (store_below_dir _ _ _ _ _ _ Hst) as [es1 [-> _]];
        injection Hwrite as <-; now exists es1. }
    destruct Hst as [es1 [Hst ->]].
    pose proof (resolve_store_same _ _ _ _ _ Hst) as Hzipfile.
    unfold os_makedirs in Hmk. cbn [fst snd tree set_tree tmp entries_of] in Hmk.
    destruct (Fs.resolve [name; "src"] (Fs.Dir es1)); [discriminate|].
    destruct (Fs.store true [name; "src"] (Fs.Dir []) (Some (Fs.Dir es1)))
      as [t|e] eqn:Hst2; [|discriminate].
    destruct (store_below_dir _ _ _ _ _ _ Hst2) as [es2 [-> _]].
    injection Hmk as <-.
    assert (Hne : "src" <> "function.zip") by discriminate.
    pose proof (resolve_store_sibling true [name] "src" "function.zip" []
                  _ _ _ Hst2 Hne) as Hkept.
    cbn [app Fs.resolve_from] in Hkept. rewrite Hzipfile in Hkept.
    unfold ZipFile_read, bind, read_file in Hzip.
    cbn [fst snd tree set_tree tmp entries_of] in Hzip.
    rewrite Hkept in Hzip.
    destruct (zip_decode P file); [|discriminate].
    now injection Hzip as <- _. }
  exists file, members, (String c fn), runtime, name.
  repeat split; try reflexivity; try assumption.
  - assert (Hin : In runtime (map fst RUNTIME_PATTERNS)).
    { apply (detect_runtime_result w4 [name; "src"]). now rewrite Hdet. }
    exact Hin.
  - now rewrite Himage.
  - cbn [trace set_tree]. rewrite Htrace.
    rewrite (preserved_step trace _ _ _ _
               (preserves_inject_scaffold trace Hs _ _) Hinj).
    rewrite (preserved_step trace _ _ _ _
               (preserves_detect_runtime trace Hs _) Hdet).
    rewrite (preserved_step trace _ _ _ _
               (preserves_extractall trace Hs _ _) Hext).
    rewrite (preserved_step trace _ _ _ _
               (preserves_ZipFile_read trace P _) Hzip).
    rewrite (preserved_step trace _ _ _ _
               (preserves_os_makedirs trace Hs _) Hmk).
    rewrite (preserved_step trace _ _ _ _
               (preserves_write_file trace Hs _ _ _) Hwrite).
    reflexivity.
Qed.

Lemma build_function_created_witness :
  exists file members function_name runtime temp_name,
    Some "ZIP" = Some file /\
    zip_decode (Examples.platform_with None Examples.docker_ok) file
    = Some members /\
    Some "hello" = Some function_name /\
    first_free ["tmpaaaa"; "tmpbbbb"] [] = Some temp_name /\
    In runtime ["python-flask"; "nodejs"; "go"] /\
    [("name", "hello"); ("image", "localhost:5001/hello:latest");
     ("runtime", "python-flask")]
    = [("name", function_name);
       ("image", "localhost:5001" +++ "/" +++ function_name +++ ":latest");
       ("runtime", runtime)] /\
    trace (snd (build_function (Examples.platform_with None Examples.docker_ok)
                  (mkRequest (Some "ZIP") (Some "hello")) Examples.empty_world))
    = [] ++ toolchain_steps (Examples.platform_with None Examples.docker_ok)
              [temp_name; "src"] function_name.
Proof.
  apply (build_function_created
           (Examples.platform_with None Examples.docker_ok)
           (mkRequest (Some "ZIP") (Some "hello")) Examples.empty_world
           (snd (build_function (Examples.platform_with None Examples.docker_ok)
                   (mkRequest (Some "ZIP") (Some "hello")) Examples.empty_world))
           [("name", "hello"); ("image", "localhost:5001/hello:latest");
            ("runtime", "python-flask")]).
  reflexivity.
Defined.

(** ** Retrieval: the temporary directory and the answers *)

Lemma confined_try_finally {A} (name : string) (m : M A) (fin : M unit) :
  confined name m -> confined name fin -> confined name (try_finally m fin).
Proof.
  intros Hm Hfin w. unfold try_finally. specialize (Hm w).
  destruct (m w) as [r w1]. specialize (Hfin w1).
  destruct (fin w1) as [[u|e] w2]; simpl in *; congruence.
Qed.

Lemma copy_out_confined (entries : Fs.dir) (name : string) (w : world) :
  Fs.remove name (tmp (copy_out entries (TempRoot, [name]) w))
  = Fs.remove name (tmp w) /\
  runtimes (copy_out entries (TempRoot, [name]) w) = runtimes w.
Proof.
  unfold copy_out. revert w.
  induction entries as [|e entries IH]; intros w; [now split|].
  cbn [fold_left].
  destruct (Fs.store false (snd (TempRoot, [name]) ++ [fst e]) (snd e)
              (Some (tree (fst (TempRoot, [name])) w)))
    as [t|err] eqn:Hst; [|apply IH].
  change (Fs.store false (name :: [fst e]) (snd e) (Some (Fs.Dir (tmp w)))
          = Ok t) in Hst.
  destruct (store_below_dir _ _ _ _ _ _ Hst) as [es' [-> Hrm]].
  destruct (IH (set_tree (fst (TempRoot, [name])) (Fs.Dir es') w)) as [Ht Hr].
  split; [rewrite Ht; exact Hrm | now rewrite Hr].
Qed.

(** The three docker commands of the retrieval, seen from the file
    system: [create] and [rm] leave it alone, [cp] writes below the
    temporary directory it is given. *)
Lemma subprocess_run_retrieval (P : platform) (name : string) (cmd : list arg)
  (w : world) :
  (exists image, cmd = create_cmd image) \/
  (exists id, cmd = rm_cmd id) \/
  (exists id, cmd = cp_cmd id (TempRoot, [name])) ->
  Fs.remove name (tmp (snd (subprocess_run P cmd w))) = Fs.remove name (tmp w) /\
  runtimes (snd (subprocess_run P cmd w)) = runtimes w.
Proof.
  intros Hcmd. rewrite subprocess_run_unfold.
  destruct (docker P (trace w) cmd) as [rc out|]; [|now split].
  destruct (Z.eqb rc 0); [|now split].
  destruct Hcmd as [[image ->]|[[id ->]|[id ->]]].
  - rewrite daemon_create. now split.
  - rewrite daemon_rm. now split.
  - rewrite daemon_cp. cbn [snd].
    exact (copy_out_confined (container_files P id "/app/.") name
             (add_trace (cp_cmd id (TempRoot, [name])) w)).
Qed.

Lemma confined_package (P : platform) (fn name : string) :
  confined name (package P fn (TempRoot, [name])).
Proof.
  unfold package, os_path_join. cbn [fst snd app].
  apply confined_bind; [apply confined_logger|]. intros _.
  apply confined_bind; [apply confined_write_file|]. intros _.
  apply confined_bind.
  { apply confined_reader. intros w. unfold archive_members.
    now destruct (Fs.resolve _ _). }
  intros members. apply confined_bind; [apply confined_write_file|]. intros _.
  apply confined_bind; [apply confined_logger|]. intros _.
  apply confined_bind; [apply confined_read_file | intros data; apply confined_ret].
Qed.

Lemma preserves_package (P : platform) (fn name : string) :
  preserves runtimes (package P fn (TempRoot, [name])).
Proof.
  pose proof shielded_runtimes as Hs.
  unfold package, os_path_join. cbn [fst snd app].
  apply preserves_bind; [apply (preserves_logger runtimes Hs)|]. intros _.
  apply preserves_bind; [apply (preserves_write_file runtimes Hs)|]. intros _.
  apply preserves_bind.
  { apply preserves_reader. intros w. unfold archive_members.
    now destruct (Fs.resolve _ _). }
  intros members.
  apply preserves_bind; [apply (preserves_write_file runtimes Hs)|]. intros _.
  apply preserves_bind; [apply (preserves_logger runtimes Hs)|]. intros _.
  apply preserves_bind; [apply preserves_read_file | intros data; apply preserves_ret].
Qed.

Lemma confined_retrieve_failed (P : platform) (name : string) (e : exn) :
  confined name (retrieve_failed P e).
Proof.
  destruct e; unfold retrieve_failed;
    (apply confined_bind; [apply confined_logger | intros _; apply confined_ret]).
Qed.

Lemma preserves_retrieve_failed (P : platform) (e : exn) :
  preserves runtimes (retrieve_failed P e).
Proof.
  destruct e; unfold retrieve_failed;
    (apply preserves_bind;
     [apply (preserves_logger runtimes shielded_runtimes)
     | intros _; apply preserves_ret]).
Qed.

(** [get_function_code] leaves the temporary root exactly as it found it,
    and never touches the runtime definitions, whatever docker does. *)
Theorem get_function_code_leaves_no_tempdir :
  forall (P : platform) (function_name : string) (w : world),
    tmp (snd (get_function_code P function_name w)) = tmp w /\
    runtimes (snd (get_function_code P function_name w)) = runtimes w.
Proof.
  intros P fn w. unfold get_function_code. unfold bind at 1. unfold logger at 1.
  set (w0 := add_log INFO ("Retrieving source code for function: " +++ fn) w).
  change (tmp w) with (tmp w0). change (runtimes w) with (runtimes w0).
  split.
  - apply with_TemporaryDirectory_clean. intros name.
    apply confined_try_except; [|apply confined_retrieve_failed].
    apply confined_bind.
    { intros w1. apply (subprocess_run_retrieval P name). left. now eexists. }
    intros out. apply confined_bind; [apply confined_logger|]. intros _.
    apply confined_try_finally.
    + apply confined_bind; [|intros _; apply confined_package].
      intros w1. apply (subprocess_run_retrieval P name). right. right.
      now eexists.
    + apply confined_bind; [|intros _; apply confined_logger].
      intros w1. apply (subprocess_run_retrieval P name). right. left.
      now eexists.
  - pose proof shielded_runtimes as Hs.
    apply (preserves_with_TemporaryDirectory runtimes Hs). intros name.
    apply preserves_try_except; [|apply preserves_retrieve_failed].
    apply preserves_bind.
    { intros w1. apply (subprocess_run_retrieval P name). left. now eexists. }
    intros out. apply preserves_bind; [apply (preserves_logger runtimes Hs)|].
    intros _. apply preserves_try_finally.
    + apply preserves_bind; [|intros _; apply preserves_package].
      intros w1. apply (subprocess_run_retrieval P name). right. right.
      now eexists.
    + apply preserves_bind; [|intros _; apply (preserves_logger runtimes Hs)].
      intros w1. apply (subprocess_run_retrieval P name). right. left.
      now eexists.
Qed.

Lemma retrieve_failed_answers (P : platform) (e : exn) (w : world) :
  exists msg, fst (retrieve_failed P e w) = Ok (Jsonify [("error", msg)] 500).
Proof. destruct e; eexists; reflexivity. Qed.

Lemma package_answers (P : platform) (fn : string) (td : loc) (w : world)
  (resp : response) :
  fst (package P fn td w) = Ok resp ->
  exists data, resp = SendFile (fn +++ ".zip") data.
Proof.
  unfold package, bind, logger, ret.
  repeat match goal with
         | |- context [match ?m ?x with _ => _ end] =>
             destruct (m x) as [[?|?] ?]
         end; cbn [fst]; try discriminate.
  intros H. injection H as <-. now eexists.
Qed.

(** [get_function_code] up to its [try]. *)
Lemma get_function_code_start (P : platform) (fn : string) (w : world) :
  get_function_code P fn w =
  let w0 := add_log INFO ("Retrieving source code for function: " +++ fn) w in
  match first_free (mkdtemp_names P) (tmp w) with
  | Some name =>
      let image := REGISTRY_URL P +++ "/" +++ fn +++ ":latest" in
      let (r, w1) :=
        try_except
          (out <- subprocess_run P (create_cmd image) ;;
           logger INFO ("Created temporary container " +++ strip out
                        +++ " from image " +++ image) ;;
           try_finally
             (subprocess_run P (cp_cmd (strip out) (TempRoot, [name])) ;;
              package P fn (TempRoot, [name]))
             (subprocess_run P (rm_cmd (strip out)) ;;
              logger INFO ("Removed temporary container " +++ strip out)))
          (retrieve_failed P)
          (set_tree TempRoot (Fs.Dir (Fs.put name (Fs.Dir []) (tmp w))) w0) in
      (r, set_tree TempRoot (Fs.delete [name] (tree TempRoot w1)) w1)
  | None => (Raise FileExistsError, w0)
  end.
Proof.
  unfold get_function_code. unfold bind at 1. unfold logger at 1.
  unfold with_TemporaryDirectory. unfold bind at 1. unfold mkdtemp.
  cbn [tmp add_log].
  destruct (first_free (mkdtemp_names P) (tmp w)) as [name|]; [|reflexivity].
  unfold try_finally at 1. unfold rmtree. cbv zeta.
  match goal with
  | |- context [try_except ?m ?h ?w0] => destruct (try_except m h w0) as [r w1]
  end.
  reflexivity.
Qed.

(** With a temporary directory at hand, [get_function_code] never lets an
    exception out: it answers with the archive named [<name>.zip] or with a
    JSON error of status 500.  With no free temporary name it raises
    before its [try]. *)
Theorem get_function_code_always_answers :
  forall (P : platform) (function_name : string) (w : world),
    match first_free (mkdtemp_names P) (tmp w) with
    | Some _ =>
        (exists data,
            fst (get_function_code P function_name w)
            = Ok (SendFile (function_name +++ ".zip") data)) \/
        (exists msg,
            fst (get_function_code P function_name w)
            = Ok (Jsonify [("error", msg)] 500))
    | None => fst (get_function_code P function_name w) = Raise FileExistsError
    end.
Proof.
  intros P fn w. rewrite !get_function_code_start. cbv zeta.
  destruct (first_free (mkdtemp_names P) (tmp w)) as [name|]; [|reflexivity].
  unfold try_except.
  match goal with
  | |- context [let (r, w') := ?m ?w0 in _] => destruct (m w0) as [r w1] eqn:Hbody
  end.
  destruct r as [resp|e].
  - left. cbn [fst].
    apply bind_Ok in Hbody. destruct Hbody as [out [w2 [_ Hbody]]].
    apply bind_Ok in Hbody. destruct Hbody as [[] [w3 [_ Hbody]]].
    unfold try_finally in Hbody.
    destruct ((subprocess_run P (cp_cmd (strip out) (TempRoot, [name]));;
               package P fn (TempRoot, [name])) w3) as [r4 w4] eqn:Hinner.
    destruct ((subprocess_run P (rm_cmd (strip out));;
               logger INFO ("Removed temporary container " +++ strip out)) w4)
      as [[u|e] w5]; [|discriminate].
    injection Hbody as -> _.
    apply bind_Ok in Hinner. destruct Hinner as [o [w6 [_ Hpack]]].
    destruct (package_answers P fn (TempRoot, [name]) w6 resp) as [data ->];
      [now rewrite Hpack|].
    now exists data.
  - right. destruct (retrieve_failed_answers P e w1) as [msg Hmsg].
    exists msg. destruct (retrieve_failed P e w1) as [r' w']. exact Hmsg.
Qed.

(** When [docker create] fails nothing was allocated: no other docker
    command is run, the containers are as before, and the caller gets the
    failure of [docker create]; a docker client that cannot be started is
    reported as an unexpected error. *)
Theorem get_function_code_create_fails :
  forall (P : platform) (function_name : string) (w : world) (name : string),
    let create :=
      create_cmd (REGISTRY_URL P +++ "/" +++ function_name +++ ":latest") in
    let rw := get_function_code P function_name w in
    first_free (mkdtemp_names P) (tmp w) = Some name ->
    (forall out, docker P (trace w) create <> Exit 0 out) ->
    trace (snd rw) = trace w ++ [create] /\
    containers (snd rw) = containers w /\
    fst rw =
    Ok (Jsonify
          [("error",
            match docker P (trace w) create with
            | Exit rc _ =>
                "Failed to retrieve function code: "
                +++ str P (CalledProcessError (map arg_str create) rc)
            | NoExecutable => "Unexpected error: " +++ str P FileNotFoundError
            end)] 500).
Proof.
  intros P fn w name create rw Hfree Hfail. subst rw.
  rewrite !get_function_code_start, Hfree. cbv zeta. fold create.
  match goal with
  | |- context [try_except ?m ?h ?w0] =>
      assert (Hblock :
        try_except m h w0 =
        match docker P (trace w) create with
        | Exit rc _ =>
            retrieve_failed P (CalledProcessError (map arg_str create) rc)
              (add_trace create w0)
        | NoExecutable => retrieve_failed P FileNotFoundError (add_trace create w0)
        end)
  end.
  { unfold try_except, bind. rewrite subprocess_run_unfold.
    cbn [trace set_tree add_log].
    destruct (docker P (trace w) create) as [rc out|] eqn:Hd; [|reflexivity].
    destruct (Z.eqb rc 0) eqn:Hrc; [|reflexivity].
    apply Z.eqb_eq in Hrc. subst rc. now destruct (Hfail out). }
  rewrite !Hblock.
  destruct (docker P (trace w) create) as [rc out|]; repeat split.
Qed.

Lemma get_function_code_create_fails_witness :
  trace (snd (get_function_code
                (Examples.platform_with None Cases.docker_absent)
                "hello" Examples.empty_world))
  = [] ++ [create_cmd "localhost:5001/hello:latest"] /\
  containers (snd (get_function_code
                     (Examples.platform_with None Cases.docker_absent)
                     "hello" Examples.empty_world)) = [] /\
  fst (get_function_code (Examples.platform_with None Cases.docker_absent)
         "hello" Examples.empty_world)
  = Ok (Jsonify [("error", "Unexpected error: FileNotFoundError")] 500).
Proof.
  apply (get_function_code_create_fails
           (Examples.platform_with None Cases.docker_absent)
           "hello" Examples.empty_world "tmpaaaa" eq_refl).
  intros out. discriminate.
Defined.

(** ** The archive of the retrieved source *)






Lemma build_image_unstarted_docker_witness :
  trace (snd (build_image (Examples.platform_with None Cases.docker_absent)
                Examples.src0 "hello" "python-flask"
                (Examples.world_with Examples.bundle0))) = [] \/
  (FileNotFoundError = FileNotFoundError /\
   exists history cmd,
     trace (snd (build_image (Examples.platform_with None Cases.docker_absent)
                   Examples.src0 "hello" "python-flask"
                   (Examples.world_with Examples.bundle0)))
     = history ++ [cmd] /\
     Cases.docker_absent history cmd = NoExecutable).
Proof.
  apply (build_image_unstarted_docker
           (Examples.platform_with None Cases.docker_absent)
           (Examples.world_with Examples.bundle0)
           Examples.src0 "hello" "python-flask" FileNotFoundError).
  reflexivity.
Defined.

(** The archive of a container tree that already holds files named
    [hello.zip]: they are left out, at the top and in [pkg]. *)
Example archive_skips_zip_names :
  walk_files "hello.zip" [] (Fs.Dir Cases.app_tree)
  = [(["app.py"], "print(1)"); (["pkg"; "m.py"], "x = 1")].
Proof. reflexivity. Qed.

(** * Properties of the metadata service *)

Module MetadataFacts.

Import Metadata.

(** ** Dicts *)

Lemma dict_get_set_same {V} (k : string) (v : V) (d : list (string * V)) :
  dict_get k (dict_set k v d) = Some v.
Proof.
  induction d as [|[k' v'] d IH]; simpl.
  - now rewrite String.eqb_refl.
  - destruct (String.eqb k' k) eqn:E; simpl; rewrite E; [reflexivity | exact IH].
Qed.

Lemma dict_get_set_other {V} (k k' : string) (v : V) (d : list (string * V)) :
  k <> k' -> dict_get k' (dict_set k v d) = dict_get k' d.
Proof.
  intros Hne. induction d as [|[k0 v0] d IH]; simpl.
  - destruct (String.eqb k k') eqn:E; [|reflexivity].
    apply String.eqb_eq in E. contradiction.
  - destruct (String.eqb k0 k) eqn:E; simpl.
    + apply String.eqb_eq in E. subst k0.
      destruct (String.eqb k k') eqn:E'; [|reflexivity].
      apply String.eqb_eq in E'. contradiction.
    + now rewrite IH.
Qed.

Lemma dict_get_del_same {V} (k : string) (d : list (string * V)) :
  dict_get k (dict_del k d) = None.
Proof.
  unfold dict_del. induction d as [|[k' v'] d IH]; simpl; [reflexivity|].
  destruct (String.eqb k' k) eqn:E; simpl; [exact IH|]. now rewrite E.
Qed.

Lemma dict_get_del_other {V} (k k' : string) (d : list (string * V)) :
  k <> k' -> dict_get k' (dict_del k d) = dict_get k' d.
Proof.
  intros Hne. unfold dict_del. induction d as [|[k0 v0] d IH]; simpl; [reflexivity|].
  destruct (String.eqb k0 k) eqn:E; simpl.
  - apply String.eqb_eq in E. subst k0.
    destruct (String.eqb k k') eqn:E'; [|exact IH].
    apply String.eqb_eq in E'. contradiction.
  - now rewrite IH.
Qed.

Lemma dict_get_In {V} (k : string) (v : V) (d : list (string * V)) :
  dict_get k d = Some v -> In (k, v) d.
Proof.
  induction d as [|[k' v'] d IH]; simpl; [discriminate|].
  destruct (String.eqb k' k) eqn:E.
  - apply String.eqb_eq in E. intros H. injection H as <-. subst. now left.
  - intros H. right. now apply IH.
Qed.

Lemma dict_set_In {V} (k k0 : string) (v v0 : V) (d : list (string * V)) :
  In (k0, v0) (dict_set k v d) -> (k0, v0) = (k, v) \/ In (k0, v0) d.
Proof.
  induction d as [|[k' v'] d IH]; simpl.
  - intros [H|[]]. now left.
  - destruct (String.eqb k' k) eqn:E; simpl.
    + apply String.eqb_eq in E. subst k'. intros [H|H]; [left|right; right]; auto.
    + intros [H|H]; [right; left; exact H|].
      destruct (IH H) as [Heq|Hin]; [now left | right; now right].
Qed.

Lemma dict_set_keys {V} (k : string) (v : V) (d : list (string * V)) :
  dict_keys (dict_set k v d)
  = if existsb (String.eqb k) (dict_keys d) then dict_keys d
    else dict_keys d ++ [k].
Proof.
  unfold dict_keys. induction d as [|[k' v'] d IH]; simpl; [reflexivity|].
  rewrite (String.eqb_sym k k').
  destruct (String.eqb k' k) eqn:E; simpl; [reflexivity|].
  rewrite IH. now destruct (existsb (String.eqb k) (map fst d)).
Qed.

Lemma dict_set_NoDup {V} (k : string) (v : V) (d : list (string * V)) :
  NoDup (dict_keys d) -> NoDup (dict_keys (dict_set k v d)).
Proof.
  intros Hnd. rewrite dict_set_keys.
  destruct (existsb (String.eqb k) (dict_keys d)) eqn:E; [exact Hnd|].
  apply NoDup_app; [exact Hnd | repeat constructor; intros [] |].
  intros x Hx [Heq|[]]. subst x.
  assert (existsb (String.eqb k) (dict_keys d) = true) as Habs.
  { apply existsb_exists. exists k. split; [exact Hx | apply String.eqb_refl]. }
  congruence.
Qed.

(** ** The token *)

Lemma Depends_rejects {A} (credentials : string)
  (body : string -> db -> outcome A * db) (functions_db : db) :
  credentials <> "dev-token" ->
  Depends credentials body functions_db =
  (Raised (HTTPException 401 "Invalid authentication token"
             [("WWW-Authenticate", "Bearer")]),
   functions_db).
Proof.
  intros Hne. unfold Depends, validate_token.
  destruct (String.eqb credentials "dev-token") eqn:E; [|reflexivity].
  apply String.eqb_eq in E. contradiction.
Qed.

Lemma Depends_accepts {A} (body : string -> db -> outcome A * db)
  (functions_db : db) :
  Depends "dev-token" body functions_db = body "dev-token" functions_db.
Proof. reflexivity. Qed.

(** Every endpoint that takes a token refuses any token but [dev-token]
    with status 401, before looking at the request, and leaves the store
    as it is. *)
Theorem invalid_token_rejected :
  forall (c : call) (credentials : string) (functions_db : db),
    credentials <> "dev-token" ->
    after c credentials functions_db = functions_db /\
    failed c credentials functions_db
    = Some (HTTPException 401 "Invalid authentication token"
              [("WWW-Authenticate", "Bearer")]).
Proof.
  intros c credentials functions_db Hne.
  destruct c; unfold after, failed, create_function, list_functions,
    get_function, get_function_by_name, update_function,
    update_function_status, delete_function;
    rewrite (Depends_rejects _ _ _ Hne); split; reflexivity.
Qed.

Lemma invalid_token_rejected_witness :
  after (Delete "id-1") "guess" store2 = store2 /\
  failed (Delete "id-1") "guess" store2
  = Some (HTTPException 401 "Invalid authentication token"
            [("WWW-Authenticate", "Bearer")]).
Proof.
  apply (invalid_token_rejected (Delete "id-1") "guess" store2).
  discriminate.
Defined.

(** ** Creation *)

Lemma find_by_name_set (n k : string) (f : Function) (d : db) :
  find_by_name n (dict_values d) = None ->
  name (base f) = n ->
  find_by_name n (dict_values (dict_set k f d)) = Some f.
Proof.
  intros Hnone Hname. induction d as [|[k' v'] d IH]; simpl in *.
  - subst n. now rewrite String.eqb_refl.
  - destruct (String.eqb (name (base v')) n) eqn:E; [discriminate|].
    destruct (String.eqb k' k); simpl.
    + subst n. now rewrite String.eqb_refl.
    + rewrite E. now apply IH.
Qed.

(** A function that was created is found again: by the id it was given
    and by its name, with the fields of the request, both timestamps equal
    and the status [inactive]. *)
Theorem create_function_then_get :
  forall (env : request_env) (function : FunctionCreate)
         (functions_db db' : db) (f : Function),
    create_function env function "dev-token" functions_db = (Return f, db') ->
    f = mkFunction function (uuid4 env) (now env) (now env) "inactive" /\
    get_function (uuid4 env) "dev-token" db' = (Return f, db') /\
    get_function_by_name (name function) "dev-token" db' = (Return f, db').
Proof.
  intros env function functions_db db' f.
  unfold create_function, get_function, get_function_by_name.
  rewrite !Depends_accepts.
  destruct (find_by_name (name function) (dict_values functions_db)) eqn:Hfind;
    [discriminate|].
  intros H. injection H as <- <-. split; [reflexivity|]. split.
  - now rewrite dict_get_set_same.
  - now rewrite (find_by_name_set _ _ _ _ Hfind).
Qed.

Lemma create_function_then_get_witness :
  get_function "id-3" "dev-token"
    (snd (create_function (mkEnv "id-3" "t2")
            (mkFunctionCreate "third" "nodejs" "img" None None)
            "dev-token" store2))
  = (Return (mkFunction (mkFunctionCreate "third" "nodejs" "img" None None)
               "id-3" "t2" "t2" "inactive"),
     snd (create_function (mkEnv "id-3" "t2")
            (mkFunctionCreate "third" "nodejs" "img" None None)
            "dev-token" store2)).
Proof.
  destruct (create_function_then_get (mkEnv "id-3" "t2")
              (mkFunctionCreate "third" "nodejs" "img" None None) store2
              (snd (create_function (mkEnv "id-3" "t2")
                      (mkFunctionCreate "third" "nodejs" "img" None None)
                      "dev-token" store2))
              (mkFunction (mkFunctionCreate "third" "nodejs" "img" None None)
                 "id-3" "t2" "t2" "inactive") eq_refl) as [_ [Hget _]].
  exact Hget.
Defined.

Lemma find_by_name_some (n : string) (records : list Function) :
  (exists f, In f records /\ name (base f) = n) ->
  exists g, find_by_name n records = Some g.
Proof.
  intros [f [Hin Hname]]. induction records as [|r records IH]; [destruct Hin|].
  simpl. destruct (String.eqb (name (base r)) n) eqn:E; [now exists r|].
  destruct Hin as [->|Hin]; [|now apply IH].
  subst n. now rewrite String.eqb_refl in E.
Qed.

Lemma find_by_name_none (n : string) (records : list Function) :
  find_by_name n records = None ->
  ~ In n (map (fun f => name (base f)) records).
Proof.
  induction records as [|r records IH]; simpl; [intros _ []|].
  destruct (String.eqb (name (base r)) n) eqn:E; [discriminate|].
  intros Hnone [Heq|Hin]; [|now apply IH].
  rewrite Heq, String.eqb_refl in E. discriminate.
Qed.

Lemma names_after_set (k : string) (f : Function) (d : db) (x : string) :
  In x (map (fun f => name (base f)) (dict_values (dict_set k f d))) ->
  x = name (base f) \/ In x (map (fun f => name (base f)) (dict_values d)).
Proof.
  induction d as [|[k' v'] d IH]; simpl.
  - intros [H|[]]. now left.
  - destruct (String.eqb k' k); simpl.
    + intros [H|H]; [now left | right; now right].
    + intros [H|H]; [right; now left|].
      destruct (IH H) as [Heq|Hin]; [now left | right; now right].
Qed.

Lemma unique_names_set (k : string) (f : Function) (d : db) :
  unique_names d ->
  ~ In (name (base f)) (map (fun f => name (base f)) (dict_values d)) ->
  unique_names (dict_set k f d).
Proof.
  unfold unique_names. induction d as [|[k' v'] d IH]; simpl; intros Hnd Hfresh.
  - repeat constructor. intros [].
  - inversion Hnd as [|x l Hx Hl]; subst.
    destruct (String.eqb k' k); simpl.
    + constructor; [|exact Hl]. intros Hin. apply Hfresh. now right.
    + constructor.
      * intros Hin. destruct (names_after_set _ _ _ _ Hin) as [Heq|Hin'].
        -- apply Hfresh. now left.
        -- contradiction.
      * apply IH; [exact Hl|]. intros Hin. apply Hfresh. now right.
Qed.

(** [create_function] refuses a name that a stored function has, with
    status 409 and the store unchanged; so no creation ever gives two
    functions the same name. *)
Theorem create_function_keeps_names_unique :
  forall (env : request_env) (function : FunctionCreate)
         (credentials : string) (functions_db : db),
    ((exists f, In f (dict_values functions_db) /\
                name (base f) = name function) ->
     create_function env function "dev-token" functions_db =
     (Raised (HTTPException 409
                ("Function with name '" +++ name function +++ "' already exists")
                []),
      functions_db)) /\
    (unique_names functions_db ->
     unique_names (snd (create_function env function credentials functions_db))).
Proof.
  intros env function credentials functions_db. split.
  - intros Hex. unfold create_function. rewrite Depends_accepts.
    destruct (find_by_name_some _ _ Hex) as [g ->]. reflexivity.
  - intros Huniq. unfold create_function, Depends.
    destruct (validate_token credentials); [|exact Huniq].
    destruct (find_by_name (name function) (dict_values functions_db)) eqn:Hfind;
      [exact Huniq|].
    cbn [snd]. apply unique_names_set; [exact Huniq|].
    exact (find_by_name_none _ _ Hfind).
Qed.

Lemma create_function_keeps_names_unique_witness :
  create_function (mkEnv "id-3" "t2") hello "dev-token" store2 =
  (Raised (HTTPException 409 "Function with name 'hello' already exists" []),
   store2).
Proof.
  destruct (create_function_keeps_names_unique (mkEnv "id-3" "t2") hello
              "dev-token" store2) as [Hconflict _].
  apply Hconflict. eexists. split; [left; reflexivity | reflexivity].
Defined.

(** ** Updates *)

Lemma same_name_not_unique (k1 k2 : string) (f1 f2 : Function) (d : db) :
  In (k1, f1) d -> In (k2, f2) d -> k1 <> k2 ->
  name (base f1) = name (base f2) -> ~ unique_names d.
Proof.
  unfold unique_names, dict_values. intros H1 H2 Hne Hname Hnd.
  induction d as [|[k v] d IH]; [destruct H1|].
  simpl in Hnd. inversion Hnd as [|x l Hx Hl]; subst.
  destruct H1 as [E1|H1], H2 as [E2|H2].
  - injection E1 as -> ->. injection E2 as -> ->. contradiction.
  - injection E1 as -> ->. apply Hx. rewrite Hname.
    apply (in_map snd) in H2.
    exact (in_map (fun f => name (base f)) _ _ H2).
  - injection E2 as -> ->. apply Hx. rewrite <- Hname.
    apply (in_map snd) in H1.
    exact (in_map (fun f => name (base f)) _ _ H1).
  - now apply IH.
Qed.

(** [update_function] does not look at names: a function can be given
    the name of another one, after which two stored functions have the
    same name and the names of the store are no longer unique. *)
Theorem update_function_ignores_names :
  forall (env : request_env) (id1 id2 : string) (f1 f2 : Function)
         (functions_db : db),
    id1 <> id2 ->
    dict_get id1 functions_db = Some f1 ->
    dict_get id2 functions_db = Some f2 ->
    exists g2,
      update_function env id2 (base f1) "dev-token" functions_db
      = (Return g2, dict_set id2 g2 functions_db) /\
      name (base g2) = name (base f1) /\
      dict_get id1 (dict_set id2 g2 functions_db) = Some f1 /\
      dict_get id2 (dict_set id2 g2 functions_db) = Some g2 /\
      ~ unique_names (dict_set id2 g2 functions_db).
Proof.
  intros env id1 id2 f1 f2 functions_db Hne H1 H2.
  unfold update_function. rewrite Depends_accepts, H2.
  eexists. split; [reflexivity|]. split; [reflexivity|].
  assert (Hg1 : dict_get id1 (dict_set id2
                   (mkFunction (base f1) id2 (created_at f2) (now env) (status f2))
                   functions_db) = Some f1)
    by (rewrite dict_get_set_other; [exact H1 | now apply not_eq_sym]).
  split; [exact Hg1|]. split; [apply dict_get_set_same|].
  apply (same_name_not_unique id1 id2 f1
           (mkFunction (base f1) id2 (created_at f2) (now env) (status f2))).
  - apply dict_get_In. exact Hg1.
  - apply dict_get_In. apply dict_get_set_same.
  - exact Hne.
  - reflexivity.
Qed.

Lemma update_function_ignores_names_witness :
  exists g2,
    update_function (mkEnv "u" "t9") "id-2" hello "dev-token" store2
    = (Return g2, dict_set "id-2" g2 store2) /\
    name (base g2) = "hello" /\
    dict_get "id-1" (dict_set "id-2" g2 store2)
    = Some (mkFunction hello "id-1" "t0" "t0" "inactive") /\
    dict_get "id-2" (dict_set "id-2" g2 store2) = Some g2 /\
    ~ unique_names (dict_set "id-2" g2 store2).
Proof.
  apply (update_function_ignores_names (mkEnv "u" "t9") "id-1" "id-2"
           (mkFunction hello "id-1" "t0" "t0" "inactive")
           (mkFunction greeter "id-2" "t1" "t1" "active") store2);
    [discriminate | reflexivity | reflexivity].
Defined.

(** [update_function] replaces the fields of the request and the update
    time and keeps the id, the creation time and the status; the other
    functions are untouched.  An unknown id gives 404 and no change. *)
Theorem update_function_keeps_identity :
  forall (env : request_env) (function_id : string)
         (function_update : FunctionCreate) (functions_db : db),
    match dict_get function_id functions_db with
    | Some existing =>
        let updated :=
          mkFunction function_update function_id (created_at existing)
            (now env) (status existing) in
        fst (update_function env function_id function_update "dev-token"
               functions_db) = Return updated /\
        dict_get function_id
          (snd (update_function env function_id function_update "dev-token"
                  functions_db)) = Some updated /\
        forall other, other <> function_id ->
          dict_get other
            (snd (update_function env function_id function_update "dev-token"
                    functions_db))
          = dict_get other functions_db
    | None =>
        update_function env function_id function_update "dev-token" functions_db
        = (Raised (not_found_id function_id), functions_db)
    end.
Proof.
  intros env function_id function_update functions_db.
  unfold update_function. rewrite !Depends_accepts.
  destruct (dict_get function_id functions_db) as [existing|]; [|reflexivity].
  cbn [fst snd]. split; [reflexivity|]. split; [apply dict_get_set_same|].
  intros other Hne. apply dict_get_set_other. now apply not_eq_sym.
Qed.

Lemma update_function_keeps_identity_witness :
  fst (update_function (mkEnv "u" "t9") "id-2" hello "dev-token" store2)
  = Return (mkFunction hello "id-2" "t1" "t9" "active").
Proof.
  exact (proj1 (update_function_keeps_identity (mkEnv "u" "t9") "id-2" hello
                  store2)).
Defined.

(** In [update_function_status] the parameter [status] hides the status
    codes: an unknown id and a status other than [active] or [inactive]
    both end in an [AttributeError] instead of the 404 and 400 the code
    spells out, with the store unchanged; a valid request sets the status
    and the update time of that function and nothing else. *)
Theorem update_function_status_shadowed :
  forall (env : request_env) (function_id status_param : string)
         (functions_db : db),
    match dict_get function_id functions_db with
    | None =>
        update_function_status env function_id status_param "dev-token"
          functions_db
        = (Raised (AttributeError
                     "'str' object has no attribute 'HTTP_404_NOT_FOUND'"),
           functions_db)
    | Some f =>
        if String.eqb status_param "active" || String.eqb status_param "inactive"
        then
          let f' := mkFunction (base f) (id f) (created_at f) (now env)
                      status_param in
          fst (update_function_status env function_id status_param "dev-token"
                 functions_db) = Return f' /\
          dict_get function_id
            (snd (update_function_status env function_id status_param
                    "dev-token" functions_db)) = Some f' /\
          forall other, other <> function_id ->
            dict_get other
              (snd (update_function_status env function_id status_param
                      "dev-token" functions_db))
            = dict_get other functions_db
        else
          update_function_status env function_id status_param "dev-token"
            functions_db
          = (Raised (AttributeError
                       "'str' object has no attribute 'HTTP_400_BAD_REQUEST'"),
             functions_db)
    end.
Proof.
  intros env function_id status_param functions_db.
  unfold update_function_status. rewrite !Depends_accepts.
  destruct (dict_get function_id functions_db) as [f|]; [|reflexivity].
  unfold mem. cbn [existsb].
  rewrite (String.eqb_sym status_param "active"),
    (String.eqb_sym status_param "inactive"), orb_false_r.
  destruct (String.eqb "active" status_param || String.eqb "inactive" status_param);
    cbn [negb]; [|reflexivity].
  cbn [fst snd base id created_at updated_at status].
  split; [reflexivity|]. split; [apply dict_get_set_same|].
  intros other Hne.
  rewrite !dict_get_set_other; [reflexivity | | ]; now apply not_eq_sym.
Qed.

Lemma update_function_status_shadowed_witness :
  update_function_status (mkEnv "u" "t9") "id-9" "active" "dev-token" store2
  = (Raised (AttributeError
               "'str' object has no attribute 'HTTP_404_NOT_FOUND'"),
     store2).
Proof.
  exact (update_function_status_shadowed (mkEnv "u" "t9") "id-9" "active"
           store2).
Defined.

(** ** Deletion *)

(** After [delete_function] the id is gone -- a [get_function] gives 404
    -- and every other function is stored as before; deleting an unknown
    id gives 404 and changes nothing. *)
Theorem delete_function_removes :
  forall (function_id : string) (functions_db : db),
    let db' := snd (delete_function function_id "dev-token" functions_db) in
    get_function function_id "dev-token" db'
    = (Raised (not_found_id function_id), db') /\
    (forall other, other <> function_id ->
                   dict_get other db' = dict_get other functions_db) /\
    (dict_get function_id functions_db = None ->
     delete_function function_id "dev-token" functions_db
     = (Raised (not_found_id function_id), functions_db)).
Proof.
  intros function_id functions_db db'. subst db'.
  unfold delete_function, get_function. rewrite !Depends_accepts.
  destruct (dict_get function_id functions_db) eqn:Hget; cbn [snd].
  - rewrite dict_get_del_same. split; [reflexivity|]. split; [|discriminate].
    intros other Hne. apply dict_get_del_other. now apply not_eq_sym.
  - rewrite Hget. split; [reflexivity|]. split; reflexivity.
Qed.

Lemma delete_function_removes_witness :
  delete_function "id-9" "dev-token" store2
  = (Raised (not_found_id "id-9"), store2).
Proof.
  destruct (delete_function_removes "id-9" store2) as [_ [_ Hmissing]].
  apply Hmissing. reflexivity.
Defined.

(** ** The store stays well formed *)

Lemma dict_del_In {V} (k k0 : string) (v0 : V) (d : list (string * V)) :
  In (k0, v0) (dict_del k d) -> In (k0, v0) d.
Proof. unfold dict_del. intros H. apply filter_In in H. tauto. Qed.

Lemma dict_del_NoDup {V} (k : string) (d : list (string * V)) :
  NoDup (dict_keys d) -> NoDup (dict_keys (dict_del k d)).
Proof.
  unfold dict_keys, dict_del. induction d as [|[k' v'] d IH]; simpl;
    [constructor|].
  intros Hnd. inversion Hnd as [|x l Hx Hl]; subst.
  destruct (String.eqb k' k); simpl; [now apply IH|].
  constructor; [|now apply IH].
  intros Hin. apply Hx. apply in_map_iff in Hin.
  destruct Hin as [[k0 v0] [Heq Hin]]. simpl in Heq. subst k0.
  apply filter_In in Hin. destruct Hin as [Hin _].
  apply (in_map fst) in Hin. exact Hin.
Qed.

Lemma well_formed_set (k : string) (f : Function) (d : db) :
  well_formed d -> id f = k -> valid_status (status f) ->
  well_formed (dict_set k f d).
Proof.
  intros [Hnd Hall] Hid Hst. split; [now apply dict_set_NoDup|].
  intros k0 f0 Hin. destruct (dict_set_In _ _ _ _ _ Hin) as [Heq|Hold].
  - injection Heq as -> ->. now split.
  - now apply Hall.
Qed.

(** The store starts empty, and every request -- accepted, refused or
    failed -- leaves it well formed: the keys are distinct, each function
    is stored under its own id, and every status is [active] or
    [inactive]. *)
Theorem store_stays_well_formed :
  well_formed [] /\
  forall (c : call) (credentials : string) (functions_db : db),
    well_formed functions_db ->
    well_formed (after c credentials functions_db).
Proof.
  split; [split; [constructor | intros k f []]|].
  intros c credentials functions_db Hwf.
  destruct c; unfold after, create_function, list_functions, get_function,
    get_function_by_name, update_function, update_function_status,
    delete_function, Depends;
    destruct (validate_token credentials); try exact Hwf.
  - destruct (find_by_name _ _); [exact Hwf|]. cbn [snd].
    apply well_formed_set; [exact Hwf | reflexivity | now right].
  - destruct (dict_get function_id functions_db); exact Hwf.
  - destruct (find_by_name _ _); exact Hwf.
  - destruct (dict_get function_id functions_db) as [existing|] eqn:Hget;
      [|exact Hwf].
    cbn [snd]. apply well_formed_set; [exact Hwf | reflexivity|].
    destruct Hwf as [_ Hall]. exact (proj2 (Hall _ _ (dict_get_In _ _ _ Hget))).
  - destruct (dict_get function_id functions_db) as [f|] eqn:Hget; [|exact Hwf].
    destruct (mem status_param ["active"; "inactive"]) eqn:Hmem; cbn [negb];
      [|exact Hwf].
    assert (Hvalid : valid_status status_param).
    { unfold mem in Hmem. cbn [existsb] in Hmem. rewrite orb_false_r in Hmem.
      apply orb_true_iff in Hmem.
      destruct Hmem as [E|E]; apply String.eqb_eq in E; [now left | now right]. }
    assert (Hid : id f = function_id)
      by (destruct Hwf as [_ Hall]; exact (proj1 (Hall _ _ (dict_get_In _ _ _ Hget)))).
    cbn [snd base id created_at updated_at status].
    apply well_formed_set; [apply well_formed_set| |]; assumption.
  - destruct (dict_get function_id functions_db); [|exact Hwf]. cbn [snd].
    destruct Hwf as [Hnd Hall]. split; [now apply dict_del_NoDup|].
    intros k0 f0 Hin. apply Hall. exact (dict_del_In _ _ _ _ Hin).
Qed.

Lemma store_stays_well_formed_witness :
  well_formed (after (UpdateStatus (mkEnv "u" "t9") "id-1" "active")
                 "dev-token" (after (Create (mkEnv "id-1" "t0") hello)
                                "dev-token" [])).
Proof.
  destruct store_stays_well_formed as [Hempty Hstep].
  apply Hstep. apply Hstep. exact Hempty.
Defined.

(** ** Listing *)

Lemma dict_set_fresh {V} (k : string) (v : V) (d : list (string * V)) :
  dict_get k d = None -> dict_set k v d = d ++ [(k, v)].
Proof.
  induction d as [|[k' v'] d IH]; simpl; [reflexivity|].
  destruct (String.eqb k' k); [discriminate|].
  intros H. now rewrite IH.
Qed.

(** [list_functions] gives the functions in the order of their creation:
    a function created under a new id and a new name comes last. *)
Theorem list_functions_in_creation_order :
  forall (env : request_env) (function : FunctionCreate) (functions_db : db),
    dict_get (uuid4 env) functions_db = None ->
    find_by_name (name function) (dict_values functions_db) = None ->
    fst (list_functions "dev-token"
           (snd (create_function env function "dev-token" functions_db)))
    = Return (dict_values functions_db
              ++ [mkFunction function (uuid4 env) (now env) (now env) "inactive"]).
Proof.
  intros env function functions_db Hfresh Hname.
  unfold list_functions, create_function. rewrite !Depends_accepts, Hname.
  cbn [fst snd]. rewrite (dict_set_fresh _ _ _ Hfresh).
  unfold dict_values. now rewrite map_app.
Qed.

Lemma list_functions_in_creation_order_witness :
  fst (list_functions "dev-token"
         (snd (create_function (mkEnv "id-3" "t2")
                 (mkFunctionCreate "third" "nodejs" "img" None None)
                 "dev-token" store2)))
  = Return (dict_values store2
            ++ [mkFunction (mkFunctionCreate "third" "nodejs" "img" None None)
                  "id-3" "t2" "t2" "inactive"]).
Proof.
  apply (list_functions_in_creation_order (mkEnv "id-3" "t2")
           (mkFunctionCreate "third" "nodejs" "img" None None) store2);
    reflexivity.
Defined.

End MetadataFacts.

(** * Properties of the authentication service *)

Module AuthFacts.

Import Auth.

(** ** The table *)




(** In a column without repetitions a look-up by that column finds the
    row itself. *)
Lemma find_by_column (col : user -> string) (users : list user) (row : user) :
  NoDup (map col users) -> In row users ->
  find (fun r => String.eqb (col r) (col row)) users = Some row.
Proof.
  induction users as [|a users IH]; simpl; intros Hnd Hin; [destruct Hin|].
  inversion Hnd as [|x l Hx Hl]; subst.
  destruct Hin as [->|Hin]; [now rewrite String.eqb_refl|].
  destruct (String.eqb (col a) (col row)) eqn:E; [|now apply IH].
  apply String.eqb_eq in E. exfalso. apply Hx. rewrite E. now apply in_map.
Qed.

Lemma NoDup_snoc {A} (l : list A) (x : A) :
  NoDup l -> ~ In x l -> NoDup (l ++ [x]).
Proof.
  intros Hnd Hx. induction Hnd as [|a l Ha Hl IH]; simpl.
  - constructor; [intros [] | constructor].
  - constructor.
    + intros Hin. apply in_app_or in Hin. destruct Hin as [Hin|[<-|[]]].
      * contradiction.
      * apply Hx. now left.
    + apply IH. intros Hin. apply Hx. now right.
Qed.

Lemma insert_unique (row : user) (users users' : list user) :
  unique users -> insert row users = Some users' -> unique users'.
Proof.
  unfold insert, unique. intros [Hid [Hname Hmail]].
  destruct (existsb _ users) eqn:E; [discriminate|].
  intros H. injection H as <-. rewrite !map_app. simpl.
  assert (Hfresh : forall r, In r users ->
             id r <> id row /\ username r <> username row /\ email r <> email row).
  { intros r Hin.
    assert (Hr : (String.eqb (id r) (id row)
                  || String.eqb (username r) (username row)
                  || String.eqb (email r) (email row)) = false).
    { destruct (_ || _ || _) eqn:Er; [|reflexivity].
      assert (existsb (fun r => String.eqb (id r) (id row)
                                || String.eqb (username r) (username row)
                                || String.eqb (email r) (email row)) users = true)
        as Habs by (apply existsb_exists; now exists r).
      congruence. }
    apply orb_false_iff in Hr. destruct Hr as [Hr Hm].
    apply orb_false_iff in Hr. destruct Hr as [Hi Hn].
    apply String.eqb_neq in Hi, Hn, Hm. now repeat split. }
  assert (Hcol : forall col : user -> string,
             (forall r, In r users -> col r <> col row) ->
             ~ In (col row) (map col users)).
  { intros col Hc Hin. apply in_map_iff in Hin. destruct Hin as [r [Heq Hin]].
    now apply (Hc r Hin). }
  split; [|split]; apply NoDup_snoc; try assumption; apply Hcol;
    intros r Hin; apply (Hfresh r Hin).
Qed.

(** ** Registration *)

Lemma dict_get_nonempty (k v : string) (d : list (string * string)) :
  dict_get k d = Some v -> d <> [].
Proof. intros H ->. discriminate. Qed.

Lemma register_fields (L : library) (env : request_env)
  (data : list (string * string)) (users : list user) (u e p : string) :
  dict_get "username" data = Some u ->
  dict_get "email" data = Some e ->
  dict_get "password" data = Some p ->
  register L env (Some data) users =
  if Nat.ltb (String.length p) 8 then
    (Return (error "Password must be at least 8 characters long") 400, users)
  else
    match select_by_username_or_email u e users with
    | Some _ => (Return (error "Username or email already exists") 409, users)
    | None =>
        let user_id := "user_" +++ String.substring 0 12 (uuid4_hex env) in
        match insert (mkUser user_id u e (generate_password_hash L p)
                        (CURRENT_TIMESTAMP env)) users with
        | None => (Raised IntegrityError, users)
        | Some users' =>
            (Return (JObject [("message", JString "User registered successfully");
                              ("user_id", JString user_id);
                              ("username", JString u)]) 201,
             users')
        end
    end.
Proof.
  intros Hu He Hp. destruct data as [|kv rest]; [discriminate|].
  unfold register. rewrite Hu, He, Hp. reflexivity.
Qed.

Lemma register_missing (L : library) (env : request_env)
  (data : list (string * string)) (users : list user) :
  forallb (has_key data) ["username"; "email"; "password"] = false ->
  register L env (Some data) users =
  (Return (error "Username, email, and password are required") 400, users).
Proof.
  unfold has_key. cbn [forallb]. intros H.
  destruct data as [|kv rest]; [reflexivity|].
  unfold register.
  destruct (dict_get "username" (kv :: rest)); [|reflexivity].
  destruct (dict_get "email" (kv :: rest)); [|reflexivity].
  destruct (dict_get "password" (kv :: rest)); [discriminate | reflexivity].
Qed.



(** Whatever the request, [register] keeps the ids, the usernames and the
    emails of the table distinct, and it changes the table only by adding
    one row at the end, with the answer 201. *)
Theorem register_keeps_unique :
  forall (L : library) (env : request_env)
         (data : option (list (string * string))) (users : list user),
    (unique users -> unique (snd (register L env data users))) /\
    (snd (register L env data users) = users \/
     exists row body,
       register L env data users = (Return body 201, users ++ [row])).
Proof.
  intros L env data users.
  destruct data as [data|]; [|split; [trivial | now left]].
  destruct (forallb (has_key data) ["username"; "email"; "password"]) eqn:Hall.
  - unfold has_key in Hall. cbn [forallb] in Hall.
    destruct (dict_get "username" data) as [u|] eqn:Hu; [|discriminate].
    destruct (dict_get "email" data) as [e|] eqn:He; [|discriminate].
    destruct (dict_get "password" data) as [p|] eqn:Hp; [|discriminate].
    rewrite (register_fields L env data users u e p Hu He Hp).
    destruct (Nat.ltb (String.length p) 8); [split; [trivial | now left]|].
    destruct (select_by_username_or_email u e users);
      [split; [trivial | now left]|].
    cbv zeta.
    destruct (insert _ users) as [users'|] eqn:Hins;
      [|split; [trivial | now left]].
    cbn [snd]. split.
    + intros Huniq. exact (insert_unique _ _ _ Huniq Hins).
    + right. unfold insert in Hins.
      destruct (existsb _ users); [discriminate|]. injection Hins as <-.
      eexists. eexists. reflexivity.
  - rewrite (register_missing L env data users Hall). split; [trivial | now left].
Qed.

Lemma register_keeps_unique_witness :
  unique (snd (register toy_library env0 (Some ann_data) [])).
Proof.
  apply (register_keeps_unique toy_library env0 (Some ann_data) []).
  repeat split; constructor.
Defined.

(** ** Logging in *)

Lemma login_fields (L : library) (env : request_env)
  (data : list (string * string)) (users : list user) (u p : string) :
  dict_get "username" data = Some u ->
  dict_get "password" data = Some p ->
  login L env (Some data) users =
  match select_by_username u users with
  | None => Return (error "Invalid username or password") 401
  | Some user =>
      if negb (check_password_hash L (password_hash user) p) then
        Return (error "Invalid username or password") 401
      else
        Return (JObject [("message", JString "Login successful");
                         ("token", JString (generate_token L env (id user)
                                              (username user)));
                         ("user", JObject [("id", JString (id user));
                                           ("username", JString (username user))])])
               200
  end.
Proof.
  intros Hu Hp. destruct data as [|kv rest]; [discriminate|].
  unfold login. rewrite Hu, Hp. reflexivity.
Qed.



(** [login] gives no token without a matching password: when no row with
    the username has a hash that the library accepts for the password --
    there may be no such row at all -- the answer is 401 with one and the
    same message. *)
Theorem login_needs_password :
  forall (L : library) (env : request_env) (data : list (string * string))
         (users : list user) (u p : string),
    dict_get "username" data = Some u ->
    dict_get "password" data = Some p ->
    (forall row, In row users -> username row = u ->
                 check_password_hash L (password_hash row) p = false) ->
    login L env (Some data) users =
    Return (error "Invalid username or password") 401.
Proof.
  intros L env data users u p Hu Hp Hnone.
  rewrite (login_fields L env data users u p Hu Hp).
  destruct (select_by_username u users) as [user|] eqn:Hsel; [|reflexivity].
  unfold select_by_username in Hsel. apply find_some in Hsel.
  destruct Hsel as [Hin Heq]. apply String.eqb_eq in Heq.
  now rewrite (Hnone user Hin Heq).
Qed.

Lemma login_needs_password_witness :
  login toy_library env0 (Some [("username", "ann"); ("password", "letmein")])
    [mkUser "user_1" "ann" "ann@example.com" "h:password123" "2025-01-01"] =
  Return (error "Invalid username or password") 401.
Proof.
  apply (login_needs_password toy_library env0
           [("username", "ann"); ("password", "letmein")]
           [mkUser "user_1" "ann" "ann@example.com" "h:password123" "2025-01-01"]
           "ann" "letmein" eq_refl eq_refl).
  intros row [<-|[]] _. reflexivity.
Defined.

(** ** Protected routes *)


Lemma prefix_of_append (s t : string) : String.prefix s (s +++ t) = true.
Proof.
  induction s as [|a s IH]; simpl.
  - now destruct t.
  - destruct (ascii_dec a a) as [_|Hne]; [exact IH | now destruct Hne].
Qed.

Lemma split_spaces_Bearer (t : string) :
  split_spaces ("Bearer " +++ t) = "Bearer" :: split_spaces t.
Proof. reflexivity. Qed.

Lemma split_spaces_nonempty (s : string) : split_spaces s <> [].
Proof.
  destruct s as [|c s]; simpl; [discriminate|].
  destruct (Ascii.eqb c " "); [discriminate|].
  destruct (split_spaces s); discriminate.
Qed.

Lemma split_spaces_no_space (s : string) :
  no_space s = true -> split_spaces s = [s].
Proof.
  induction s as [|c s IH]; simpl; [reflexivity|].
  destruct (Ascii.eqb c " "); simpl; [discriminate|].
  intros H. now rewrite (IH H).
Qed.

Lemma auth_required_Bearer (L : library) (env : request_env)
  (f : payload -> list user -> outcome) (t : string) (users : list user) :
  auth_required L env f (Some ("Bearer " +++ t)) users =
  match verify_token L env (hd "" (split_spaces t)) with
  | None => Return (error "Invalid or expired token") 401
  | Some payload => f payload users
  end.
Proof.
  unfold auth_required. rewrite prefix_of_append, split_spaces_Bearer.
  change (String.eqb ("Bearer " +++ t) "") with false. cbn [orb negb].
  destruct (split_spaces t) as [|token rest] eqn:E; [|reflexivity].
  now destruct (split_spaces_nonempty t).
Qed.


(** The token of a login opens [/auth/me] for the user who logged in: on a
    table with distinct ids and usernames, a [login] with the password of
    a row answers 200 with a token, and [get_current_user] with that token
    as bearer -- the token holding no space and the library decoding it to
    the claims it was made of -- answers with the id, username, email and
    creation time of that row. *)
Theorem login_then_me :
  forall (L : library) (env env' : request_env) (data : list (string * string))
         (users : list user) (row : user) (p : string),
    unique users ->
    In row users ->
    dict_get "username" data = Some (username row) ->
    dict_get "password" data = Some p ->
    check_password_hash L (password_hash row) p = true ->
    let claims := mkPayload (id row) (username row) (time env + JWT_EXPIRATION) in
    no_space (jwt_encode L claims) = true ->
    jwt_decode L (time env') (jwt_encode L claims) = Some claims ->
    login L env (Some data) users =
    Return (JObject [("message", JString "Login successful");
                     ("token", JString (jwt_encode L claims));
                     ("user", JObject [("id", JString (id row));
                                       ("username", JString (username row))])])
           200 /\
    get_current_user L env' (Some ("Bearer " +++ jwt_encode L claims)) users =
    Return (JObject [("id", JString (id row));
                     ("username", JString (username row));
                     ("email", JString (email row));
                     ("created_at", JString (created_at row))]) 200.
Proof.
  intros L env env' data users row p [Hids [Hnames _]] Hin Hu Hp Hcheck claims
    Hspace Hdecode.
  split.
  - rewrite (login_fields L env data users (username row) p Hu Hp).
    unfold select_by_username.
    rewrite (find_by_column username users row Hnames Hin), Hcheck.
    reflexivity.
  - unfold get_current_user. rewrite auth_required_Bearer.
    rewrite (split_spaces_no_space _ Hspace). cbn [hd].
    unfold verify_token. rewrite Hdecode.
    unfold select_by_id. cbn [user_id claims].
    now rewrite (find_by_column id users row Hids Hin).
Qed.

Lemma login_then_me_witness :
  get_current_user toy_library (mkEnv 2000 "ffff" "2025-01-02")
    (Some "Bearer jwt.user_1")
    [mkUser "user_1" "ann" "ann@example.com" "h:password123" "2025-01-01"] =
  Return (JObject [("id", JString "user_1");
                   ("username", JString "ann");
                   ("email", JString "ann@example.com");
                   ("created_at", JString "2025-01-01")]) 200.
Proof.
  destruct (login_then_me toy_library env0 (mkEnv 2000 "ffff" "2025-01-02")
              [("username", "ann"); ("password", "password123")]
              [mkUser "user_1" "ann" "ann@example.com" "h:password123" "2025-01-01"]
              (mkUser "user_1" "ann" "ann@example.com" "h:password123" "2025-01-01")
              "password123") as [_ Hme];
    [repeat split; constructor; (intros [] || constructor)
    | now left | reflexivity | reflexivity | reflexivity | reflexivity
    | reflexivity | exact Hme].
Defined.

End AuthFacts.
